(** * dbt_up: registry publisher and cross-project lineage validator

    A shallow embedding of [validate_lineage.py] and
    [dbt_up/publish_manifest.py].  The Python run time the two scripts rely
    on (strings, parsed JSON values, exceptions, [pathlib] paths, the file
    system, the object store and standard output) is modelled in [Py]; each
    script is a module of its own whose definitions follow the source
    function by function. *)

From Stdlib Require Import String Ascii List Bool Arith ZArith Lia.
Import ListNotations.

Open Scope string_scope.
Open Scope list_scope.

Set Warnings "-register-all".

(* ===================================================================== *)
(** * The Python run time *)
(* ===================================================================== *)

Module Py.

(** ** Strings *)

(** [s.startswith(prefix)] *)
Fixpoint startswith (s prefix : string) {struct prefix} : bool :=
  match prefix with
  | EmptyString => true
  | String a prefix' =>
      match s with
      | EmptyString => false
      | String b s' => Ascii.eqb a b && startswith s' prefix'
      end
  end.

(** [needle in hay] on two strings: [needle] occurs at some offset. *)
Fixpoint str_in (needle hay : string) : bool :=
  startswith hay needle ||
  match hay with
  | EmptyString => false
  | String _ hay' => str_in needle hay'
  end.

(** [sep.join(parts)] *)
Fixpoint join (sep : string) (parts : list string) : string :=
  match parts with
  | [] => EmptyString
  | [p] => p
  | p :: rest => p ++ sep ++ join sep rest
  end.

(** [c * n] for a one-character string [c] *)
Fixpoint repeat_char (c : ascii) (n : nat) : string :=
  match n with
  | O => EmptyString
  | S n' => String c (repeat_char c n')
  end.

(** [s.split(sep)] for a one-character separator; [cur] holds the
    characters of the field being read, most recent first. *)
Fixpoint rev_string (acc s : string) : string :=
  match s with
  | EmptyString => acc
  | String c s' => rev_string (String c acc) s'
  end.

Fixpoint split_on (sep : ascii) (cur : string) (s : string) : list string :=
  match s with
  | EmptyString => [rev_string EmptyString cur]
  | String c s' =>
      if Ascii.eqb c sep
      then rev_string EmptyString cur :: split_on sep EmptyString s'
      else split_on sep (String c cur) s'
  end.

Definition split (sep : ascii) (s : string) : list string :=
  split_on sep EmptyString s.

(** [s.split(".")[-1]]: [split] never returns an empty list. *)
Definition last_field (sep : ascii) (s : string) : string :=
  last (split sep s) EmptyString.

(** The characters of a string, as one-character strings (iteration over
    a [str]). *)
Fixpoint chars (s : string) : list string :=
  match s with
  | EmptyString => []
  | String c s' => String c EmptyString :: chars s'
  end.

(** Decimal digits of a natural number, most significant first. *)
Definition digit (n : nat) : ascii := ascii_of_nat (48 + n mod 10)%nat.

Fixpoint digits_fuel (fuel n : nat) (acc : string) : string :=
  match fuel with
  | O => acc
  | S fuel' =>
      let acc' := String (digit n) acc in
      if Nat.eqb (n / 10) 0 then acc' else digits_fuel fuel' (n / 10)%nat acc'
  end.

(** [str(n)] for a non-negative [int] *)
Definition str_of_nat (n : nat) : string := digits_fuel (S n) n EmptyString.

(** [f"{n:0{width}d}"]: zero padding on the left up to [width]. *)
Definition zero_pad (width n : nat) : string :=
  let d := str_of_nat n in
  repeat_char "0" (width - String.length d) ++ d.

(** ** Parsed JSON documents

    What [json.load] returns: [None], [bool], [int], [float], [str],
    [list] and [dict].  A [dict] is kept as the list of its items in
    insertion order. *)

Inductive json : Type :=
| JNull
| JBool (b : bool)
| JInt (z : Z)
| JFloat (literal : string)
| JStr (s : string)
| JArr (elems : list json)
| JObj (items : list (string * json)).

(** [type(v).__name__] *)
Definition type_name (v : json) : string :=
  match v with
  | JNull => "NoneType"
  | JBool _ => "bool"
  | JInt _ => "int"
  | JFloat _ => "float"
  | JStr _ => "str"
  | JArr _ => "list"
  | JObj _ => "dict"
  end.

(** ** Dictionaries with string keys, in insertion order *)

Definition dict (A : Type) : Type := list (string * A).

Definition keys {A} (d : dict A) : list string := map fst d.

Fixpoint dict_get {A} (k : string) (d : dict A) : option A :=
  match d with
  | [] => None
  | (k', v) :: d' => if String.eqb k k' then Some v else dict_get k d'
  end.

(** [d[k] = v]: an existing key keeps its position, a new key goes last. *)
Fixpoint dict_set {A} (k : string) (v : A) (d : dict A) : dict A :=
  match d with
  | [] => [(k, v)]
  | (k', v') :: d' =>
      if String.eqb k k' then (k', v) :: d' else (k', v') :: dict_set k v d'
  end.

(** [{**a, **b}]: a copy of [a] into which the items of [b] are stored one
    after the other. *)
Definition dict_merge {A} (a b : dict A) : dict A :=
  fold_left (fun acc kv => dict_set (fst kv) (snd kv) acc) b a.

(** ** Exceptions *)

Inductive exn : Type :=
| FileNotFoundError (msg : string)
| IsADirectoryError (msg : string)
| NotADirectoryError (msg : string)
| FileExistsError (msg : string)
| SameFileError (msg : string)
| JSONDecodeError (msg : string)
| AttributeError (tyname attr : string)
| TypeError (tyname : string)
| ImportError (msg : string)
| ValueError (msg : string).

(** [str(e)] *)
Definition str_of_exn (e : exn) : string :=
  match e with
  | FileNotFoundError msg | IsADirectoryError msg | NotADirectoryError msg
  | FileExistsError msg | SameFileError msg | JSONDecodeError msg
  | ImportError msg | ValueError msg => msg
  | AttributeError tyname attr =>
      "'" ++ tyname ++ "' object has no attribute '" ++ attr ++ "'"
  | TypeError tyname => "'" ++ tyname ++ "' object is not iterable"
  end.

Inductive result (A : Type) : Type :=
| Ok (a : A)
| Raise (e : exn).
Arguments Ok {A} a.
Arguments Raise {A} e.

Definition rbind {A B} (r : result A) (k : A -> result B) : result B :=
  match r with
  | Ok a => k a
  | Raise e => Raise e
  end.

Notation "x <-- r ;; k" := (rbind r (fun x => k))
  (at level 61, r at next level, right associativity).

(** A [for] loop over [l] that updates an accumulator and stops at the
    first exception. *)
Fixpoint for_each {A S} (body : S -> A -> result S) (l : list A) (s : S)
  : result S :=
  match l with
  | [] => Ok s
  | a :: l' => s' <-- body s a ;; for_each body l' s'
  end.

(** ** Operations on JSON values *)

(** [d.get(key, default)] *)
Definition py_get (d : json) (key : string) (default : json) : result json :=
  match d with
  | JObj items =>
      Ok (match dict_get key items with Some v => v | None => default end)
  | _ => Raise (AttributeError (type_name d) "get")
  end.

(** [d.items()] *)
Definition py_items (d : json) : result (dict json) :=
  match d with
  | JObj items => Ok items
  | _ => Raise (AttributeError (type_name d) "items")
  end.

(** [for x in v]: a list yields its elements, a string its characters, a
    dictionary its keys; nothing else can be iterated. *)
Definition py_iter (v : json) : result (list json) :=
  match v with
  | JArr elems => Ok elems
  | JStr s => Ok (map JStr (chars s))
  | JObj items => Ok (map JStr (keys items))
  | _ => Raise (TypeError (type_name v))
  end.

(** [v == s] for a string literal [s] *)
Definition py_eq_str (v : json) (s : string) : bool :=
  match v with
  | JStr s' => String.eqb s' s
  | _ => false
  end.

(** ** Paths ([pathlib.PurePosixPath])

    A path is its root (empty for a relative path, one slash, or two
    slashes when the text starts with exactly two) and its components;
    empty components and single dots are dropped when a path is read, and
    a double dot is kept as it is. *)

Record path : Type := mkpath { root : string; parts : list string }.

Definition path_root (s : string) : string :=
  match s with
  | String "/" (String "/" (String "/" _)) => "/"
  | String "/" (String "/" _) => "//"
  | String "/" _ => "/"
  | _ => EmptyString
  end.

Definition is_component (s : string) : bool :=
  negb (String.eqb s EmptyString || String.eqb s ".").

Definition path_parts (s : string) : list string :=
  filter is_component (split "/" s).

(** [Path(s)] *)
Definition Path (s : string) : path :=
  {| root := path_root s; parts := path_parts s |}.

(** [p / s]: an absolute right operand replaces the left one. *)
Definition joinpath (p : path) (s : string) : path :=
  if String.eqb (path_root s) EmptyString
  then {| root := root p; parts := parts p ++ path_parts s |}
  else Path s.

Notation "p // s" := (joinpath p s) (at level 40, left associativity).

(** [str(p)] *)
Definition str_of_path (p : path) : string :=
  match root p, parts p with
  | EmptyString, [] => "."
  | r, ps => r ++ join "/" ps
  end.

(** [p.parent] *)
Definition parent (p : path) : path :=
  {| root := root p; parts := removelast (parts p) |}.

(** [p.name] *)
Definition name (p : path) : string := last (parts p) EmptyString.

Definition list_eqb (l1 l2 : list string) : bool :=
  if list_eq_dec string_dec l1 l2 then true else false.

Definition path_eqb (p q : path) : bool :=
  String.eqb (root p) (root q) && list_eqb (parts p) (parts q).

(** ** The world a script runs in

    The file system maps a path to what is stored there; paths are
    compared as [pathlib] compares them (no link or double-dot
    resolution).  The object store maps a bucket and a key to an object.
    Standard output is the list of the lines printed so far.  The clock
    holds what the next reading of the time returns. *)

Inductive entry : Type :=
| File (content : string)
| Dir.

Record s3_object : Type :=
  { Body : string; ContentType : string }.

(** A reading of the clock ([datetime.datetime], to the second). *)
Record datetime : Type :=
  { year : nat; month : nat; day : nat;
    hour : nat; minute : nat; second : nat }.

Record World : Type := mkWorld
  { fs : path -> option entry;
    s3 : string -> string -> option s3_object;
    stdout : list string;
    clock : datetime }.

Definition set_fs (f : path -> option entry) (w : World) : World :=
  {| fs := f; s3 := s3 w; stdout := stdout w; clock := clock w |}.

Definition set_s3 (o : string -> string -> option s3_object) (w : World)
  : World :=
  {| fs := fs w; s3 := o; stdout := stdout w; clock := clock w |}.

Definition set_stdout (out : list string) (w : World) : World :=
  {| fs := fs w; s3 := s3 w; stdout := out; clock := clock w |}.

Definition set_clock (d : datetime) (w : World) : World :=
  {| fs := fs w; s3 := s3 w; stdout := stdout w; clock := d |}.

Definition fs_write (p : path) (e : entry) (f : path -> option entry)
  : path -> option entry :=
  fun q => if path_eqb q p then Some e else f q.

Definition s3_write (bucket key : string) (o : s3_object)
  (store : string -> string -> option s3_object)
  : string -> string -> option s3_object :=
  fun b k => if String.eqb b bucket && String.eqb k key then Some o
             else store b k.

(** ** Computations: a result or an exception, and the world after *)

Definition M (A : Type) : Type := World -> result A * World.

Definition ret {A} (a : A) : M A := fun w => (Ok a, w).

Definition raise {A} (e : exn) : M A := fun w => (Raise e, w).

Definition lift {A} (r : result A) : M A := fun w => (r, w).

Definition bind {A B} (m : M A) (k : A -> M B) : M B :=
  fun w =>
    match m w with
    | (Ok a, w') => k a w'
    | (Raise e, w') => (Raise e, w')
    end.

Notation "x <- m ;; k" := (bind m (fun x => k))
  (at level 61, m at next level, right associativity).
Notation "m ;;; k" := (bind m (fun _ => k))
  (at level 61, right associativity).

(** [try: m  except Exception as e: handler(e)] *)
Definition try_except {A} (m : M A) (handler : exn -> M A) : M A :=
  fun w =>
    match m w with
    | (Ok a, w') => (Ok a, w')
    | (Raise e, w') => handler e w'
    end.

(** [print(line)] *)
Definition print (line : string) : M unit :=
  fun w => (Ok tt, set_stdout (stdout w ++ [line]) w).

(** The line feed character, for the blank line a [print] starts with. *)
Definition nl : string := String (ascii_of_nat 10) EmptyString.

(** [datetime.utcnow()] *)
Definition utcnow : M datetime := fun w => (Ok (clock w), w).

(** [p.exists()] *)
Definition path_exists (p : path) : M bool :=
  fun w => (Ok (match fs w p with Some _ => true | None => false end), w).

(** [open(p).read()] *)
Definition read_text (p : path) : M string :=
  fun w =>
    match fs w p with
    | Some (File content) => (Ok content, w)
    | Some Dir =>
        (Raise (IsADirectoryError
                  ("[Errno 21] Is a directory: '" ++ str_of_path p ++ "'")), w)
    | None =>
        (Raise (FileNotFoundError
                  ("[Errno 2] No such file or directory: '"
                   ++ str_of_path p ++ "'")), w)
    end.

(** [json.load(open(p))]; [loads] is the decoder of the [json] module: the
    decoded document, or the message of the [JSONDecodeError]. *)
Definition json_load (loads : string -> string + json) (p : path) : M json :=
  content <- read_text p ;;
  match loads content with
  | inr doc => ret doc
  | inl msg => raise (JSONDecodeError msg)
  end.

(** [p.mkdir(parents=True, exist_ok=True)]: every missing directory from
    the root down to [p] is created; a file on the way is an error.
    [done] holds the components already walked. *)
Fixpoint mkdir_from (r : string) (done todo : list string) : M unit :=
  match todo with
  | [] => ret tt
  | c :: todo' =>
      let here := {| root := r; parts := done ++ [c] |} in
      fun w =>
        match fs w here with
        | Some Dir => mkdir_from r (done ++ [c]) todo' w
        | None =>
            mkdir_from r (done ++ [c]) todo' (set_fs (fs_write here Dir (fs w)) w)
        | Some (File _) =>
            match todo' with
            | [] =>
                (Raise (FileExistsError
                          ("[Errno 17] File exists: '"
                           ++ str_of_path here ++ "'")), w)
            | _ =>
                (Raise (NotADirectoryError
                          ("[Errno 20] Not a directory: '"
                           ++ str_of_path here ++ "'")), w)
            end
        end
  end.

Definition mkdir_parents (p : path) : M unit :=
  mkdir_from (root p) [] (parts p).

(** [open(p, "wb").write(content)]: [p] is not a directory and the
    directory that holds it exists. *)
Definition write_file (p : path) (content : string) : M unit :=
  fun w =>
    match fs w p, fs w (parent p) with
    | Some Dir, _ =>
        (Raise (IsADirectoryError
                  ("[Errno 21] Is a directory: '" ++ str_of_path p ++ "'")), w)
    | _, Some Dir => (Ok tt, set_fs (fs_write p (File content) (fs w)) w)
    | _, Some (File _) =>
        (Raise (NotADirectoryError
                  ("[Errno 20] Not a directory: '" ++ str_of_path p ++ "'")), w)
    | _, None =>
        (Raise (FileNotFoundError
                  ("[Errno 2] No such file or directory: '"
                   ++ str_of_path p ++ "'")), w)
    end.

(** Where [shutil.copy2(src, dst)] writes: into [dst] under the name of
    [src] when [dst] is a directory. *)
Definition copy_target (src dst : path) (w : World) : path :=
  match fs w dst with
  | Some Dir => dst // name src
  | _ => dst
  end.

(** [shutil.copy2(src, dst)]: an existing file is not copied onto
    itself. *)
Definition copy2 (src dst : path) : M unit :=
  fun w =>
    let dst' := copy_target src dst w in
    let same := match fs w src with
                | Some _ => path_eqb src dst'
                | None => false
                end in
    if same
    then (Raise (SameFileError
                   ("'" ++ str_of_path src ++ "' and '" ++ str_of_path dst'
                    ++ "' are the same file")), w)
    else (content <- read_text src ;; write_file dst' content) w.

(** [client.put_object(Bucket=..., Key=..., Body=..., ContentType=...)] *)
Definition put_object (bucket key body content_type : string) : M unit :=
  fun w =>
    (Ok tt,
     set_s3 (s3_write bucket key
               {| Body := body; ContentType := content_type |} (s3 w)) w).

End Py.

(* ===================================================================== *)
(** * validate_lineage.py *)
(* ===================================================================== *)

Module validate_lineage.
Import Py.

Section Validator.

(** [json.loads], [repr] on values that are not strings, and the
    directory of the script ([Path(__file__).parent]). *)
Variable json_loads : string -> string + json.
Variable repr : json -> string.
Variable script_dir : path.

(** [f"{v}"] *)
Definition format (v : json) : string :=
  match v with
  | JStr s => s
  | _ => repr v
  end.

Definition load_manifest (manifest_path : path) : M json :=
  present <- path_exists manifest_path ;;
  if negb present
  then raise (FileNotFoundError
                ("Manifest not found: " ++ str_of_path manifest_path))
  else json_load json_loads manifest_path.

(** The condition of the comprehension over [parents], on a string. *)
Definition parent_cond (upstream_project parent : string) : bool :=
  startswith parent ("model." ++ upstream_project ++ ".")
  || (str_in ("." ++ upstream_project ++ ".") parent
      && startswith parent "source.").

(** [[parent for parent in parents if ...]]: the first element that is
    not a string has no [startswith]. *)
Fixpoint upstream_parents_of (upstream_project : string) (parents : list json)
  : result (list string) :=
  match parents with
  | [] => Ok []
  | JStr parent :: parents' =>
      rest <-- upstream_parents_of upstream_project parents' ;;
      Ok (if parent_cond upstream_project parent then parent :: rest else rest)
  | other :: _ => Raise (AttributeError (type_name other) "startswith")
  end.

Definition find_cross_project_refs (manifest : json) (upstream_project : string)
  : result (dict (list string)) :=
  parent_map <-- py_get manifest "parent_map" (JObj []) ;;
  items <-- py_items parent_map ;;
  for_each
    (fun cross_refs (item : string * json) =>
       let (node_id, parents) := item in
       elems <-- py_iter parents ;;
       upstream_parents <-- upstream_parents_of upstream_project elems ;;
       match upstream_parents with
       | [] => Ok cross_refs
       | _ => Ok (dict_set node_id upstream_parents cross_refs)
       end)
    items [].

(** The condition of the comprehension over [depends_on], on a string. *)
Definition dep_cond (upstream_project dep : string) : bool :=
  startswith dep ("model." ++ upstream_project ++ ".")
  || (str_in ("." ++ upstream_project ++ ".") dep
      && startswith dep "source.").

Fixpoint upstream_deps_of (upstream_project : string) (depends_on : list json)
  : result (list string) :=
  match depends_on with
  | [] => Ok []
  | JStr dep :: depends_on' =>
      rest <-- upstream_deps_of upstream_project depends_on' ;;
      Ok (if dep_cond upstream_project dep then dep :: rest else rest)
  | other :: _ => Raise (AttributeError (type_name other) "startswith")
  end.

Definition find_cross_project_refs_in_nodes (manifest : json)
  (upstream_project : string) : result (dict (list string)) :=
  nodes <-- py_get manifest "nodes" (JObj []) ;;
  items <-- py_items nodes ;;
  for_each
    (fun cross_refs (item : string * json) =>
       let (node_id, node) := item in
       d <-- py_get node "depends_on" (JObj []) ;;
       depends_on <-- py_get d "nodes" (JArr []) ;;
       elems <-- py_iter depends_on ;;
       upstream_deps <-- upstream_deps_of upstream_project elems ;;
       match upstream_deps with
       | [] => Ok cross_refs
       | _ => Ok (dict_set node_id upstream_deps cross_refs)
       end)
    items [].

(** The three diagnostics [validate_lineage] returns. *)
Definition msg_no_refs (upstream_project : string) : string :=
  "No cross-project references to '" ++ upstream_project
  ++ "' found in manifest".
Definition msg_validated : string :=
  "Cross-project lineage validated successfully".
Definition msg_partial : string := "Partial lineage found (depends_on only)".

(** A [for] loop whose body only prints. *)
Fixpoint for_print {A} (l : list A) (body : A -> M unit) : M unit :=
  match l with
  | [] => ret tt
  | a :: l' => body a ;;; for_print l' body
  end.

Definition report_findings (all_refs : dict (list string)) : M unit :=
  print (nl ++ "✓ Found " ++ str_of_nat (List.length all_refs)
         ++ " model(s) with cross-project references:" ++ nl) ;;;
  for_print all_refs
    (fun item =>
       let (node_id, upstream_parents) := item in
       let node_name := last_field "." node_id in
       print ("  " ++ node_name ++ ":") ;;;
       for_print upstream_parents
         (fun parent =>
            let parent_name := last_field "." parent in
            print ("    └── " ++ parent ++ " (upstream: "
                   ++ parent_name ++ ")"))).

Definition validate_lineage (manifest_path : path) (upstream_project : string)
  : M (bool * string) :=
  manifest <- load_manifest manifest_path ;;
  metadata <- lift (py_get manifest "metadata" (JObj [])) ;;
  project_name <- lift (py_get metadata "project_name" (JStr "unknown")) ;;
  print ("Validating lineage for project: " ++ format project_name) ;;;
  print ("Manifest path: " ++ str_of_path manifest_path) ;;;
  print ("Looking for references to: " ++ upstream_project) ;;;
  print (repeat_char "-" 60) ;;;
  parent_refs <- lift (find_cross_project_refs manifest upstream_project) ;;
  node_refs <- lift (find_cross_project_refs_in_nodes manifest upstream_project) ;;
  let all_refs := dict_merge parent_refs node_refs in
  match all_refs with
  | [] => ret (false, msg_no_refs upstream_project)
  | _ =>
      report_findings all_refs ;;;
      match parent_refs with
      | _ :: _ =>
          print (nl ++ "✓ parent_map contains " ++ upstream_project
                 ++ " references - DAG lineage preserved!") ;;;
          ret (true, msg_validated)
      | [] =>
          print (nl ++ "⚠ depends_on has refs but parent_map is missing"
                 ++ " - partial lineage") ;;;
          ret (true, msg_partial)
      end
  end.

(** The parsed command line. [--project] is one of two names when given;
    [--manifest] is a path when given. *)
Record args : Type :=
  { project : option string;
    manifest : option path;
    upstream : string;
    all : bool }.

Definition manifest_of_project (name : string) : path :=
  script_dir // name // "target" // "manifest.json".

(** The manifests selected by the command line; [None] when no selection
    flag is given. *)
Definition manifests_to_check (a : args) : option (list path) :=
  match manifest a with
  | Some p => Some [p]
  | None =>
      match project a with
      | Some (String c name) => Some [manifest_of_project (String c name)]
      | _ =>
          if all a
          then Some [manifest_of_project "dbt_down_loom";
                     manifest_of_project "dbt_down"]
          else None
      end
  end.

Definition outcome : Type := (path * bool * string)%type.

(** One turn of the loop over the manifests: the updated [results] and
    [all_passed]. *)
Definition check_one (upstream_project : string) (manifest_path : path)
  (results : list outcome) (all_passed : bool)
  : M (list outcome * bool) :=
  print (nl ++ repeat_char "=" 60) ;;;
  try_except
    (r <- validate_lineage manifest_path upstream_project ;;
     let (success, message) := r in
     ret (results ++ [(manifest_path, success, message)],
          if negb success then false else all_passed))
    (fun e =>
       match e with
       | FileNotFoundError _ =>
           print ("✗ " ++ str_of_exn e) ;;;
           ret (results ++ [(manifest_path, false, str_of_exn e)], false)
       | _ =>
           print ("✗ Error validating " ++ str_of_path manifest_path
                  ++ ": " ++ str_of_exn e) ;;;
           ret (results ++ [(manifest_path, false, str_of_exn e)], false)
       end).

Fixpoint check_all (upstream_project : string) (manifests : list path)
  (results : list outcome) (all_passed : bool)
  : M (list outcome * bool) :=
  match manifests with
  | [] => ret (results, all_passed)
  | manifest_path :: manifests' =>
      st <- check_one upstream_project manifest_path results all_passed ;;
      check_all upstream_project manifests' (fst st) (snd st)
  end.

Definition summary_line (r : outcome) : string :=
  let '(manifest_path, success, message) := r in
  let status := if success then "✓ PASS" else "✗ FAIL" in
  let project :=
    if String.eqb (name (parent manifest_path)) "target"
    then name (parent (parent manifest_path))
    else "unknown" in
  status ++ ": " ++ project ++ " - " ++ message.

Definition usage : M unit :=
  print "Usage: Specify --project, --manifest, or --all" ;;;
  print (nl ++ "Examples:") ;;;
  print "  python validate_lineage.py --project dbt_down_loom" ;;;
  print "  python validate_lineage.py --project dbt_down" ;;;
  print "  python validate_lineage.py --all" ;;;
  print "  python validate_lineage.py --manifest path/to/manifest.json".

(** [main]: the value is the exit status given to [sys.exit]. *)
Definition main (a : args) : M nat :=
  match manifests_to_check a with
  | None => usage ;;; ret 1
  | Some manifests =>
      st <- check_all (upstream a) manifests [] true ;;
      let (results, all_passed) := st in
      print (nl ++ repeat_char "=" 60) ;;;
      print "VALIDATION SUMMARY" ;;;
      print (repeat_char "=" 60) ;;;
      for_print results (fun r => print (summary_line r)) ;;;
      if all_passed
      then print (nl ++ "✓ All lineage validations passed!") ;;; ret 0
      else print (nl ++ "✗ Some validations failed - check output above") ;;;
           ret 1
  end.

End Validator.

End validate_lineage.

(* ===================================================================== *)
(** * dbt_up/publish_manifest.py *)
(* ===================================================================== *)

Module publish_manifest.
Import Py.

Section Publisher.

(** [json.loads], [repr] on a string, the directory of the script
    ([Path(__file__).parent]) and whether [import boto3] succeeded.
    Creating the client ([boto3.client]) reads and writes nothing. *)
Variable json_loads : string -> string + json.
Variable repr_str : string -> string.
Variable script_dir : path.
Variable HAS_BOTO3 : bool.

(** [f"{l}"] for a list of strings *)
Definition format_list (l : list string) : string :=
  "[" ++ join ", " (map repr_str l) ++ "]".

(** [d.strftime("%Y%m%dT%H%M%SZ")] *)
Definition strftime (d : datetime) : string :=
  zero_pad 4 (year d) ++ zero_pad 2 (month d) ++ zero_pad 2 (day d) ++ "T"
  ++ zero_pad 2 (hour d) ++ zero_pad 2 (minute d) ++ zero_pad 2 (second d)
  ++ "Z".

Definition get_manifest_path : M path :=
  let manifest_path := script_dir // "target" // "manifest.json" in
  present <- path_exists manifest_path ;;
  if negb present
  then raise (FileNotFoundError
                ("Manifest not found at " ++ str_of_path manifest_path ++ ". "
                 ++ "Run 'dbt compile' or 'dbt build' first."))
  else ret manifest_path.

Definition publish_local (manifest_path : path) (project_name env : string)
  (registry_base : path) : M (string * string) :=
  now <- utcnow ;;
  let timestamp := strftime now in
  let latest_dir := registry_base // project_name // env // "latest" in
  let history_dir :=
    registry_base // project_name // env // "history" // timestamp in
  mkdir_parents latest_dir ;;;
  mkdir_parents history_dir ;;;
  let latest_path := latest_dir // "manifest.json" in
  let history_path := history_dir // "manifest.json" in
  copy2 manifest_path latest_path ;;;
  copy2 manifest_path history_path ;;;
  print "✓ Published to local registry:" ;;;
  print ("  Latest:  " ++ str_of_path latest_path) ;;;
  print ("  History: " ++ str_of_path history_path) ;;;
  ret (str_of_path latest_path, str_of_path history_path).

Definition publish_s3 (manifest_path : path) (project_name env bucket : string)
  : M (string * string) :=
  if negb HAS_BOTO3
  then raise (ImportError
                "boto3 required for S3 publishing. Install with: pip install boto3")
  else
    now <- utcnow ;;
    let timestamp := strftime now in
    let latest_key :=
      ("registry/" ++ project_name ++ "/" ++ env
       ++ "/latest/manifest.json")%string in
    let history_key :=
      ("registry/" ++ project_name ++ "/" ++ env ++ "/history/" ++ timestamp
       ++ "/manifest.json")%string in
    manifest_content <- read_text manifest_path ;;
    put_object bucket latest_key manifest_content "application/json" ;;;
    put_object bucket history_key manifest_content "application/json" ;;;
    print "✓ Published to S3 registry:" ;;;
    print ("  Latest:  s3://" ++ bucket ++ "/" ++ latest_key) ;;;
    print ("  History: s3://" ++ bucket ++ "/" ++ history_key) ;;;
    ret (("s3://" ++ bucket ++ "/" ++ latest_key)%string,
         ("s3://" ++ bucket ++ "/" ++ history_key)%string).

(** The parsed command line; [bucket] is [None] when neither [--bucket]
    nor the environment variable gives one. *)
Record args : Type :=
  { local : bool;
    bucket : option string;
    env : string;
    project : string;
    registry_path : string }.

(** [[node_id for node_id, node in ... if node.get("resource_type") ==
    "model" and node.get("access") == "public"]] *)
Fixpoint public_models_of (items : dict json) : result (list string) :=
  match items with
  | [] => Ok []
  | (node_id, node) :: items' =>
      resource_type <-- py_get node "resource_type" JNull ;;
      keep <-- (if py_eq_str resource_type "model"
                then access <-- py_get node "access" JNull ;;
                     Ok (py_eq_str access "public")
                else Ok false) ;;
      rest <-- public_models_of items' ;;
      Ok (if keep then node_id :: rest else rest)
  end.

Definition find_public_models (manifest : json) : result (list string) :=
  nodes <-- py_get manifest "nodes" (JObj []) ;;
  items <-- py_items nodes ;;
  public_models_of items.

Definition warning_no_public_models : string :=
  "⚠ Warning: No public models found in manifest".

(** The last statement of [main] before the closing message. *)
Definition publish (a : args) (manifest_path : path) : M unit :=
  if local a
  then
    let registry_base := script_dir // registry_path a in
    publish_local manifest_path (project a) (env a) registry_base ;;; ret tt
  else
    match bucket a with
    | Some (String c b) =>
        publish_s3 manifest_path (project a) (env a) (String c b) ;;; ret tt
    | _ =>
        raise (ValueError
                 "S3 bucket required. Set --bucket or DBT_MESH_BUCKET env var")
    end.

Definition main (a : args) : M unit :=
  manifest_path <- get_manifest_path ;;
  print ("Found manifest: " ++ str_of_path manifest_path) ;;;
  manifest <- json_load json_loads manifest_path ;;
  public_models <- lift (find_public_models manifest) ;;
  match public_models with
  | [] => print warning_no_public_models
  | _ =>
      print ("Found " ++ str_of_nat (List.length public_models)
             ++ " public model(s): " ++ format_list public_models)
  end ;;;
  publish a manifest_path ;;;
  print (nl ++ "✓ Manifest published successfully!").

End Publisher.

End publish_manifest.

(* ===================================================================== *)
(** * Vocabulary of the properties *)
(* ===================================================================== *)

(** ** Worlds and computations *)

Module notions.
Import Py.

(** Two worlds hold the same registry when they differ at most in what
    has been printed.  A computation is blind to standard output when
    its result and its effect on the registry do not depend on what has
    been printed; it is read-only when it leaves the registry alone. *)
Definition same_registry (w w' : World) : Prop :=
  fs w = fs w' /\ s3 w = s3 w' /\ clock w = clock w'.

Definition stdout_blind {A} (m : M A) : Prop :=
  forall w w',
    same_registry w w' ->
    fst (m w) = fst (m w') /\ same_registry (snd (m w)) (snd (m w')).

Definition read_only {A} (m : M A) : Prop :=
  forall w, same_registry (snd (m w)) w.

(** A name: not empty, not a single dot, and without a slash. *)
Fixpoint no_slash (s : string) : bool :=
  match s with
  | EmptyString => true
  | String c s' => negb (Ascii.eqb c "/") && no_slash s'
  end.

Definition is_name (s : string) : bool := is_component s && no_slash s.

(** [l] with [sep] after each element. *)
Fixpoint with_sep (sep : string) (l : list string) : string :=
  match l with
  | [] => EmptyString
  | a :: l' => a ++ sep ++ with_sep sep l'
  end.

End notions.

(** ** Lineage *)

Module lineage.
Import Py validate_lineage.

(** The two conventions for a reference into the upstream project, as
    the specification words them. *)
Definition model_convention (upstream ref : string) : Prop :=
  exists x, ref = ("model." ++ upstream ++ "." ++ x)%string.

Definition source_convention (upstream ref : string) : Prop :=
  (exists r, ref = ("source." ++ r)%string)
  /\ (exists a b, ref = (a ++ "." ++ upstream ++ "." ++ b)%string).

Definition cross_project (upstream ref : string) : Prop :=
  model_convention upstream ref \/ source_convention upstream ref.

(** What the loop of [find_cross_project_refs_in_nodes] iterates for a
    node: [node.get("depends_on", {}).get("nodes", [])]. *)
Definition depends_on_nodes (node : json) : result (list json) :=
  d <-- py_get node "depends_on" (JObj []) ;;
  depends_on <-- py_get d "nodes" (JArr []) ;;
  py_iter depends_on.

(** An entry [k : refs] of a returned mapping is justified by the input
    mapping [input], whose values are read with [list_of]. *)
Definition justified (upstream : string) (input : dict json)
  (list_of : json -> result (list json)) (k : string) (refs : list string)
  : Prop :=
  refs <> []
  /\ exists v elems,
       In (k, v) input /\ list_of v = Ok elems
       /\ Forall (fun ref => cross_project upstream ref /\ In (JStr ref) elems)
            refs.

(** What both extraction loops keep true of [cross_refs]. *)
Definition refs_ok (upstream : string) (input : dict json)
  (list_of : json -> result (list json)) (cross_refs : dict (list string))
  : Prop :=
  NoDup (keys cross_refs)
  /\ forall k refs,
       In (k, refs) cross_refs -> justified upstream input list_of k refs.

(** Manifests of the shape the build tool writes: [parent_map] maps a
    node to a list of strings, a node's [depends_on.nodes] is a list of
    strings, [metadata] is a dictionary; any of them may be missing. *)
Definition is_str (v : json) : bool :=
  match v with JStr _ => true | _ => false end.

Definition is_str_list (v : json) : bool :=
  match v with JArr elems => forallb is_str elems | _ => false end.

Definition wf_parent_map (v : json) : bool :=
  match v with
  | JObj items => forallb (fun kv => is_str_list (snd kv)) items
  | _ => false
  end.

Definition wf_node (v : json) : bool :=
  match v with
  | JObj fields =>
      match dict_get "depends_on" fields with
      | None => true
      | Some (JObj d) =>
          match dict_get "nodes" d with
          | None => true
          | Some l => is_str_list l
          end
      | Some _ => false
      end
  | _ => false
  end.

Definition wf_nodes (v : json) : bool :=
  match v with
  | JObj items => forallb (fun kv => wf_node (snd kv)) items
  | _ => false
  end.

Definition wf_optional (check : json -> bool) (key : string) (d : dict json)
  : bool :=
  match dict_get key d with
  | None => true
  | Some v => check v
  end.

Definition wf_manifest (m : json) : bool :=
  match m with
  | JObj fields =>
      wf_optional wf_parent_map "parent_map" fields
      && wf_optional wf_nodes "nodes" fields
      && wf_optional (fun v => match v with JObj _ => true | _ => false end)
           "metadata" fields
  | _ => false
  end.

(** The value [validate_lineage] returns once both passes have run. *)
Definition classification (upstream : string)
  (parent_refs node_refs : dict (list string)) : bool * string :=
  match dict_merge parent_refs node_refs with
  | [] => (false, msg_no_refs upstream)
  | _ =>
      match parent_refs with
      | _ :: _ => (true, msg_validated)
      | [] => (true, msg_partial)
      end
  end.

(** The verdict on one manifest of a batch: an exception counts as a
    failure. *)
Definition passes (json_loads : string -> string + json) (repr : json -> string)
  (upstream : string) (w : World) (manifest_path : path) : bool :=
  match fst (validate_lineage json_loads repr manifest_path upstream w) with
  | Ok (success, _) => success
  | Raise _ => false
  end.

(** The merge of §4.2 step 4 as the specification words it: a node in
    both mappings gets the union of its two reference sets. *)
Definition merge_unions_references (manifest : json) (upstream : string)
  : Prop :=
  forall parent_refs node_refs,
    find_cross_project_refs manifest upstream = Ok parent_refs ->
    find_cross_project_refs_in_nodes manifest upstream = Ok node_refs ->
    forall k from_parents from_nodes,
      dict_get k parent_refs = Some from_parents ->
      dict_get k node_refs = Some from_nodes ->
      exists merged,
        dict_get k (dict_merge parent_refs node_refs) = Some merged
        /\ forall ref, In ref merged <-> In ref from_parents \/ In ref from_nodes.

(** The reading of §7 under which a manifest without a required key is
    rejected when it is loaded. *)
Definition missing_key_is_rejected (json_loads : string -> string + json)
  (w : World) (manifest_path : path) : Prop :=
  forall fields,
    fst (load_manifest json_loads manifest_path w) = Ok (JObj fields) ->
    dict_get "parent_map" fields <> None /\ dict_get "nodes" fields <> None.

(** [nodes] lists for every node, under [depends_on.nodes], what
    [parent_map] holds for that node: the two passes then iterate the same
    elements, node by node. *)
Definition same_lists (parent_map nodes : dict json) : Prop :=
  Forall2
    (fun (item node : string * json) =>
       fst item = fst node /\ depends_on_nodes (snd node) = py_iter (snd item))
    parent_map nodes.

(** A node record that lists [v] under [depends_on.nodes] and has no other
    field. *)
Definition depending_on (v : json) : json :=
  JObj [("depends_on", JObj [("nodes", v)])].

End lineage.

(** * Sample inputs *)

Module samples.
Import Py.

(** Three documents: an empty object, a manifest in which one node has
    different references in [parent_map] and in [depends_on], and a
    truncated text. *)
Definition quoted (s : string) : string :=
  String (ascii_of_nat 34) s ++ String (ascii_of_nat 34) EmptyString.

Definition doc_empty : string := "{}".

Definition doc_overlap : string :=
  "{" ++ quoted "parent_map" ++ ": {" ++ quoted "model.down.a" ++ ": ["
  ++ quoted "model.dbt_up.x" ++ "]}, " ++ quoted "nodes" ++ ": {"
  ++ quoted "model.down.a" ++ ": {" ++ quoted "depends_on" ++ ": {"
  ++ quoted "nodes" ++ ": [" ++ quoted "model.dbt_up.y" ++ "]}}}}".

Definition doc_broken : string := "{".

Definition manifest_overlap : json :=
  JObj [("parent_map", JObj [("model.down.a", JArr [JStr "model.dbt_up.x"])]);
        ("nodes",
         JObj [("model.down.a",
                JObj [("depends_on",
                       JObj [("nodes", JArr [JStr "model.dbt_up.y"])])])])].

Definition manifest_partial : json :=
  JObj [("parent_map", JObj []);
        ("nodes",
         JObj [("model.down.a",
                JObj [("depends_on",
                       JObj [("nodes", JArr [JStr "source.down.dbt_up.x"])])])])].

(** [json.loads] on these documents; any other text is read as the
    truncated one. *)
Definition loads (s : string) : string + json :=
  if String.eqb s doc_empty then inr (JObj [])
  else if String.eqb s doc_overlap then inr manifest_overlap
  else inl "Expecting property name enclosed in double quotes: line 1 column 2 (char 1)".

(** [repr] on documents whose strings have no quote and no escape. *)
Fixpoint repr (v : json) : string :=
  match v with
  | JNull => "None"
  | JBool b => if b then "True" else "False"
  | JInt z =>
      if (z <? 0)%Z then "-" ++ str_of_nat (Z.abs_nat z)
      else str_of_nat (Z.abs_nat z)
  | JFloat literal => literal
  | JStr s => "'" ++ s ++ "'"
  | JArr elems => "[" ++ join ", " (map repr elems) ++ "]"
  | JObj items =>
      "{" ++ join ", "
               (map (fun kv : string * json =>
                       let (k, x) := kv in ("'" ++ k ++ "': " ++ repr x)%string)
                  items)
      ++ "}"
  end.

Definition now : datetime :=
  {| year := 2026; month := 11; day := 4; hour := 9; minute := 5; second := 0 |}.

Definition later : datetime :=
  {| year := 2026; month := 11; day := 4; hour := 9; minute := 5; second := 1 |}.

Definition script_dir : path := Path "/repo".

Definition downstream_manifest : path :=
  script_dir // "dbt_down" // "target" // "manifest.json".

Definition refs_x : dict (list string) := [("model.down.a", ["model.dbt_up.x"])].
Definition refs_y : dict (list string) := [("model.down.a", ["model.dbt_up.y"])].

(** A world with the given files and nothing else. *)
Fixpoint files (l : list (path * string)) : path -> option entry :=
  match l with
  | [] => fun _ => None
  | (p, content) :: l' => fs_write p (File content) (files l')
  end.

Definition world (l : list (path * string)) : World :=
  {| fs := files l; s3 := fun _ _ => None; stdout := []; clock := now |}.

Definition loom_manifest : path :=
  script_dir // "dbt_down_loom" // "target" // "manifest.json".

Definition world_overlap : World := world [(downstream_manifest, doc_overlap)].
Definition world_broken : World := world [(downstream_manifest, doc_broken)].
Definition world_empty_doc : World := world [(downstream_manifest, doc_empty)].

End samples.

(** * Registry partitions *)

Module registry.
Import Py publish_manifest.

(** Where the local backend keeps the partitions of a project and an
    environment under a registry root. *)
Definition latest_path (registry_base : path) (project_name env : string)
  : path :=
  registry_base // project_name // env // "latest" // "manifest.json".

Definition history_path (registry_base : path) (project_name env : string)
  (timestamp : string) : path :=
  registry_base // project_name // env // "history" // timestamp
  // "manifest.json".

(** The keys of the object-store backend. *)
Definition latest_key (project_name env : string) : string :=
  "registry/" ++ project_name ++ "/" ++ env ++ "/latest/manifest.json".

Definition history_key (project_name env timestamp : string) : string :=
  "registry/" ++ project_name ++ "/" ++ env ++ "/history/" ++ timestamp
  ++ "/manifest.json".

Definition json_object (content : string) : s3_object :=
  {| Body := content; ContentType := "application/json" |}.

(** The line [main] prints about the public models it found. *)
Definition public_models_line (repr_str : string -> string)
  (public_models : list string) : string :=
  match public_models with
  | [] => warning_no_public_models
  | _ =>
      "Found " ++ str_of_nat (List.length public_models)
      ++ " public model(s): " ++ format_list repr_str public_models
  end.

Definition success_line : string := nl ++ "✓ Manifest published successfully!".

End registry.

(** * Sample runs of the publisher *)

Module publisher_samples.
Import Py publish_manifest.

(** [repr] on a string without quotes or escapes. *)
Definition repr_str (s : string) : string := "'" ++ s ++ "'".

Definition script_dir : path := Path "/repo/dbt_up".

Definition manifest_path : path := script_dir // "target" // "manifest.json".

Definition registry_base : path := script_dir // "../registry".

Definition local_args : args :=
  {| local := true; bucket := None; env := "prod"; project := "dbt_up";
     registry_path := "../registry" |}.

Definition s3_args : args :=
  {| local := false; bucket := Some "mesh"; env := "prod";
     project := "dbt_up"; registry_path := "../registry" |}.

(** A world in which the manifest has been compiled and nothing has been
    published, and one in which there is no manifest. *)
Definition compiled : World :=
  samples.world [(manifest_path, samples.doc_empty)].

Definition not_compiled : World := samples.world [].

(** Two local publishes, the second one a second later. *)
Abbreviation local_first :=
  (publish_local manifest_path "dbt_up" "prod" registry_base compiled).

Abbreviation local_second :=
  (publish_local manifest_path "dbt_up" "prod" registry_base
     (set_clock samples.later (snd local_first))).

(** The same for the object store. *)
Abbreviation s3_first :=
  (publish_s3 true manifest_path "dbt_up" "prod" "mesh" compiled).

Abbreviation s3_second :=
  (publish_s3 true manifest_path "dbt_up" "prod" "mesh"
     (set_clock samples.later (snd s3_first))).

End publisher_samples.

(** * Vocabulary of the further properties *)

Module coverage.
Import Py validate_lineage publish_manifest lineage registry.

(** The entries an extraction pass keeps when every node lists strings:
    the nodes with at least one matching string, in the order of the
    input, each with its matching strings in their order. *)
Definition select (upstream : string) (entries : dict (list string))
  : dict (list string) :=
  flat_map
    (fun kv =>
       match filter (parent_cond upstream) (snd kv) with
       | [] => []
       | refs => [(fst kv, refs)]
       end)
    entries.

(** [items] holds, node by node, the strings of [entries]. *)
Definition lists_strings (list_of : json -> result (list json))
  (items : dict json) (entries : dict (list string)) : Prop :=
  Forall2
    (fun (item : string * json) (entry : string * list string) =>
       fst item = fst entry /\ list_of (snd item) = Ok (map JStr (snd entry)))
    items entries.

(** Some node of [input] lists a reference into the upstream project. *)
Definition mentions (upstream : string) (input : dict json)
  (list_of : json -> result (list json)) : Prop :=
  exists k v elems ref,
    In (k, v) input /\ list_of v = Ok elems /\ In (JStr ref) elems
    /\ cross_project upstream ref.

(** A node record that is a public model. *)
Definition field_is (fields : dict json) (key value : string) : bool :=
  match dict_get key fields with
  | Some v => py_eq_str v value
  | None => false
  end.

Definition is_public_model (node : json) : bool :=
  match node with
  | JObj fields =>
      field_is fields "resource_type" "model" && field_is fields "access" "public"
  | _ => false
  end.

Definition is_dict (v : json) : bool :=
  match v with JObj _ => true | _ => false end.

(** The command lines [parse_args] lets through: [--project], when
    given, is one of its two choices.  Any other one ends the program in
    [parse_args], before the code modelled by [main]. *)
Definition accepted (a : validate_lineage.args) : bool :=
  match validate_lineage.project a with
  | None => true
  | Some p => String.eqb p "dbt_down_loom" || String.eqb p "dbt_down"
  end.

(** Text that a text-mode [read] returns byte for byte, and that is
    encoded back to the same bytes: ASCII characters without a carriage
    return, which universal newlines would turn into a line feed. *)
Fixpoint plain_text (s : string) : bool :=
  match s with
  | EmptyString => true
  | String c s' =>
      Nat.ltb (nat_of_ascii c) 128 && negb (Nat.eqb (nat_of_ascii c) 13)
      && plain_text s'
  end.

(** Clock readings [datetime] can hold, with a year of four digits: for
    earlier years the width of [%Y] depends on the platform. *)
Definition datetime_ok (d : datetime) : Prop :=
  (1000 <= Z.of_nat (year d) <= 9999)%Z /\ 1 <= month d <= 12
  /\ 1 <= day d <= 31 /\ hour d <= 23 /\ minute d <= 59 /\ second d <= 59.

(** The value of a string of decimal digits. *)
Fixpoint decimal_value (s : string) : nat :=
  match s with
  | EmptyString => 0
  | String c s' =>
      (nat_of_ascii c - 48) * 10 ^ String.length s' + decimal_value s'
  end.

(** [q] is [p] or a directory above it. *)
Definition leads_to (q p : path) : Prop :=
  root q = root p
  /\ exists k, 0 < k <= List.length (parts p) /\ parts q = firstn k (parts p).

(** The directories of the partitions of the local backend. *)
Definition latest_dir (registry_base : path) (project_name env : string)
  : path :=
  registry_base // project_name // env // "latest".

Definition history_dir (registry_base : path) (project_name env : string)
  (timestamp : string) : path :=
  registry_base // project_name // env // "history" // timestamp.

(** The lines the validator prints around the run of the manifests. *)
Definition bar : string := repeat_char "=" 60.

End coverage.

(** * Further sample inputs *)

Module coverage_samples.
Import Py validate_lineage publish_manifest.

(** Three nodes: one with two references into [dbt_up] among three
    parents, one with none, one with a source-style reference. *)
Definition three_entries : dict (list string) :=
  [("model.down.a",
    ["model.dbt_up.x"; "model.other.y"; "source.down.dbt_up.z"]);
   ("model.down.b", ["model.other.q"]);
   ("model.down.c", ["source.down.dbt_up.w"])].

Definition three_parents : dict json :=
  [("model.down.a",
    JArr [JStr "model.dbt_up.x"; JStr "model.other.y";
          JStr "source.down.dbt_up.z"]);
   ("model.down.b", JArr [JStr "model.other.q"]);
   ("model.down.c", JArr [JStr "source.down.dbt_up.w"])].

(** The same three nodes as node records; the second one has no
    [depends_on] and the third one lists its dependency. *)
Definition two_entries : dict (list string) :=
  [("model.down.a",
    ["model.dbt_up.x"; "model.other.y"; "source.down.dbt_up.z"]);
   ("model.down.b", []);
   ("model.down.c", ["source.down.dbt_up.w"])].

Definition three_nodes : dict json :=
  [("model.down.a",
    JObj [("resource_type", JStr "model"); ("access", JStr "public");
          ("depends_on",
           JObj [("nodes",
                  JArr [JStr "model.dbt_up.x"; JStr "model.other.y";
                        JStr "source.down.dbt_up.z"])])]);
   ("model.down.b", JObj [("resource_type", JStr "model")]);
   ("model.down.c",
    JObj [("resource_type", JStr "seed"); ("access", JStr "public");
          ("depends_on", JObj [("nodes", JArr [JStr "source.down.dbt_up.w"])])])].

Definition manifest_three : json :=
  JObj [("parent_map", JObj three_parents); ("nodes", JObj three_nodes)].

(** A [parent_map] whose only node holds a string, and one in which a
    list holds a number. *)
Definition manifest_string_parents : json :=
  JObj [("parent_map", JObj [("model.down.a", JStr "model.dbt_up.x")])].

Definition number_parents : dict json :=
  [("model.down.a", JArr [JStr "model.dbt_up.x"]);
   ("model.down.b", JArr [JInt 3])].

Definition manifest_number_parent : json :=
  JObj [("parent_map", JObj number_parents)].

(** A manifest with a node that is not a record. *)
Definition manifest_bad_node : json :=
  JObj [("nodes", JObj [("model.down.a", JNull)])].

(** Command lines of the validator and the publisher. *)
Definition validate_one (p : path) : validate_lineage.args :=
  {| validate_lineage.project := None;
     validate_lineage.manifest := Some p;
     validate_lineage.upstream := "dbt_up";
     validate_lineage.all := false |}.

Definition no_bucket_args : publish_manifest.args :=
  {| local := false; bucket := None; env := "prod"; project := "dbt_up";
     registry_path := "../registry" |}.

(** Worlds of the publisher in which the manifest is a directory, is
    truncated, or has a node that is not a record. *)
Definition manifest_is_directory : World :=
  {| fs := fs_write publisher_samples.manifest_path Dir (fun _ => None);
     s3 := fun _ _ => None; stdout := []; clock := samples.now |}.

Definition truncated : World :=
  samples.world [(publisher_samples.manifest_path, samples.doc_broken)].

Definition loads_bad_node (s : string) : string + json :=
  if String.eqb s "bad node" then inr manifest_bad_node else samples.loads s.

Definition bad_node : World :=
  samples.world [(publisher_samples.manifest_path, "bad node")].

(** A local publish after the first one of [publisher_samples], a second
    later, of a manifest that has been compiled again in between. *)
Abbreviation local_recompiled :=
  (publish_local publisher_samples.manifest_path "dbt_up" "prod"
     publisher_samples.registry_base
     (set_clock samples.later
        (set_fs
           (fs_write publisher_samples.manifest_path
              (File samples.doc_overlap)
              (fs (snd publisher_samples.local_first)))
           (snd publisher_samples.local_first)))).

End coverage_samples.

(* ===================================================================== *)
(** * Facts about the run time *)
(* ===================================================================== *)

Module PyFacts.
Import Py notions.

(** ** Strings *)

Lemma startswith_spec (s p : string) :
  startswith s p = true <-> exists r, s = (p ++ r)%string.
Proof.
  revert s; induction p as [|a p IH]; intros s; simpl.
  - split; [intros _; exists s; reflexivity | reflexivity].
  - destruct s as [|b s].
    + split; [discriminate | intros [r H]; discriminate].
    + rewrite andb_true_iff, Ascii.eqb_eq, IH. split.
      * intros [-> [r ->]]. exists r. reflexivity.
      * intros [r H]. injection H as -> ->. split; [reflexivity | eauto].
Qed.

Lemma str_in_unfold (n h : string) :
  str_in n h =
  startswith h n ||
  match h with
  | EmptyString => false
  | String _ h' => str_in n h'
  end.
Proof. destruct h; reflexivity. Qed.

Lemma str_in_spec (n h : string) :
  str_in n h = true <-> exists a b, h = (a ++ n ++ b)%string.
Proof.
  induction h as [|c h IH]; rewrite str_in_unfold.
  - rewrite orb_false_r, startswith_spec. split.
    + intros [r H]. exists EmptyString, r. exact H.
    + intros [a [b H]]. destruct a; simpl in H; [eauto | discriminate].
  - rewrite orb_true_iff, startswith_spec, IH. split.
    + intros [[r H] | [a [b H]]].
      * exists EmptyString, r. exact H.
      * exists (String c a), b. simpl. now rewrite H.
    + intros [a [b H]]. destruct a as [|c' a]; simpl in H.
      * left. eauto.
      * right. injection H as _ H. eauto.
Qed.

Lemma append_assoc (a b c : string) :
  ((a ++ b) ++ c = a ++ (b ++ c))%string.
Proof. induction a as [|x a IH]; simpl; [reflexivity | now rewrite IH]. Qed.

Lemma append_nil_r (a : string) : (a ++ EmptyString)%string = a.
Proof. induction a as [|x a IH]; simpl; [reflexivity | now rewrite IH]. Qed.

Lemma length_append (a b : string) :
  String.length (a ++ b) = String.length a + String.length b.
Proof. induction a as [|x a IH]; simpl; [reflexivity | now rewrite IH]. Qed.

Lemma append_inv_head (p a b : string) :
  (p ++ a = p ++ b)%string -> a = b.
Proof.
  induction p as [|x p IH]; simpl; [auto|]. intros H. injection H as H. auto.
Qed.

Lemma append_inv_tail (a b t : string) :
  (a ++ t = b ++ t)%string -> a = b.
Proof.
  revert b. induction a as [|x a IH]; intros [|y b] H; simpl in H.
  - reflexivity.
  - exfalso. apply (f_equal String.length) in H. simpl in H.
    rewrite length_append in H. lia.
  - exfalso. apply (f_equal String.length) in H. simpl in H.
    rewrite length_append in H. lia.
  - injection H as -> H. f_equal. auto.
Qed.

(** ** Lists *)

Lemma forallb_pointwise {A} (f g : A -> bool) (l : list A) :
  (forall a, f a = g a) -> forallb f l = forallb g l.
Proof.
  intros H. induction l as [|a l IH]; simpl; [reflexivity|].
  now rewrite H, IH.
Qed.

(** ** Dictionaries *)

Section Dict.
Context {A : Type}.
Implicit Types (d : dict A) (k : string) (v : A).

Lemma dict_get_set_eq k v d : dict_get k (dict_set k v d) = Some v.
Proof.
  induction d as [|[k' v'] d IH]; simpl.
  - now rewrite String.eqb_refl.
  - destruct (String.eqb k k') eqn:E; simpl; rewrite E; auto.
Qed.

Lemma dict_get_set_neq k k' v d :
  k <> k' -> dict_get k' (dict_set k v d) = dict_get k' d.
Proof.
  intros Hk. induction d as [|[k0 v0] d IH]; simpl.
  - apply String.eqb_neq in Hk. rewrite String.eqb_sym in Hk. now rewrite Hk.
  - destruct (String.eqb k k0) eqn:E; simpl.
    + apply String.eqb_eq in E. subst k0.
      assert (String.eqb k' k = false) as ->
        by (apply String.eqb_neq; congruence).
      reflexivity.
    + now rewrite IH.
Qed.

Lemma keys_dict_set k k' v d :
  In k' (keys (dict_set k v d)) <-> k' = k \/ In k' (keys d).
Proof.
  induction d as [|[k0 v0] d IH]; simpl.
  - intuition.
  - destruct (String.eqb k k0) eqn:E; simpl.
    + apply String.eqb_eq in E. subst k0. intuition.
    + unfold keys in IH. rewrite IH. intuition.
Qed.

Lemma In_dict_set k v k' v' d :
  In (k', v') (dict_set k v d) -> (k' = k /\ v' = v) \/ In (k', v') d.
Proof.
  induction d as [|[k0 v0] d IH]; simpl.
  - intros [H | []]. injection H as <- <-. auto.
  - destruct (String.eqb k k0) eqn:E; simpl.
    + apply String.eqb_eq in E. subst k0.
      intros [H | H]; [injection H as <- <-|]; auto.
    + intros [H | H]; [auto | destruct (IH H); auto].
Qed.

Lemma NoDup_keys_dict_set k v d :
  NoDup (keys d) -> NoDup (keys (dict_set k v d)).
Proof.
  induction d as [|[k0 v0] d IH]; simpl; intros Hnd.
  - constructor; [intros [] | constructor].
  - inversion Hnd as [|? ? Hnin Hnd']; subst.
    destruct (String.eqb k k0) eqn:E; simpl.
    + constructor; assumption.
    + constructor; [| now apply IH].
      intros Hin. apply keys_dict_set in Hin as [-> | Hin]; [| contradiction].
      now rewrite String.eqb_refl in E.
Qed.

Lemma dict_get_None k d : dict_get k d = None <-> ~ In k (keys d).
Proof.
  induction d as [|[k0 v0] d IH]; simpl.
  - intuition.
  - destruct (String.eqb k k0) eqn:E.
    + apply String.eqb_eq in E. subst. split; [discriminate | intuition].
    + apply String.eqb_neq in E. rewrite IH. intuition congruence.
Qed.

Lemma dict_get_Some_In k v d : dict_get k d = Some v -> In (k, v) d.
Proof.
  induction d as [|[k0 v0] d IH]; simpl; [discriminate|].
  destruct (String.eqb k k0) eqn:E.
  - apply String.eqb_eq in E. subst. intros [= ->]. now left.
  - auto.
Qed.

Lemma In_dict_get k v d : NoDup (keys d) -> In (k, v) d -> dict_get k d = Some v.
Proof.
  induction d as [|[k0 v0] d IH]; simpl; [intros _ []|].
  intros Hnd [H | H].
  - injection H as -> ->. now rewrite String.eqb_refl.
  - inversion Hnd as [|? ? Hnin Hnd']; subst.
    destruct (String.eqb k k0) eqn:E; [| auto].
    apply String.eqb_eq in E. subst. exfalso. apply Hnin.
    change (In (fst (k0, v)) (map fst d)). now apply in_map.
Qed.

Lemma In_keys_dict_get k d : In k (keys d) <-> exists v, dict_get k d = Some v.
Proof.
  destruct (dict_get k d) as [v|] eqn:E.
  - split; [eauto|]. intros _. apply dict_get_Some_In in E.
    change (In (fst (k, v)) (map fst d)). now apply in_map.
  - split; [| intros [v [=]]]. intros H. now apply dict_get_None in E.
Qed.

(** [{**a, **b}] has the keys of both. *)
Lemma keys_dict_merge k (a b : dict A) :
  In k (keys (dict_merge a b)) <-> In k (keys a) \/ In k (keys b).
Proof.
  unfold dict_merge. revert a. induction b as [|[k0 v0] b IH]; intros a; simpl.
  - intuition.
  - rewrite IH, keys_dict_set. intuition.
Qed.

(** In [{**a, **b}] the value of [b] wins. *)
Lemma dict_get_merge k (a b : dict A) :
  NoDup (keys b) ->
  dict_get k (dict_merge a b) =
  match dict_get k b with
  | Some v => Some v
  | None => dict_get k a
  end.
Proof.
  unfold dict_merge. revert a. induction b as [|[k0 v0] b IH]; intros a Hnd.
  - reflexivity.
  - inversion Hnd as [|? ? Hnin Hnd']; subst. simpl. rewrite IH by assumption.
    destruct (String.eqb k k0) eqn:E.
    + apply String.eqb_eq in E. subst k0.
      apply dict_get_None in Hnin. rewrite Hnin. apply dict_get_set_eq.
    + apply String.eqb_neq in E.
      destruct (dict_get k b); [reflexivity|].
      apply dict_get_set_neq. congruence.
Qed.

Lemma dict_merge_nil (a b : dict A) :
  dict_merge a b = [] <-> a = [] /\ b = [].
Proof.
  split.
  - intros H. assert (Hk : forall k, ~ In k (keys (dict_merge a b)))
      by (rewrite H; auto).
    split.
    + destruct a as [|[k v] a]; [reflexivity|].
      exfalso. apply (Hk k). apply keys_dict_merge. left. now left.
    + destruct b as [|[k v] b]; [reflexivity|].
      exfalso. apply (Hk k). apply keys_dict_merge. right. now left.
  - intros [-> ->]. reflexivity.
Qed.

End Dict.

(** ** Computations and standard output *)

Lemma same_registry_refl w : same_registry w w.
Proof. repeat split. Qed.

Lemma same_registry_sym w w' : same_registry w w' -> same_registry w' w.
Proof. intros (? & ? & ?). repeat split; congruence. Qed.

Lemma same_registry_trans w1 w2 w3 :
  same_registry w1 w2 -> same_registry w2 w3 -> same_registry w1 w3.
Proof. intros (? & ? & ?) (? & ? & ?). repeat split; congruence. Qed.

Lemma same_registry_set_stdout out w : same_registry (set_stdout out w) w.
Proof. repeat split. Qed.

Section Blind.
Context {A B : Type}.

Lemma blind_ret (a : A) : stdout_blind (ret a).
Proof. intros w w' H. split; [reflexivity | exact H]. Qed.

Lemma blind_raise (e : exn) : stdout_blind (@raise A e).
Proof. intros w w' H. split; [reflexivity | exact H]. Qed.

Lemma blind_lift (r : result A) : stdout_blind (lift r).
Proof. intros w w' H. split; [reflexivity | exact H]. Qed.

Lemma blind_bind (m : M A) (k : A -> M B) :
  stdout_blind m -> (forall a, stdout_blind (k a)) -> stdout_blind (bind m k).
Proof.
  intros Hm Hk w w' H. unfold bind. destruct (Hm w w' H) as [Hr Hw].
  destruct (m w) as [[a|e] w1], (m w') as [[a'|e'] w1']; simpl in *;
    try discriminate.
  - injection Hr as <-. apply Hk, Hw.
  - injection Hr as <-. split; [reflexivity | exact Hw].
Qed.

Lemma blind_try_except (m : M A) (h : exn -> M A) :
  stdout_blind m -> (forall e, stdout_blind (h e)) ->
  stdout_blind (try_except m h).
Proof.
  intros Hm Hh w w' H. unfold try_except. destruct (Hm w w' H) as [Hr Hw].
  destruct (m w) as [[a|e] w1], (m w') as [[a'|e'] w1']; simpl in *;
    try discriminate.
  - injection Hr as <-. split; [reflexivity | exact Hw].
  - injection Hr as <-. apply Hh, Hw.
Qed.

Lemma ro_ret (a : A) : read_only (ret a).
Proof. intros w. apply same_registry_refl. Qed.

Lemma ro_raise (e : exn) : read_only (@raise A e).
Proof. intros w. apply same_registry_refl. Qed.

Lemma ro_lift (r : result A) : read_only (lift r).
Proof. intros w. apply same_registry_refl. Qed.

Lemma ro_bind (m : M A) (k : A -> M B) :
  read_only m -> (forall a, read_only (k a)) -> read_only (bind m k).
Proof.
  intros Hm Hk w. unfold bind. specialize (Hm w).
  destruct (m w) as [[a|e] w1]; simpl in *; [| exact Hm].
  eapply same_registry_trans; [apply Hk | exact Hm].
Qed.

Lemma ro_try_except (m : M A) (h : exn -> M A) :
  read_only m -> (forall e, read_only (h e)) -> read_only (try_except m h).
Proof.
  intros Hm Hh w. unfold try_except. specialize (Hm w).
  destruct (m w) as [[a|e] w1]; simpl in *; [exact Hm |].
  eapply same_registry_trans; [apply Hh | exact Hm].
Qed.

End Blind.

Lemma blind_print line : stdout_blind (print line).
Proof. intros w w' H. split; [reflexivity | exact H]. Qed.

Lemma ro_print line : read_only (print line).
Proof. intros w. repeat split. Qed.

Lemma blind_utcnow : stdout_blind utcnow.
Proof.
  intros w w' H. unfold utcnow. simpl. split; [| exact H].
  destruct H as (_ & _ & ->). reflexivity.
Qed.

Lemma blind_path_exists p : stdout_blind (path_exists p).
Proof.
  intros w w' H. unfold path_exists. simpl. split; [| exact H].
  destruct H as (-> & _). reflexivity.
Qed.

Lemma ro_path_exists p : read_only (path_exists p).
Proof. intros w. apply same_registry_refl. Qed.

Lemma blind_read_text p : stdout_blind (read_text p).
Proof.
  intros w w' H. unfold read_text. destruct H as (Hf & Hs & Hc).
  rewrite Hf. destruct (fs w' p) as [[c|]|]; simpl; repeat split; auto.
Qed.

Lemma ro_read_text p : read_only (read_text p).
Proof.
  intros w. unfold read_text.
  destruct (fs w p) as [[c|]|]; apply same_registry_refl.
Qed.

Lemma blind_json_load loads p : stdout_blind (json_load loads p).
Proof.
  unfold json_load. apply blind_bind; [apply blind_read_text|].
  intros c. destruct (loads c); [apply blind_raise | apply blind_ret].
Qed.

Lemma ro_json_load loads p : read_only (json_load loads p).
Proof.
  unfold json_load. apply ro_bind; [apply ro_read_text|].
  intros c. destruct (loads c); [apply ro_raise | apply ro_ret].
Qed.

Lemma blind_write_file p content : stdout_blind (write_file p content).
Proof.
  intros w w' H. unfold write_file. destruct H as (Hf & Hs & Hc).
  rewrite Hf.
  destruct (fs w' p) as [[c|]|], (fs w' (parent p)) as [[c'|]|]; simpl;
    repeat split; auto; now rewrite Hf.
Qed.

Lemma blind_copy2 src dst : stdout_blind (copy2 src dst).
Proof.
  intros w w' H. unfold copy2, copy_target.
  assert (Hf : fs w = fs w') by apply H. rewrite Hf.
  destruct (match fs w' src with
            | Some _ =>
                path_eqb src
                  match fs w' dst with
                  | Some Dir => dst // name src
                  | _ => dst
                  end
            | None => false
            end).
  - simpl. split; [reflexivity | exact H].
  - apply blind_bind; [apply blind_read_text | | exact H].
    intros c. apply blind_write_file.
Qed.

Lemma blind_put_object b k body ct : stdout_blind (put_object b k body ct).
Proof.
  intros w w' H. unfold put_object. destruct H as (Hf & Hs & Hc). simpl.
  rewrite Hs. repeat split; auto.
Qed.

Lemma blind_mkdir_from r done todo : stdout_blind (mkdir_from r done todo).
Proof.
  revert done. induction todo as [|c todo IH]; intros done; simpl.
  - apply blind_ret.
  - intros w w' H. assert (Hf : fs w = fs w') by apply H. rewrite Hf.
    destruct (fs w' {| root := r; parts := done ++ [c] |}) as [[x|]|].
    + destruct todo; simpl; split; auto.
    + apply IH, H.
    + apply IH. destruct H as (? & ? & ?). repeat split; simpl; congruence.
Qed.

Lemma blind_mkdir_parents p : stdout_blind (mkdir_parents p).
Proof. apply blind_mkdir_from. Qed.

Create HintDb blind.
Create HintDb read_only.

#[export] Hint Resolve blind_ret blind_raise blind_lift blind_print
  blind_utcnow blind_path_exists blind_read_text blind_json_load
  blind_write_file blind_copy2 blind_put_object blind_mkdir_parents
  : blind.
#[export] Hint Resolve ro_ret ro_raise ro_lift ro_print ro_path_exists
  ro_read_text ro_json_load : read_only.

(** ** Paths *)

Lemma list_eqb_eq (l1 l2 : list string) : list_eqb l1 l2 = true <-> l1 = l2.
Proof.
  unfold list_eqb. destruct (list_eq_dec string_dec l1 l2); split;
    auto; discriminate.
Qed.

Lemma path_eqb_eq (p q : path) : path_eqb p q = true <-> p = q.
Proof.
  unfold path_eqb. rewrite andb_true_iff, String.eqb_eq, list_eqb_eq.
  destruct p, q; simpl. split; [intros [-> ->]; reflexivity|].
  intros [= -> ->]. auto.
Qed.

Lemma path_eqb_refl (p : path) : path_eqb p p = true.
Proof. now apply path_eqb_eq. Qed.

Lemma path_eqb_neq (p q : path) : path_eqb p q = false <-> p <> q.
Proof.
  rewrite <- path_eqb_eq. destruct (path_eqb p q); split; congruence.
Qed.

Lemma fs_write_same p e f : fs_write p e f p = Some e.
Proof. unfold fs_write. now rewrite path_eqb_refl. Qed.

Lemma fs_write_other p q e f : q <> p -> fs_write p e f q = f q.
Proof.
  intros H. unfold fs_write. apply path_eqb_neq in H. now rewrite H.
Qed.

Lemma no_slash_append (a b : string) :
  no_slash (a ++ b) = no_slash a && no_slash b.
Proof.
  induction a as [|c a IH]; simpl; [reflexivity|].
  now rewrite IH, andb_assoc.
Qed.

Lemma rev_string_rev_string (a b s : string) :
  rev_string a (rev_string b s) = rev_string (s ++ a) b.
Proof.
  revert a b. induction s as [|c s IH]; intros a b; simpl; [reflexivity|].
  now rewrite IH.
Qed.

Lemma split_on_no_sep (cur s : string) :
  no_slash s = true ->
  split_on "/" cur s = [rev_string EmptyString (rev_string cur s)].
Proof.
  revert cur. induction s as [|c s IH]; intros cur H; simpl in *.
  - reflexivity.
  - apply andb_true_iff in H as [Hc H].
    destruct (Ascii.eqb c "/"); [discriminate|]. now apply IH.
Qed.

Lemma split_name (s : string) : no_slash s = true -> split "/" s = [s].
Proof.
  intros H. unfold split. rewrite split_on_no_sep by assumption.
  rewrite rev_string_rev_string. simpl. now rewrite append_nil_r.
Qed.

Lemma path_root_name (s : string) : no_slash s = true -> path_root s = EmptyString.
Proof.
  destruct s as [|c s]; [reflexivity|]. simpl. intros H.
  apply andb_true_iff in H as [Hc _].
  destruct c as [[] [] [] [] [] [] [] []]; try reflexivity; discriminate.
Qed.

(** Joining a name appends one component. *)
Lemma joinpath_name (p : path) (s : string) :
  is_name s = true ->
  p // s = {| root := root p; parts := parts p ++ [s] |}.
Proof.
  intros H. apply andb_true_iff in H as [Hc Hs].
  unfold joinpath, path_parts. rewrite path_root_name, split_name by assumption.
  simpl. now rewrite Hc.
Qed.

(** ** Decimal numbers *)

#[local] Arguments digit : simpl never.
#[local] Arguments str_of_nat : simpl never.
#[local] Arguments zero_pad : simpl never.

Lemma digit_not_slash (n : nat) : Ascii.eqb (digit n) "/" = false.
Proof.
  unfold digit. assert (H : n mod 10 < 10) by (apply Nat.mod_upper_bound; lia).
  remember (n mod 10) as d eqn:Ed. clear Ed.
  do 10 (destruct d as [|d]; [reflexivity|]). lia.
Qed.

Lemma no_slash_digits_fuel (fuel n : nat) (acc : string) :
  no_slash acc = true -> no_slash (digits_fuel fuel n acc) = true.
Proof.
  revert n acc. induction fuel as [|fuel IH]; intros n acc H; simpl; [exact H|].
  assert (H' : no_slash (String (digit n) acc) = true)
    by (cbn [no_slash]; now rewrite digit_not_slash, H).
  match goal with
  | |- context [if ?b then _ else _] => destruct b
  end; [exact H' | now apply IH].
Qed.

Lemma no_slash_repeat_char (c : ascii) (n : nat) :
  Ascii.eqb c "/" = false -> no_slash (repeat_char c n) = true.
Proof. intros H. induction n; simpl; [reflexivity | now rewrite H, IHn]. Qed.

Lemma no_slash_zero_pad (width n : nat) : no_slash (zero_pad width n) = true.
Proof.
  unfold zero_pad, str_of_nat. rewrite no_slash_append.
  rewrite no_slash_repeat_char by reflexivity.
  now rewrite no_slash_digits_fuel.
Qed.

Lemma is_component_long (s : string) : 2 <= String.length s -> is_component s = true.
Proof.
  destruct s as [|c [|c' s]]; simpl; try lia. intros _.
  unfold is_component. simpl.
  destruct (Ascii.eqb c "."); reflexivity.
Qed.

(** ** Inverting a computation that returned *)

Lemma run_eq {A} (x : result A * World) (r : result A) :
  fst x = r -> x = (r, snd x).
Proof. intros <-. now destruct x. Qed.

Lemma bind_Ok {A B} (m : M A) (k : A -> M B) (w w' : World) (b : B) :
  bind m k w = (Ok b, w') ->
  exists a w1, m w = (Ok a, w1) /\ k a w1 = (Ok b, w').
Proof.
  unfold bind. destruct (m w) as [[a|e] w1]; [eauto | discriminate].
Qed.

Lemma print_Ok line w w' u :
  print line w = (Ok u, w') -> w' = set_stdout (stdout w ++ [line]) w.
Proof. unfold print. now intros [= <-]. Qed.

Lemma write_file_Ok p content w w' u :
  write_file p content w = (Ok u, w') ->
  fs w p <> Some Dir /\ w' = set_fs (fs_write p (File content) (fs w)) w.
Proof.
  unfold write_file.
  destruct (fs w p) as [[c|]|], (fs w (parent p)) as [[c'|]|];
    try discriminate; intros [= <-]; split; auto; discriminate.
Qed.

Lemma read_text_Ok p w w' content :
  read_text p w = (Ok content, w') -> fs w p = Some (File content) /\ w' = w.
Proof.
  unfold read_text. destruct (fs w p) as [[c|]|]; try discriminate.
  intros [= -> <-]. auto.
Qed.

(** A copy that returned read a file and wrote its content at the
    target, which was not a directory. *)
Lemma copy2_Ok src dst w w' u :
  copy2 src dst w = (Ok u, w') ->
  exists content,
    fs w src = Some (File content)
    /\ copy_target src dst w <> src
    /\ fs w (copy_target src dst w) <> Some Dir
    /\ w' = set_fs (fs_write (copy_target src dst w) (File content) (fs w)) w.
Proof.
  unfold copy2. set (t := copy_target src dst w).
  destruct (fs w src) as [e|] eqn:Es.
  - destruct (path_eqb src t) eqn:Et; [discriminate|].
    intros H. apply bind_Ok in H as (content & w1 & Hr & Hw).
    apply read_text_Ok in Hr as [Hr ->].
    apply write_file_Ok in Hw as [Hd ->].
    exists content. split; [congruence|].
    split; [apply path_eqb_neq in Et; congruence|].
    split; [exact Hd | reflexivity].
  - intros H. apply bind_Ok in H as (content & w1 & Hr & _).
    apply read_text_Ok in Hr as [Hr _]. congruence.
Qed.

(** [mkdir] touches the file system only: it turns missing entries on the
    way to its target into directories. *)
Lemma mkdir_from_effect r todo :
  forall done w res w',
    mkdir_from r done todo w = (res, w') ->
    s3 w' = s3 w /\ stdout w' = stdout w /\ clock w' = clock w
    /\ forall p,
         fs w' p = fs w p
         \/ (fs w p = None /\ fs w' p = Some Dir
             /\ exists k, 0 < k <= List.length todo
                          /\ p = {| root := r; parts := done ++ firstn k todo |}).
Proof.
  induction todo as [|c todo IH]; intros done w res w' H; simpl in H.
  - injection H as <- <-. repeat split; auto.
  - set (here := {| root := r; parts := done ++ [c] |}) in *.
    assert (Hshift : forall k, (done ++ [c]) ++ firstn k todo
                               = done ++ firstn (S k) (c :: todo))
      by (intros k; now rewrite <- app_assoc).
    destruct (fs w here) as [[content|]|] eqn:Eh.
    + destruct todo; injection H as <- <-; repeat split; auto.
    + apply IH in H as (Hs & Ho & Hc & Hf). repeat split; auto.
      intros p. destruct (Hf p) as [E | (En & Ed & k & Hk & ->)]; [auto|].
      right. repeat split; auto. exists (S k). rewrite Hshift.
      split; [simpl; lia | reflexivity].
    + apply IH in H as (Hs & Ho & Hc & Hf). simpl in *. repeat split; auto.
      intros p. destruct (Hf p) as [E | (En & Ed & k & Hk & ->)].
      * destruct (path_eqb p here) eqn:Ep.
        -- apply path_eqb_eq in Ep. subst p. right.
           rewrite E, fs_write_same. repeat split; auto.
           exists 1. simpl. split; [lia | reflexivity].
        -- apply path_eqb_neq in Ep. left. rewrite E.
           now apply fs_write_other.
      * right. unfold fs_write in En.
        destruct (path_eqb {| root := r; parts := (done ++ [c]) ++ firstn k todo |}
                    here); [discriminate|].
        repeat split; auto. exists (S k). rewrite Hshift.
        split; [simpl; lia | reflexivity].
Qed.

Lemma mkdir_parents_effect p w res w' :
  mkdir_parents p w = (res, w') ->
  s3 w' = s3 w /\ stdout w' = stdout w /\ clock w' = clock w
  /\ forall q,
       fs w' q = fs w q
       \/ (fs w q = None /\ fs w' q = Some Dir
           /\ root q = root p
           /\ exists k, 0 < k <= List.length (parts p)
                        /\ parts q = firstn k (parts p)).
Proof.
  intros H. apply mkdir_from_effect in H as (Hs & Ho & Hc & Hf).
  repeat split; auto. intros q.
  destruct (Hf q) as [E | (En & Ed & k & Hk & ->)]; [auto|].
  right. repeat split; auto. exists k. auto.
Qed.

(** ** Joining strings *)

Lemma join_app_cons (sep : string) (l : list string) (b : string)
  (l' : list string) :
  join sep (l ++ b :: l') = (with_sep sep l ++ join sep (b :: l'))%string.
Proof.
  induction l as [|a l IH]; [reflexivity|].
  change ((a :: l) ++ b :: l') with (a :: (l ++ b :: l')).
  assert (E : join sep (a :: (l ++ b :: l'))
              = (a ++ sep ++ join sep (l ++ b :: l'))%string)
    by (destruct l; reflexivity).
  rewrite E, IH. simpl. now rewrite !append_assoc.
Qed.

Lemma str_of_path_parts (r : string) (ps : list string) :
  ps <> [] ->
  str_of_path {| root := r; parts := ps |} = (r ++ join "/" ps)%string.
Proof.
  intros H. unfold str_of_path. simpl.
  destruct r; [| reflexivity]. destruct ps; [contradiction | reflexivity].
Qed.

End PyFacts.

(* ===================================================================== *)
(** * Properties of the lineage validator *)
(* ===================================================================== *)

Module validate_lineage_proofs.
Import Py notions PyFacts validate_lineage lineage.

(** ** The matcher *)

Lemma parent_cond_spec (u s : string) :
  parent_cond u s = true <-> cross_project u s.
Proof.
  unfold parent_cond, cross_project, model_convention, source_convention.
  rewrite orb_true_iff, andb_true_iff, !startswith_spec, str_in_spec.
  split.
  - intros [[r H] | [[a [b H]] [r H']]].
    + left. exists r. rewrite H, !append_assoc. reflexivity.
    + right. split; [eauto|]. exists a, b. rewrite H at 1.
      rewrite !append_assoc. reflexivity.
  - intros [[x H] | [[r H'] [a [b H]]]].
    + left. exists x. rewrite H, !append_assoc. reflexivity.
    + right. split; [| eauto]. exists a, b. rewrite H at 1.
      rewrite !append_assoc. reflexivity.
Qed.

Lemma dep_cond_parent_cond (u s : string) : dep_cond u s = parent_cond u s.
Proof. reflexivity. Qed.

Lemma upstream_deps_of_parents (u : string) (l : list json) :
  upstream_deps_of u l = upstream_parents_of u l.
Proof.
  induction l as [|v l IH]; simpl; [reflexivity|].
  destruct v; rewrite ?IH; reflexivity.
Qed.

(** On a list of strings the comprehension is a [filter]. *)
Lemma upstream_parents_of_strings (u : string) (l : list string) :
  upstream_parents_of u (map JStr l) = Ok (filter (parent_cond u) l).
Proof.
  induction l as [|s l IH]; simpl; [reflexivity|]. rewrite IH. simpl.
  destruct (parent_cond u s); reflexivity.
Qed.

(** It returns only when every element is a string. *)
Lemma upstream_parents_of_Ok (u : string) (elems : list json) (refs : list string) :
  upstream_parents_of u elems = Ok refs ->
  exists l, elems = map JStr l /\ refs = filter (parent_cond u) l.
Proof.
  revert refs. induction elems as [|v elems IH]; simpl; intros refs H.
  - exists []. injection H as <-. split; reflexivity.
  - destruct v; try discriminate.
    destruct (upstream_parents_of u elems) as [rest|e] eqn:E; [|discriminate].
    simpl in H. injection H as <-.
    destruct (IH rest eq_refl) as [l [-> ->]].
    exists (s :: l). split; reflexivity.
Qed.

Lemma upstream_parents_of_Forall (u : string) (elems : list json)
  (refs : list string) :
  upstream_parents_of u elems = Ok refs ->
  Forall (fun ref => cross_project u ref /\ In (JStr ref) elems) refs.
Proof.
  intros H. apply upstream_parents_of_Ok in H as [l [-> ->]].
  apply Forall_forall. intros ref Hin. apply filter_In in Hin as [Hin Hc].
  split; [now apply parent_cond_spec | now apply in_map].
Qed.

(** ** The two extraction passes *)

Lemma for_each_invariant {A S} (P : S -> Prop) (body : S -> A -> result S)
  (l : list A) :
  (forall s a s', In a l -> P s -> body s a = Ok s' -> P s') ->
  forall s r, P s -> for_each body l s = Ok r -> P r.
Proof.
  induction l as [|a l IH]; simpl; intros Hbody s r Hs H.
  - now injection H as <-.
  - destruct (body s a) as [s'|e] eqn:E; [|discriminate]. simpl in H.
    apply (IH (fun s a s' Hin => Hbody s a s' (or_intror Hin)) s' r); [|exact H].
    apply (Hbody s a s'); auto.
Qed.

Lemma refs_ok_nil u input list_of : refs_ok u input list_of [].
Proof. split; [constructor | intros k refs []]. Qed.

Lemma refs_ok_set u input list_of cross_refs k v elems refs :
  refs_ok u input list_of cross_refs ->
  In (k, v) input -> list_of v = Ok elems ->
  upstream_parents_of u elems = Ok refs -> refs <> [] ->
  refs_ok u input list_of (dict_set k refs cross_refs).
Proof.
  intros [Hnd Hj] Hin Hl Hu Hne. split; [now apply NoDup_keys_dict_set|].
  intros k' refs' H. apply In_dict_set in H as [[-> ->] | H]; [| auto].
  split; [exact Hne|]. exists v, elems. repeat split; auto.
  now apply upstream_parents_of_Forall.
Qed.

Lemma find_cross_project_refs_ok (m : json) (u : string) (r : dict (list string)) :
  find_cross_project_refs m u = Ok r ->
  exists parent_map,
    py_get m "parent_map" (JObj []) = Ok (JObj parent_map)
    /\ refs_ok u parent_map py_iter r.
Proof.
  unfold find_cross_project_refs. intros H.
  destruct (py_get m "parent_map" (JObj [])) as [pm|e] eqn:Eg; [|discriminate].
  simpl in H. destruct pm; try discriminate. simpl in H.
  exists items. split; [reflexivity|].
  revert H. apply for_each_invariant; [| apply refs_ok_nil].
  intros s [node_id parents] s' Hin Hs Hb.
  destruct (py_iter parents) as [elems|e] eqn:Ei; [|discriminate]. simpl in Hb.
  destruct (upstream_parents_of u elems) as [refs|e] eqn:Eu; [|discriminate].
  simpl in Hb. destruct refs as [|ref refs].
  - now injection Hb as <-.
  - injection Hb as <-. eapply refs_ok_set; eauto. discriminate.
Qed.

Lemma find_cross_project_refs_in_nodes_ok (m : json) (u : string)
  (r : dict (list string)) :
  find_cross_project_refs_in_nodes m u = Ok r ->
  exists nodes,
    py_get m "nodes" (JObj []) = Ok (JObj nodes)
    /\ refs_ok u nodes depends_on_nodes r.
Proof.
  unfold find_cross_project_refs_in_nodes. intros H.
  destruct (py_get m "nodes" (JObj [])) as [ns|e] eqn:Eg; [|discriminate].
  simpl in H. destruct ns; try discriminate. simpl in H.
  exists items. split; [reflexivity|].
  revert H. apply for_each_invariant; [| apply refs_ok_nil].
  intros s [node_id node] s' Hin Hs Hb.
  destruct (py_get node "depends_on" (JObj [])) as [d|e] eqn:Ed; [|discriminate].
  simpl in Hb.
  destruct (py_get d "nodes" (JArr [])) as [deps|e] eqn:En; [|discriminate].
  simpl in Hb.
  destruct (py_iter deps) as [elems|e] eqn:Ei; [|discriminate]. simpl in Hb.
  rewrite upstream_deps_of_parents in Hb.
  destruct (upstream_parents_of u elems) as [refs|e] eqn:Eu; [|discriminate].
  simpl in Hb. destruct refs as [|ref refs].
  - now injection Hb as <-.
  - injection Hb as <-. eapply refs_ok_set; eauto; [| discriminate].
    unfold depends_on_nodes. rewrite Ed. simpl. rewrite En. simpl. exact Ei.
Qed.

(** On a manifest of the expected shape neither pass raises. *)

Lemma is_str_list_strings (v : json) :
  is_str_list v = true -> exists l, v = JArr (map JStr l).
Proof.
  destruct v; try discriminate. simpl. intros H.
  induction elems as [|e elems IH]; [exists []; reflexivity|].
  simpl in H. apply andb_true_iff in H as [He H].
  destruct e; try discriminate. destruct (IH H) as [l Hl].
  injection Hl as ->. exists (s :: l). reflexivity.
Qed.

Lemma for_each_total {A S} (body : S -> A -> result S) (l : list A) :
  (forall s a, In a l -> exists s', body s a = Ok s') ->
  forall s, exists r, for_each body l s = Ok r.
Proof.
  induction l as [|a l IH]; simpl; intros Hbody s; [eauto|].
  destruct (Hbody s a (or_introl eq_refl)) as [s' ->]. simpl.
  apply IH. intros s0 a0 Hin. apply Hbody. now right.
Qed.

Lemma find_cross_project_refs_total (m : json) (u : string) :
  wf_manifest m = true -> exists r, find_cross_project_refs m u = Ok r.
Proof.
  destruct m; try discriminate. simpl. intros H.
  apply andb_true_iff in H as [H _]. apply andb_true_iff in H as [H _].
  unfold find_cross_project_refs, wf_optional in *. simpl.
  destruct (dict_get "parent_map" items) as [pm|]; simpl; [| eauto].
  destruct pm; try discriminate. simpl in *.
  apply for_each_total. intros s [node_id parents] Hin.
  rewrite forallb_forall in H. specialize (H _ Hin). simpl in H.
  apply is_str_list_strings in H as [l ->]. simpl.
  rewrite upstream_parents_of_strings. simpl.
  destruct (filter (parent_cond u) l); eauto.
Qed.

Lemma find_cross_project_refs_in_nodes_total (m : json) (u : string) :
  wf_manifest m = true ->
  exists r, find_cross_project_refs_in_nodes m u = Ok r.
Proof.
  destruct m; try discriminate. simpl. intros H.
  apply andb_true_iff in H as [H _]. apply andb_true_iff in H as [_ H].
  unfold find_cross_project_refs_in_nodes, wf_optional in *. simpl.
  destruct (dict_get "nodes" items) as [ns|]; simpl; [| eauto].
  destruct ns; try discriminate. simpl in *.
  apply for_each_total. intros s [node_id node] Hin.
  rewrite forallb_forall in H. specialize (H _ Hin). simpl in H.
  destruct node; try discriminate. simpl in *.
  assert (Hdeps : forall l,
             exists s', (upstream_deps <-- upstream_deps_of u (map JStr l) ;;
                         match upstream_deps with
                         | [] => Ok s
                         | _ => Ok (dict_set node_id upstream_deps s)
                         end) = Ok s').
  { intros l. rewrite upstream_deps_of_parents, upstream_parents_of_strings.
    simpl. destruct (filter (parent_cond u) l); eauto. }
  destruct (dict_get "depends_on" items1) as [d|]; simpl.
  - destruct d; try discriminate. simpl.
    destruct (dict_get "nodes" items2) as [deps|]; simpl.
    + apply is_str_list_strings in H as [l ->]. simpl. apply Hdeps.
    + apply (Hdeps []).
  - apply (Hdeps []).
Qed.

Lemma project_name_total (m : json) :
  wf_manifest m = true ->
  exists name,
    (metadata <-- py_get m "metadata" (JObj []) ;;
     py_get metadata "project_name" (JStr "unknown")) = Ok name.
Proof.
  destruct m; try discriminate. simpl. intros H.
  apply andb_true_iff in H as [_ H]. unfold wf_optional in H.
  destruct (dict_get "metadata" items) as [md|]; simpl; [| eauto].
  destruct md; try discriminate. simpl. eauto.
Qed.

(** ** Running the validator *)

Section Run.

Variable json_loads : string -> string + json.
Variable repr : json -> string.
Variable script_dir : path.

Local Abbreviation load_manifest := (load_manifest json_loads).
Local Abbreviation validate_lineage := (validate_lineage json_loads repr).
Local Abbreviation passes := (passes json_loads repr).
Local Abbreviation check_one := (check_one json_loads repr).
Local Abbreviation check_all := (check_all json_loads repr).
Local Abbreviation main := (main json_loads repr script_dir).

Lemma load_manifest_cases (manifest_path : path) (w : World) :
  load_manifest manifest_path w =
  match fs w manifest_path with
  | None =>
      (Raise (FileNotFoundError
                ("Manifest not found: " ++ str_of_path manifest_path)), w)
  | Some Dir =>
      (Raise (IsADirectoryError
                ("[Errno 21] Is a directory: '"
                 ++ str_of_path manifest_path ++ "'")), w)
  | Some (File content) =>
      match json_loads content with
      | inr doc => (Ok doc, w)
      | inl msg => (Raise (JSONDecodeError msg), w)
      end
  end.
Proof.
  unfold validate_lineage.load_manifest, bind, path_exists.
  destruct (fs w manifest_path) as [[content|]|] eqn:E; simpl;
    unfold json_load, bind, read_text; rewrite ?E; try reflexivity.
  destruct (json_loads content); reflexivity.
Qed.

Lemma load_manifest_world (manifest_path : path) (w : World) :
  snd (load_manifest manifest_path w) = w.
Proof.
  rewrite load_manifest_cases.
  destruct (fs w manifest_path) as [[content|]|]; try reflexivity.
  destruct (json_loads content); reflexivity.
Qed.

Lemma blind_load_manifest p : stdout_blind (load_manifest p).
Proof.
  unfold validate_lineage.load_manifest.
  apply blind_bind; [apply blind_path_exists|].
  intros [|]; simpl; [apply blind_json_load | apply blind_raise].
Qed.

Lemma blind_for_print {A} (l : list A) (body : A -> M unit) :
  (forall a, stdout_blind (body a)) -> stdout_blind (for_print l body).
Proof.
  intros Hb. induction l as [|a l IH]; simpl;
    [apply blind_ret | apply blind_bind; auto].
Qed.

Lemma for_print_runs {A} (l : list A) (body : A -> M unit) :
  (forall a w, exists w', body a w = (Ok tt, w') /\ same_registry w' w) ->
  forall w, exists w', for_print l body w = (Ok tt, w') /\ same_registry w' w.
Proof.
  intros Hb. induction l as [|a l IH]; simpl; intros w.
  - exists w. split; [reflexivity | apply same_registry_refl].
  - unfold bind. destruct (Hb a w) as [w1 [-> H1]].
    destruct (IH w1) as [w2 [-> H2]]. exists w2.
    split; [reflexivity | eapply same_registry_trans; eauto].
Qed.

Lemma print_runs line w :
  exists w', print line w = (Ok tt, w') /\ same_registry w' w.
Proof. eexists. split; [reflexivity | repeat split]. Qed.

Lemma report_findings_runs (all_refs : dict (list string)) (w : World) :
  exists w', report_findings all_refs w = (Ok tt, w') /\ same_registry w' w.
Proof.
  unfold report_findings, bind.
  destruct (print_runs (nl ++ "✓ Found " ++ str_of_nat (List.length all_refs)
         ++ " model(s) with cross-project references:" ++ nl) w)
    as [w1 [-> H1]].
  match goal with
  | |- context [for_print all_refs ?b] =>
      destruct (for_print_runs all_refs b) with (w := w1) as [w2 [-> H2]]
  end.
  - intros [node_id upstream_parents] w0. unfold bind.
    destruct (print_runs ("  " ++ last_field "." node_id ++ ":") w0)
      as [w3 [-> H3]].
    match goal with
    | |- context [for_print upstream_parents ?b] =>
        destruct (for_print_runs upstream_parents b) with (w := w3)
          as [w4 [-> H4]]
    end.
    + intros parent w5. apply print_runs.
    + exists w4. split; [reflexivity | eapply same_registry_trans; eauto].
  - exists w2. split; [reflexivity | eapply same_registry_trans; eauto].
Qed.

Lemma blind_report_findings all_refs : stdout_blind (report_findings all_refs).
Proof.
  unfold report_findings. apply blind_bind; [apply blind_print|]. intros _.
  apply blind_for_print. intros [node_id upstream_parents].
  apply blind_bind; [apply blind_print|]. intros _.
  apply blind_for_print. intros parent. apply blind_print.
Qed.

Lemma blind_validate_lineage p u : stdout_blind (validate_lineage p u).
Proof.
  unfold validate_lineage.validate_lineage.
  apply blind_bind; [apply blind_load_manifest|]. intros m.
  apply blind_bind; [apply blind_lift|]. intros md.
  apply blind_bind; [apply blind_lift|]. intros pn.
  do 4 (apply blind_bind; [apply blind_print|]; intros _).
  apply blind_bind; [apply blind_lift|]. intros parent_refs.
  apply blind_bind; [apply blind_lift|]. intros node_refs.
  destruct (dict_merge parent_refs node_refs); [apply blind_ret|].
  apply blind_bind; [apply blind_report_findings|]. intros _.
  destruct parent_refs;
    (apply blind_bind; [apply blind_print|]; intros _; apply blind_ret).
Qed.

(** The value of [validate_lineage] when no step raises, and the world
    it leaves. *)
Lemma validate_lineage_runs (manifest_path : path) (u : string) (w : World)
  (m name : json) (parent_refs node_refs : dict (list string)) :
  fst (load_manifest manifest_path w) = Ok m ->
  (metadata <-- py_get m "metadata" (JObj []) ;;
   py_get metadata "project_name" (JStr "unknown")) = Ok name ->
  find_cross_project_refs m u = Ok parent_refs ->
  find_cross_project_refs_in_nodes m u = Ok node_refs ->
  exists w',
    validate_lineage manifest_path u w
    = (Ok (classification u parent_refs node_refs), w')
    /\ same_registry w' w.
Proof.
  intros Hload Hname Hp Hn.
  assert (Hl : load_manifest manifest_path w = (Ok m, w)).
  { rewrite <- (load_manifest_world manifest_path w) at 2.
    rewrite <- Hload. now destruct (load_manifest manifest_path w). }
  destruct (py_get m "metadata" (JObj [])) as [md|e] eqn:Emd; [|discriminate].
  simpl in Hname.
  unfold validate_lineage.validate_lineage, classification.
  unfold bind at 1. rewrite Hl.
  unfold bind at 1. unfold lift at 1. rewrite Emd.
  unfold bind at 1. unfold lift at 1. rewrite Hname.
  do 4 (unfold bind at 1; unfold print at 1; cbv iota).
  unfold bind at 1. unfold lift at 1. rewrite Hp.
  unfold bind at 1. unfold lift at 1. rewrite Hn.
  match goal with
  | |- context [match dict_merge _ _ with _ => _ end ?w0] => set (w1 := w0)
  end.
  assert (H1 : same_registry w1 w) by (subst w1; repeat split).
  clearbody w1.
  destruct (dict_merge parent_refs node_refs) as [|kv all_refs].
  - exists w1. split; [reflexivity | exact H1].
  - unfold bind at 1.
    destruct (report_findings_runs (kv :: all_refs) w1) as [w2 [-> H2]].
    destruct parent_refs; unfold bind, print; simpl; eexists;
      (split; [reflexivity |]);
      (eapply same_registry_trans; [| eapply same_registry_trans; eauto]);
      repeat split.
Qed.

Lemma read_only_validate_lineage p u : read_only (validate_lineage p u).
Proof.
  intros w. unfold validate_lineage.validate_lineage.
  assert (Hw := load_manifest_world p w).
  unfold bind at 1.
  destruct (load_manifest p w) as [[m|e] w0]; simpl in Hw; subst w0;
    [| apply same_registry_refl].
  unfold bind at 1, lift at 1.
  destruct (py_get m "metadata" (JObj [])) as [md|e];
    [| apply same_registry_refl].
  unfold bind at 1, lift at 1.
  destruct (py_get md "project_name" (JStr "unknown")) as [pn|e];
    [| apply same_registry_refl].
  do 4 (unfold bind at 1; unfold print at 1; cbv iota).
  match goal with
  | |- context [bind (lift (find_cross_project_refs _ _)) _ ?w0] =>
      set (w1 := w0)
  end.
  assert (H1 : same_registry w1 w) by (subst w1; repeat split).
  clearbody w1.
  unfold bind at 1, lift at 1.
  destruct (find_cross_project_refs m _) as [parent_refs|e]; [| exact H1].
  unfold bind at 1, lift at 1.
  destruct (find_cross_project_refs_in_nodes m _) as [node_refs|e];
    [| exact H1].
  destruct (dict_merge parent_refs node_refs) as [|kv all_refs]; [exact H1|].
  unfold bind at 1.
  destruct (report_findings_runs (kv :: all_refs) w1) as [w2 [-> H2]].
  destruct parent_refs; unfold bind, print; simpl;
    (eapply same_registry_trans; [| eapply same_registry_trans; eauto]);
    repeat split.
Qed.

(** ** The batch *)

Lemma passes_blind u w w' p :
  same_registry w w' -> passes u w p = passes u w' p.
Proof.
  intros H. unfold lineage.passes.
  now rewrite (proj1 (blind_validate_lineage p u w w' H)).
Qed.

Lemma check_one_runs u p (results : list outcome) all_passed w :
  exists msg w',
    check_one u p results all_passed w
    = (Ok (results ++ [(p, passes u w p, msg)], all_passed && passes u w p), w')
    /\ same_registry w' w.
Proof.
  unfold validate_lineage.check_one. unfold bind at 1. unfold print at 1.
  cbv iota. set (w0 := set_stdout _ w).
  assert (H0 : same_registry w0 w) by repeat split.
  rewrite <- (passes_blind u w0 w p H0). unfold lineage.passes.
  assert (Hro := read_only_validate_lineage p u w0).
  unfold try_except, bind.
  destruct (validate_lineage p u w0) as [[[success message]|e] w1];
    simpl in Hro |- *.
  - exists message, w1. split; [| eapply same_registry_trans; eauto].
    destruct success, all_passed; reflexivity.
  - rewrite andb_false_r.
    destruct e; unfold print; simpl; eexists _, _;
      (split; [reflexivity |]);
      (eapply same_registry_trans; [| eapply same_registry_trans; eauto]);
      repeat split.
Qed.

Lemma check_all_runs u manifests :
  forall (results : list outcome) all_passed w,
  exists outcomes w',
    check_all u manifests results all_passed w
    = (Ok (results ++ outcomes, all_passed && forallb (passes u w) manifests),
       w')
    /\ map (fun o : outcome => fst (fst o)) outcomes = manifests
    /\ map (fun o : outcome => snd (fst o)) outcomes
       = map (passes u w) manifests
    /\ same_registry w' w.
Proof.
  induction manifests as [|p manifests IH]; intros results all_passed w; simpl.
  - exists [], w. rewrite app_nil_r, andb_true_r.
    repeat split; reflexivity.
  - unfold bind.
    destruct (check_one_runs u p results all_passed w) as (msg & w1 & -> & H1).
    simpl.
    destruct (IH (results ++ [(p, passes u w p, msg)])
                (all_passed && passes u w p) w1)
      as (outcomes & w2 & -> & Hp & Hs & H2).
    exists ((p, passes u w p, msg) :: outcomes), w2.
    assert (Hext : forall q, passes u w1 q = passes u w q)
      by (intros q; now apply passes_blind).
    split; [| split; [| split]].
    + rewrite <- app_assoc, andb_assoc. simpl.
      now rewrite (forallb_pointwise _ _ manifests Hext).
    + simpl. now rewrite Hp.
    + simpl. rewrite Hs. f_equal. now apply map_ext.
    + eapply same_registry_trans; eauto.
Qed.

Lemma main_exit_status (a : args) (w : World) :
  fst (main a w) =
  Ok (match manifests_to_check script_dir a with
      | Some manifests =>
          if forallb (passes (upstream a) w) manifests then 0 else 1
      | None => 1
      end).
Proof.
  unfold validate_lineage.main.
  destruct (manifests_to_check script_dir a) as [manifests|].
  - unfold bind at 1.
    destruct (check_all_runs (upstream a) manifests [] true w)
      as (outcomes & w1 & -> & _ & _ & _). simpl.
    do 3 (unfold bind at 1; unfold print at 1; cbv iota).
    unfold bind at 1.
    match goal with
    | |- context [for_print outcomes ?b ?w0] =>
        destruct (for_print_runs outcomes b) with (w := w0) as [w2 [-> _]]
    end.
    + intros r w0. apply print_runs.
    + destruct (forallb (passes (upstream a) w) manifests); reflexivity.
  - reflexivity.
Qed.

(** ** The claims about the validator *)

(** C2.  Once the manifest is loaded and neither the project-name lookup
    nor an extraction pass raises, [validate_lineage] returns [False] with
    the no-references diagnostic when the merged mapping is empty; else
    [True] with the validated diagnostic when [parent_refs] is not empty;
    else [True] with the partial-lineage diagnostic.  The three
    diagnostics differ, so the two passing outcomes are told apart by the
    diagnostic and not by the boolean. *)
Theorem validate_lineage_classifies (manifest_path : path) (u : string)
  (w : World) (m name : json) (parent_refs node_refs : dict (list string)) :
  fst (load_manifest manifest_path w) = Ok m ->
  (metadata <-- py_get m "metadata" (JObj []) ;;
   py_get metadata "project_name" (JStr "unknown")) = Ok name ->
  find_cross_project_refs m u = Ok parent_refs ->
  find_cross_project_refs_in_nodes m u = Ok node_refs ->
  let verdict := fst (validate_lineage manifest_path u w) in
  (dict_merge parent_refs node_refs = [] ->
   verdict = Ok (false, msg_no_refs u))
  /\ (dict_merge parent_refs node_refs <> [] -> parent_refs <> [] ->
      verdict = Ok (true, msg_validated))
  /\ (dict_merge parent_refs node_refs <> [] -> parent_refs = [] ->
      verdict = Ok (true, msg_partial))
  /\ msg_validated <> msg_partial
  /\ msg_no_refs u <> msg_validated
  /\ msg_no_refs u <> msg_partial.
Proof.
  intros Hload Hname Hp Hn verdict.
  destruct (validate_lineage_runs manifest_path u w m name parent_refs
              node_refs Hload Hname Hp Hn) as (w' & Hrun & _).
  subst verdict. rewrite Hrun. simpl. unfold classification.
  repeat split; try discriminate.
  - intros ->. reflexivity.
  - intros Hm Hpne. destruct (dict_merge parent_refs node_refs);
      [contradiction|]. destruct parent_refs; [contradiction | reflexivity].
  - intros Hm ->. destruct (dict_merge [] node_refs);
      [contradiction | reflexivity].
Qed.

(** C5.  The loop over the manifests evaluates every manifest, in order,
    and its final [all_passed] is the conjunction of the verdicts, where a
    manifest whose validation raises (missing file, text that does not
    parse, or anything else) counts as failed; the exit status is 0
    exactly when that conjunction holds. *)
Theorem batch_result_is_conjunction (u : string) (manifests : list path)
  (w : World) :
  (exists outcomes w',
     check_all u manifests [] true w
     = (Ok (outcomes, forallb (passes u w) manifests), w')
     /\ map (fun o : outcome => fst (fst o)) outcomes = manifests
     /\ map (fun o : outcome => snd (fst o)) outcomes
        = map (passes u w) manifests)
  /\ (forall a : args,
        manifests_to_check script_dir a = Some manifests -> upstream a = u ->
        fst (main a w) = Ok (if forallb (passes u w) manifests then 0 else 1))
  /\ (forall p, fs w p = None -> passes u w p = false)
  /\ (forall p content msg,
        fs w p = Some (File content) -> json_loads content = inl msg ->
        passes u w p = false).
Proof.
  split; [| split; [| split]].
  - destruct (check_all_runs u manifests [] true w)
      as (outcomes & w' & Hrun & Hp & Hs & _).
    exists outcomes, w'. auto.
  - intros a Hsel <-. rewrite main_exit_status, Hsel. reflexivity.
  - intros p Hp. unfold lineage.passes, validate_lineage.validate_lineage.
    unfold bind at 1. rewrite load_manifest_cases, Hp. reflexivity.
  - intros p content msg Hp Hl.
    unfold lineage.passes, validate_lineage.validate_lineage.
    unfold bind at 1. rewrite load_manifest_cases, Hp, Hl. reflexivity.
Qed.

(** C4, as the code has it.  Loading raises [FileNotFoundError] when the
    file is absent and [JSONDecodeError] when the text does not parse, and
    returns any document that parses, whatever its keys.  A manifest
    without [parent_map] (or without [nodes]) yields no references from
    that pass, exactly as one in which the key holds an empty mapping. *)
Theorem load_manifest_outcomes (manifest_path : path) (w : World) :
  (fs w manifest_path = None ->
   load_manifest manifest_path w
   = (Raise (FileNotFoundError
               ("Manifest not found: " ++ str_of_path manifest_path)), w))
  /\ (forall content msg,
        fs w manifest_path = Some (File content) ->
        json_loads content = inl msg ->
        load_manifest manifest_path w = (Raise (JSONDecodeError msg), w))
  /\ (forall content doc,
        fs w manifest_path = Some (File content) ->
        json_loads content = inr doc ->
        load_manifest manifest_path w = (Ok doc, w))
  /\ (forall fields u,
        dict_get "parent_map" fields = None ->
        find_cross_project_refs (JObj fields) u = Ok []
        /\ find_cross_project_refs
             (JObj (dict_set "parent_map" (JObj []) fields)) u = Ok [])
  /\ (forall fields u,
        dict_get "nodes" fields = None ->
        find_cross_project_refs_in_nodes (JObj fields) u = Ok []
        /\ find_cross_project_refs_in_nodes
             (JObj (dict_set "nodes" (JObj []) fields)) u = Ok []).
Proof.
  split; [| split; [| split; [| split]]].
  - intros H. now rewrite load_manifest_cases, H.
  - intros content msg H Hl. now rewrite load_manifest_cases, H, Hl.
  - intros content doc H Hl. now rewrite load_manifest_cases, H, Hl.
  - intros fields u H. unfold find_cross_project_refs. simpl.
    now rewrite H, dict_get_set_eq.
  - intros fields u H. unfold find_cross_project_refs_in_nodes. simpl.
    now rewrite H, dict_get_set_eq.
Qed.

End Run.

(** C3.  The condition of either comprehension accepts an identifier
    exactly when it starts with [model.<upstream>.], or starts with
    [source.] and contains [.<upstream>.]; each convention alone is
    enough, and a model of another project is not accepted. *)
Theorem matcher_accepts_exactly_the_two_conventions (u ref : string) :
  (parent_cond u ref = true <->
   (exists x, ref = ("model." ++ u ++ "." ++ x)%string)
   \/ ((exists r, ref = ("source." ++ r)%string)
       /\ exists a b, ref = (a ++ "." ++ u ++ "." ++ b)%string))
  /\ (dep_cond u ref = true <-> cross_project u ref)
  /\ (forall x, parent_cond u ("model." ++ u ++ "." ++ x) = true)
  /\ (forall p x, parent_cond u ("source." ++ p ++ "." ++ u ++ "." ++ x) = true)
  /\ parent_cond "dbt_up" "model.other_project.X" = false
  /\ (forall l : list string,
        upstream_parents_of u (map JStr l) = Ok (filter (parent_cond u) l)).
Proof.
  split; [| split; [| split; [| split; [| split]]]].
  - apply parent_cond_spec.
  - rewrite dep_cond_parent_cond. apply parent_cond_spec.
  - intros x. apply parent_cond_spec. left. now exists x.
  - intros p x. apply parent_cond_spec. right. split.
    + eexists. reflexivity.
    + exists ("source." ++ p)%string, x. now rewrite append_assoc.
  - reflexivity.
  - apply upstream_parents_of_strings.
Qed.

(** The loop of the [depends_on] pass, run over nodes that list what
    [parent_map] holds, does what the loop of the [parent_map] pass does,
    exceptions included. *)
Lemma passes_agree_on_same_lists (u : string) (items nodes : dict json) :
  same_lists items nodes ->
  forall acc,
    for_each
      (fun cross_refs (item : string * json) =>
         let (node_id, node) := item in
         d <-- py_get node "depends_on" (JObj []) ;;
         depends_on <-- py_get d "nodes" (JArr []) ;;
         elems <-- py_iter depends_on ;;
         upstream_deps <-- upstream_deps_of u elems ;;
         match upstream_deps with
         | [] => Ok cross_refs
         | _ => Ok (dict_set node_id upstream_deps cross_refs)
         end)
      nodes acc
    = for_each
        (fun cross_refs (item : string * json) =>
           let (node_id, parents) := item in
           elems <-- py_iter parents ;;
           upstream_parents <-- upstream_parents_of u elems ;;
           match upstream_parents with
           | [] => Ok cross_refs
           | _ => Ok (dict_set node_id upstream_parents cross_refs)
           end)
        items acc.
Proof.
  induction 1 as [| [k v] [k' node] items nodes [Hk Hl] _ IH]; intros acc;
    [reflexivity|].
  cbn [fst snd] in Hk, Hl. subst k'. cbn [for_each].
  assert (Hstep :
            (d <-- py_get node "depends_on" (JObj []) ;;
             depends_on <-- py_get d "nodes" (JArr []) ;;
             elems <-- py_iter depends_on ;;
             upstream_deps <-- upstream_deps_of u elems ;;
             match upstream_deps with
             | [] => Ok acc
             | _ => Ok (dict_set k upstream_deps acc)
             end)
            = (elems <-- py_iter v ;;
               upstream_parents <-- upstream_parents_of u elems ;;
               match upstream_parents with
               | [] => Ok acc
               | _ => Ok (dict_set k upstream_parents acc)
               end)).
  { rewrite <- Hl. unfold depends_on_nodes.
    destruct (py_get node "depends_on" (JObj [])) as [d|e];
      [| reflexivity].
    cbn [rbind].
    destruct (py_get d "nodes" (JArr [])) as [depends_on|e];
      [| reflexivity].
    cbn [rbind].
    destruct (py_iter depends_on) as [elems|e]; [| reflexivity].
    cbn [rbind]. rewrite upstream_deps_of_parents. reflexivity. }
  rewrite Hstep.
  destruct (elems <-- py_iter v ;;
            upstream_parents <-- upstream_parents_of u elems ;;
            match upstream_parents with
            | [] => Ok acc
            | _ => Ok (dict_set k upstream_parents acc)
            end) as [acc'|e]; [| reflexivity].
  cbn [rbind]. apply IH.
Qed.

(** C7.  The [depends_on] pass matches like the [parent_map] pass.  The
    two conditions accept the same identifiers, and each decides what its
    pass returns: on a node that lists one identifier either pass returns
    that node with that identifier when the condition accepts it, and
    nothing otherwise.  Whenever [nodes] lists under [depends_on.nodes]
    what [parent_map] holds, node by node, the [depends_on] pass on the
    one returns what the [parent_map] pass returns on the other, an
    exception included.  Each pass reads only its own part of the
    manifest: storing anything under [nodes] leaves the [parent_map] pass
    as it was, and the other way round. *)
Theorem depends_on_pass_matches_like_parent_map_pass (u : string) :
  (forall ref, dep_cond u ref = parent_cond u ref)
  /\ (forall k ref,
        find_cross_project_refs
          (JObj [("parent_map", JObj [(k, JArr [JStr ref])])]) u
        = Ok (if parent_cond u ref then [(k, [ref])] else [])
        /\ find_cross_project_refs_in_nodes
             (JObj [("nodes", JObj [(k, depending_on (JArr [JStr ref]))])]) u
           = Ok (if dep_cond u ref then [(k, [ref])] else []))
  /\ (forall m1 m2 parent_map nodes,
        py_get m1 "parent_map" (JObj []) = Ok (JObj parent_map) ->
        py_get m2 "nodes" (JObj []) = Ok (JObj nodes) ->
        same_lists parent_map nodes ->
        find_cross_project_refs_in_nodes m2 u = find_cross_project_refs m1 u)
  /\ (forall fields v,
        find_cross_project_refs (JObj (dict_set "nodes" v fields)) u
        = find_cross_project_refs (JObj fields) u)
  /\ (forall fields v,
        find_cross_project_refs_in_nodes
          (JObj (dict_set "parent_map" v fields)) u
        = find_cross_project_refs_in_nodes (JObj fields) u).
Proof.
  split; [| split; [| split; [| split]]].
  - intros ref. apply dep_cond_parent_cond.
  - intros k ref. split.
    + unfold find_cross_project_refs. cbn.
      destruct (parent_cond u ref); reflexivity.
    + unfold find_cross_project_refs_in_nodes, depending_on. cbn.
      destruct (dep_cond u ref); reflexivity.
  - intros m1 m2 parent_map nodes H1 H2 Hsame.
    unfold find_cross_project_refs, find_cross_project_refs_in_nodes.
    rewrite H1, H2. cbn [rbind py_items].
    now apply passes_agree_on_same_lists.
  - intros fields v. unfold find_cross_project_refs. simpl.
    rewrite dict_get_set_neq by discriminate. reflexivity.
  - intros fields v. unfold find_cross_project_refs_in_nodes. simpl.
    rewrite dict_get_set_neq by discriminate. reflexivity.
Qed.

(** C10.  In a mapping returned by either pass no key is repeated, and
    every entry has a non-empty list whose elements all match one of the
    two conventions and all occur in what the input mapping holds for
    that node, which is a node of the input mapping; on a manifest of the
    expected shape both passes return. *)
Theorem extracted_refs_are_justified (m : json) (u : string) :
  (forall r,
     find_cross_project_refs m u = Ok r ->
     exists parent_map,
       py_get m "parent_map" (JObj []) = Ok (JObj parent_map)
       /\ NoDup (keys r)
       /\ forall k refs,
            In (k, refs) r ->
            refs <> []
            /\ exists parents elems,
                 In (k, parents) parent_map /\ py_iter parents = Ok elems
                 /\ Forall (fun ref => cross_project u ref
                                       /\ In (JStr ref) elems) refs)
  /\ (forall r,
        find_cross_project_refs_in_nodes m u = Ok r ->
        exists nodes,
          py_get m "nodes" (JObj []) = Ok (JObj nodes)
          /\ NoDup (keys r)
          /\ forall k refs,
               In (k, refs) r ->
               refs <> []
               /\ exists node elems,
                    In (k, node) nodes /\ depends_on_nodes node = Ok elems
                    /\ Forall (fun ref => cross_project u ref
                                          /\ In (JStr ref) elems) refs)
  /\ (wf_manifest m = true ->
      (exists r, find_cross_project_refs m u = Ok r)
      /\ (exists r, find_cross_project_refs_in_nodes m u = Ok r)).
Proof.
  split; [| split].
  - intros r H. apply find_cross_project_refs_ok in H as (pm & Hg & Hnd & Hj).
    exists pm. split; [exact Hg|]. split; [exact Hnd|].
    intros k refs Hin. exact (Hj k refs Hin).
  - intros r H.
    apply find_cross_project_refs_in_nodes_ok in H as (ns & Hg & Hnd & Hj).
    exists ns. split; [exact Hg|]. split; [exact Hnd|].
    intros k refs Hin. exact (Hj k refs Hin).
  - intros H. split;
      [now apply find_cross_project_refs_total
      | now apply find_cross_project_refs_in_nodes_total].
Qed.

(** C1, as the code has it.  The merged mapping has the keys of
    [parent_refs] and of [node_refs]; a node of [node_refs] gets its list
    from [node_refs] alone, also when [parent_refs] has the node, and a
    node that only [parent_refs] has keeps its list. *)
Theorem merge_keeps_depends_on_references (m : json) (u : string)
  (parent_refs node_refs : dict (list string)) :
  find_cross_project_refs m u = Ok parent_refs ->
  find_cross_project_refs_in_nodes m u = Ok node_refs ->
  let all_refs := dict_merge parent_refs node_refs in
  (forall k, In k (keys all_refs) <->
             In k (keys parent_refs) \/ In k (keys node_refs))
  /\ (forall k refs,
        dict_get k node_refs = Some refs -> dict_get k all_refs = Some refs)
  /\ (forall k,
        dict_get k node_refs = None ->
        dict_get k all_refs = dict_get k parent_refs).
Proof.
  intros Hp Hn all_refs.
  apply find_cross_project_refs_in_nodes_ok in Hn as (ns & _ & Hnd & _).
  subst all_refs. split; [| split].
  - intros k. apply keys_dict_merge.
  - intros k refs H. now rewrite dict_get_merge, H.
  - intros k H. now rewrite dict_get_merge, H.
Qed.

(** ** The claims on sample inputs *)

Lemma validate_lineage_classifies_witness :
  fst (validate_lineage samples.loads samples.repr samples.downstream_manifest
         "dbt_up"
         samples.world_overlap)
  = Ok (true, msg_validated).
Proof.
  refine (proj1 (proj2 (validate_lineage_classifies samples.loads samples.repr
                          samples.downstream_manifest "dbt_up"
                          samples.world_overlap
                          samples.manifest_overlap (JStr "unknown")
                          samples.refs_x samples.refs_y _ _ _ _)) _ _);
    try reflexivity; discriminate.
Defined.

Lemma batch_result_is_conjunction_witness :
  fst (main samples.loads samples.repr samples.script_dir
         {| project := None; manifest := None; upstream := "dbt_up";
            all := true |}
         samples.world_overlap)
  = Ok 1
  /\ passes samples.loads samples.repr "dbt_up"
       samples.world_overlap
       samples.loom_manifest
     = false
  /\ passes samples.loads samples.repr "dbt_up"
       samples.world_broken
       samples.downstream_manifest
     = false.
Proof.
  split; [| split].
  - exact (proj1 (proj2 (batch_result_is_conjunction samples.loads samples.repr
                           samples.script_dir "dbt_up"
                           [samples.loom_manifest; samples.downstream_manifest]
                           samples.world_overlap))
             {| project := None; manifest := None; upstream := "dbt_up";
                all := true |} eq_refl eq_refl).
  - exact (proj1 (proj2 (proj2 (batch_result_is_conjunction samples.loads
                                  samples.repr samples.script_dir "dbt_up" []
                                  samples.world_overlap)))
             samples.loom_manifest eq_refl).
  - exact (proj2 (proj2 (proj2 (batch_result_is_conjunction samples.loads
                                  samples.repr samples.script_dir "dbt_up" []
                                  samples.world_broken)))
             samples.downstream_manifest samples.doc_broken
             "Expecting property name enclosed in double quotes: line 1 column 2 (char 1)"
             eq_refl eq_refl).
Defined.

Lemma load_manifest_outcomes_witness :
  fst (load_manifest samples.loads samples.downstream_manifest
         (samples.world []))
  = Raise (FileNotFoundError "Manifest not found: /repo/dbt_down/target/manifest.json")
  /\ fst (load_manifest samples.loads samples.downstream_manifest
            samples.world_broken)
     = Raise (JSONDecodeError
                "Expecting property name enclosed in double quotes: line 1 column 2 (char 1)")
  /\ fst (load_manifest samples.loads samples.downstream_manifest
            samples.world_empty_doc)
     = Ok (JObj [])
  /\ find_cross_project_refs (JObj []) "dbt_up" = Ok []
  /\ find_cross_project_refs_in_nodes (JObj []) "dbt_up" = Ok [].
Proof.
  split; [| split; [| split; [| split]]].
  - exact (f_equal fst
             (proj1 (load_manifest_outcomes samples.loads
                       samples.downstream_manifest (samples.world []))
                eq_refl)).
  - exact (f_equal fst
             (proj1 (proj2 (load_manifest_outcomes samples.loads
                              samples.downstream_manifest
                              samples.world_broken))
                samples.doc_broken _ eq_refl eq_refl)).
  - exact (f_equal fst
             (proj1 (proj2 (proj2 (load_manifest_outcomes samples.loads
                                     samples.downstream_manifest
                                     samples.world_empty_doc)))
                samples.doc_empty _ eq_refl eq_refl)).
  - exact (proj1 (proj1 (proj2 (proj2 (proj2
             (load_manifest_outcomes samples.loads samples.downstream_manifest
                (samples.world [])))))
             [] "dbt_up" eq_refl)).
  - exact (proj1 (proj2 (proj2 (proj2 (proj2
             (load_manifest_outcomes samples.loads samples.downstream_manifest
                (samples.world [])))))
             [] "dbt_up" eq_refl)).
Defined.

(** A manifest without [parent_map] and [nodes] is loaded. *)
Lemma missing_key_is_not_rejected :
  ~ missing_key_is_rejected samples.loads
      samples.world_empty_doc
      samples.downstream_manifest.
Proof.
  intros H. destruct (H [] eq_refl) as [Hp _]. now apply Hp.
Qed.

Lemma matcher_accepts_exactly_the_two_conventions_witness :
  parent_cond "dbt_up" "source.down.dbt_up.x" = true
  /\ ~ cross_project "dbt_up" "model.other_project.X".
Proof.
  split.
  - apply (proj2 (proj1 (matcher_accepts_exactly_the_two_conventions
                           "dbt_up" "source.down.dbt_up.x"))).
    right. split; [now exists "down.dbt_up.x" | now exists "source.down", "x"].
  - intros H.
    apply (proj2 (proj1 (matcher_accepts_exactly_the_two_conventions
                           "dbt_up" "model.other_project.X"))) in H.
    discriminate H.
Defined.

Lemma depends_on_pass_matches_like_parent_map_pass_witness :
  find_cross_project_refs_in_nodes
    (JObj [("nodes",
            JObj [("model.down.a",
                   JObj [("resource_type", JStr "model");
                         ("depends_on",
                          JObj [("nodes", JArr [JStr "model.dbt_up.x"])])])])])
    "dbt_up"
  = find_cross_project_refs samples.manifest_overlap "dbt_up".
Proof.
  refine (proj1 (proj2 (proj2
            (depends_on_pass_matches_like_parent_map_pass "dbt_up")))
            samples.manifest_overlap
            (JObj [("nodes",
                    JObj [("model.down.a",
                           JObj [("resource_type", JStr "model");
                                 ("depends_on",
                                  JObj [("nodes",
                                         JArr [JStr "model.dbt_up.x"])])])])])
            [("model.down.a", JArr [JStr "model.dbt_up.x"])]
            [("model.down.a",
              JObj [("resource_type", JStr "model");
                    ("depends_on",
                     JObj [("nodes", JArr [JStr "model.dbt_up.x"])])])]
            eq_refl eq_refl _).
  repeat constructor.
Defined.

Lemma extracted_refs_are_justified_witness :
  (exists parent_map,
     py_get samples.manifest_overlap "parent_map" (JObj [])
     = Ok (JObj parent_map)
     /\ refs_ok "dbt_up" parent_map py_iter samples.refs_x)
  /\ (exists nodes,
        py_get samples.manifest_overlap "nodes" (JObj []) = Ok (JObj nodes)
        /\ refs_ok "dbt_up" nodes depends_on_nodes samples.refs_y)
  /\ (exists r, find_cross_project_refs samples.manifest_partial "dbt_up" = Ok r).
Proof.
  split; [| split].
  - exact (proj1 (extracted_refs_are_justified samples.manifest_overlap "dbt_up")
             samples.refs_x eq_refl).
  - exact (proj1 (proj2 (extracted_refs_are_justified samples.manifest_overlap
                           "dbt_up"))
             samples.refs_y eq_refl).
  - exact (proj1 (proj2 (proj2 (extracted_refs_are_justified
                                  samples.manifest_partial "dbt_up"))
                    eq_refl)).
Defined.

Lemma merge_keeps_depends_on_references_witness :
  dict_get "model.down.a" (dict_merge samples.refs_x samples.refs_y)
  = Some ["model.dbt_up.y"].
Proof.
  exact (proj1 (proj2 (merge_keeps_depends_on_references
                         samples.manifest_overlap "dbt_up" samples.refs_x
                         samples.refs_y eq_refl eq_refl))
           "model.down.a" ["model.dbt_up.y"] eq_refl).
Defined.

(** The node [model.down.a] has [model.dbt_up.x] in [parent_map] and
    [model.dbt_up.y] in [depends_on]; the merged mapping gives it the
    second one only. *)
Lemma merge_drops_parent_map_references :
  ~ merge_unions_references samples.manifest_overlap "dbt_up".
Proof.
  intros H.
  destruct (H samples.refs_x samples.refs_y eq_refl eq_refl "model.down.a"
              ["model.dbt_up.x"] ["model.dbt_up.y"] eq_refl eq_refl)
    as (merged & Hget & Hunion).
  injection Hget as <-.
  destruct (proj2 (Hunion "model.dbt_up.x") (or_introl (or_introl eq_refl)))
    as [E | []].
  discriminate E.
Qed.

End validate_lineage_proofs.

(* ===================================================================== *)
(** * Properties of the registry publisher *)
(* ===================================================================== *)

Module publish_manifest_proofs.
Import Py notions PyFacts publish_manifest registry.

#[local] Arguments zero_pad : simpl never.

Lemma strftime_is_name (d : datetime) : is_name (strftime d) = true.
Proof.
  unfold is_name. apply andb_true_iff. split.
  - apply is_component_long. unfold strftime.
    rewrite !length_append. cbn [String.length]. lia.
  - unfold strftime. rewrite !no_slash_append, !no_slash_zero_pad. reflexivity.
Qed.

Section Layout.

Variables (registry_base : path) (project_name env : string).

Let dir : path := registry_base // project_name // env.

Lemma latest_dir_parts :
  dir // "latest" = {| root := root dir; parts := parts dir ++ ["latest"] |}.
Proof. now apply joinpath_name. Qed.

Lemma latest_path_parts :
  latest_path registry_base project_name env
  = {| root := root dir; parts := parts dir ++ ["latest"; "manifest.json"] |}.
Proof.
  unfold latest_path. fold dir. rewrite latest_dir_parts.
  rewrite joinpath_name by reflexivity. simpl. now rewrite <- app_assoc.
Qed.

Lemma history_dir_parts (d : datetime) :
  dir // "history" // strftime d
  = {| root := root dir; parts := parts dir ++ ["history"; strftime d] |}.
Proof.
  rewrite (joinpath_name dir "history") by reflexivity.
  rewrite joinpath_name by apply strftime_is_name.
  simpl. now rewrite <- app_assoc.
Qed.

Lemma history_path_parts (d : datetime) :
  history_path registry_base project_name env (strftime d)
  = {| root := root dir;
       parts := parts dir ++ ["history"; strftime d; "manifest.json"] |}.
Proof.
  unfold history_path. fold dir. rewrite history_dir_parts.
  rewrite joinpath_name by reflexivity. simpl. now rewrite <- app_assoc.
Qed.

(** Neither [mkdir] of [publish_local] creates the latest manifest path. *)
Lemma latest_path_not_made (target : path) (w w' : World) (res : result unit)
  (d : datetime) :
  target = dir // "latest" \/ target = dir // "history" // strftime d ->
  mkdir_parents target w = (res, w') ->
  fs w' (latest_path registry_base project_name env)
  = fs w (latest_path registry_base project_name env).
Proof.
  intros Ht H. apply mkdir_parents_effect in H as (_ & _ & _ & Hf).
  destruct (Hf (latest_path registry_base project_name env))
    as [E | (_ & _ & _ & k & Hk & Hp)]; [exact E | exfalso].
  rewrite latest_path_parts in Hp. simpl in Hp.
  destruct Ht as [-> | ->].
  - rewrite latest_dir_parts in Hp. simpl in Hp.
    apply (f_equal (@List.length string)) in Hp.
    rewrite length_firstn, !length_app in Hp. simpl in Hp. lia.
  - rewrite history_dir_parts in Hp, Hk. simpl in Hp, Hk.
    assert (Hlen := f_equal (@List.length string) Hp).
    rewrite length_firstn, !length_app in Hlen. simpl in Hlen.
    rewrite firstn_all2 in Hp
      by (rewrite length_app; simpl; rewrite length_app in Hk; simpl in Hk; lia).
    apply app_inv_head in Hp. discriminate Hp.
Qed.

(** Two history locations are told apart by their timestamps. *)
Lemma history_path_inj (d1 d2 : datetime) :
  str_of_path (history_path registry_base project_name env (strftime d1))
  = str_of_path (history_path registry_base project_name env (strftime d2)) ->
  strftime d1 = strftime d2.
Proof.
  rewrite !history_path_parts.
  assert (E : forall d,
             str_of_path
               {| root := root dir;
                  parts := parts dir
                           ++ ["history"; strftime d; "manifest.json"] |}
             = ((root dir ++ with_sep "/" (parts dir) ++ "history/")
                ++ strftime d ++ "/manifest.json")%string).
  { intros d. rewrite str_of_path_parts by (destruct (parts dir); discriminate).
    rewrite join_app_cons. cbn [join]. now rewrite !append_assoc. }
  rewrite !E. intros H. apply append_inv_head in H.
  now apply append_inv_tail in H.
Qed.

End Layout.

Section Publish.

Variable json_loads : string -> string + json.
Variable repr_str : string -> string.
Variable script_dir : path.
Variable HAS_BOTO3 : bool.

Local Abbreviation publish_s3 := (publish_s3 HAS_BOTO3).
Local Abbreviation publish := (publish script_dir HAS_BOTO3).
Local Abbreviation main := (main json_loads repr_str script_dir HAS_BOTO3).
Local Abbreviation get_manifest_path := (get_manifest_path script_dir).

(** What a local publish that returned has done. *)
Lemma publish_local_Ok (manifest_path : path) (project_name env : string)
  (registry_base : path) (w w' : World) (l h : string) :
  publish_local manifest_path project_name env registry_base w
  = (Ok (l, h), w') ->
  l = str_of_path (latest_path registry_base project_name env)
  /\ h = str_of_path
           (history_path registry_base project_name env (strftime (clock w)))
  /\ clock w' = clock w
  /\ exists content,
       fs w manifest_path = Some (File content)
       /\ fs w' manifest_path = Some (File content)
       /\ (fs w (latest_path registry_base project_name env) <> Some Dir ->
           fs w' (latest_path registry_base project_name env)
           = Some (File content)).
Proof.
  unfold publish_local. intros H.
  apply bind_Ok in H as (now & w0 & Hnow & H).
  unfold utcnow in Hnow. injection Hnow as <- <-.
  apply bind_Ok in H as (u1 & wa & Hmk1 & H).
  apply bind_Ok in H as (u2 & wb & Hmk2 & H).
  apply bind_Ok in H as (u3 & wc & Hcp1 & H).
  apply bind_Ok in H as (u4 & wd & Hcp2 & H).
  apply bind_Ok in H as (u5 & we & Hp1 & H). apply print_Ok in Hp1.
  apply bind_Ok in H as (u6 & wf & Hp2 & H). apply print_Ok in Hp2.
  apply bind_Ok in H as (u7 & wg & Hp3 & H). apply print_Ok in Hp3.
  unfold ret in H. injection H as <- <- <-.
  fold (latest_path registry_base project_name env) in *.
  fold (history_path registry_base project_name env (strftime (clock w))) in *.
  set (lp := latest_path registry_base project_name env) in *.
  set (hp := history_path registry_base project_name env (strftime (clock w)))
    in *.
  assert (Hl1 := latest_path_not_made registry_base project_name env _ _ _ _
                   (clock w) (or_introl eq_refl) Hmk1).
  assert (Hl2 := latest_path_not_made registry_base project_name env _ _ _ _
                   (clock w) (or_intror eq_refl) Hmk2).
  fold lp in Hl1, Hl2.
  apply mkdir_parents_effect in Hmk1 as (_ & _ & Hc1 & Hf1).
  apply mkdir_parents_effect in Hmk2 as (_ & _ & Hc2 & Hf2).
  apply copy2_Ok in Hcp1 as (c & Hsrc1 & Ht1 & Hd1 & ->).
  apply copy2_Ok in Hcp2 as (c' & Hsrc2 & Ht2 & Hd2 & ->).
  subst we wf wg. cbn [fs s3 stdout clock set_fs set_stdout] in *.
  rewrite fs_write_other in Hsrc2 by (intros E; apply Ht1; symmetry; exact E).
  assert (c' = c) by congruence. subst c'.
  split; [reflexivity|]. split; [reflexivity|]. split; [congruence|].
  exists c. split; [| split].
  - destruct (Hf2 manifest_path) as [E2 | (E2 & E2' & _)];
      [| rewrite E2' in Hsrc1; discriminate].
    destruct (Hf1 manifest_path) as [E1 | (E1 & E1' & _)];
      [congruence | rewrite E2, E1' in Hsrc1; discriminate].
  - rewrite fs_write_other by (intros E; apply Ht2; symmetry; exact E).
    rewrite fs_write_other by (intros E; apply Ht1; symmetry; exact E).
    exact Hsrc1.
  - intros Hnd.
    assert (Hlp : fs wb lp <> Some Dir) by (rewrite Hl2, Hl1; exact Hnd).
    assert (Et1 : copy_target manifest_path lp wb = lp).
    { unfold copy_target. destruct (fs wb lp) as [[x|]|]; congruence. }
    rewrite Et1 in *.
    match goal with
    | |- fs_write ?t _ _ lp = _ =>
        destruct (path_eqb lp t) eqn:Et
    end.
    + apply path_eqb_eq in Et. rewrite <- Et. apply fs_write_same.
    + apply path_eqb_neq in Et. rewrite fs_write_other by exact Et.
      apply fs_write_same.
Qed.

(** What an object-store publish that returned has done. *)
Lemma publish_s3_Ok (manifest_path : path) (project_name env bucket : string)
  (w w' : World) (l h : string) :
  publish_s3 manifest_path project_name env bucket w = (Ok (l, h), w') ->
  l = ("s3://" ++ bucket ++ "/" ++ latest_key project_name env)%string
  /\ h = ("s3://" ++ bucket ++ "/"
          ++ history_key project_name env (strftime (clock w)))%string
  /\ clock w' = clock w /\ fs w' = fs w
  /\ exists content,
       fs w manifest_path = Some (File content)
       /\ s3 w' bucket (latest_key project_name env)
          = Some (json_object content).
Proof.
  unfold publish_manifest.publish_s3. destruct HAS_BOTO3; [| discriminate].
  cbn [negb]. intros H.
  apply bind_Ok in H as (now & w0 & Hnow & H).
  unfold utcnow in Hnow. injection Hnow as <- <-.
  apply bind_Ok in H as (c & wa & Hr & H).
  apply read_text_Ok in Hr as [Hr ->].
  apply bind_Ok in H as (u1 & wb & Hput1 & H).
  apply bind_Ok in H as (u2 & wc & Hput2 & H).
  apply bind_Ok in H as (u5 & we & Hp1 & H). apply print_Ok in Hp1.
  apply bind_Ok in H as (u6 & wf & Hp2 & H). apply print_Ok in Hp2.
  apply bind_Ok in H as (u7 & wg & Hp3 & H). apply print_Ok in Hp3.
  unfold ret in H. injection H as <- <- <-.
  unfold put_object in Hput1, Hput2.
  inversion Hput1; subst wb. inversion Hput2; subst wc. subst we wf wg.
  cbn [fs s3 stdout clock set_fs set_s3 set_stdout].
  fold (latest_key project_name env).
  fold (history_key project_name env (strftime (clock w))).
  do 4 (split; [reflexivity|]). exists c. split; [exact Hr|].
  unfold s3_write, json_object. rewrite !String.eqb_refl.
  cbn [andb].
  match goal with
  | |- context [if ?b then _ else _] => destruct b
  end; reflexivity.
Qed.

Lemma history_key_inj (project_name env t1 t2 : string) :
  history_key project_name env t1 = history_key project_name env t2 -> t1 = t2.
Proof.
  unfold history_key. intros H.
  do 5 apply append_inv_head in H. now apply append_inv_tail in H.
Qed.

(** ** Publishing does not look at what has been printed *)

Lemma blind_publish_local mp project_name env registry_base :
  stdout_blind (publish_local mp project_name env registry_base).
Proof.
  unfold publish_local.
  apply blind_bind; [apply blind_utcnow|]. intros now.
  do 2 (apply blind_bind; [apply blind_mkdir_parents|]; intros _).
  do 2 (apply blind_bind; [apply blind_copy2|]; intros _).
  do 3 (apply blind_bind; [apply blind_print|]; intros _).
  apply blind_ret.
Qed.

Lemma blind_publish_s3 mp project_name env bucket :
  stdout_blind (publish_s3 mp project_name env bucket).
Proof.
  unfold publish_manifest.publish_s3.
  destruct HAS_BOTO3; cbn [negb]; [| apply blind_raise].
  apply blind_bind; [apply blind_utcnow|]. intros now.
  apply blind_bind; [apply blind_read_text|]. intros content.
  do 2 (apply blind_bind; [apply blind_put_object|]; intros _).
  do 3 (apply blind_bind; [apply blind_print|]; intros _).
  apply blind_ret.
Qed.

Lemma blind_publish (a : args) (mp : path) : stdout_blind (publish a mp).
Proof.
  unfold publish_manifest.publish. destruct (local a).
  - apply blind_bind; [apply blind_publish_local|]. intros _. apply blind_ret.
  - destruct (bucket a) as [[|c b]|]; try apply blind_raise.
    apply blind_bind; [apply blind_publish_s3|]. intros _. apply blind_ret.
Qed.

(** [main] up to the publish step, when the manifest is there and parses
    and the scan of its nodes returns. *)
Lemma main_runs (a : args) (w : World) (content : string) (m : json)
  (public_models : list string) :
  let manifest_path := script_dir // "target" // "manifest.json" in
  fs w manifest_path = Some (File content) ->
  json_loads content = inr m ->
  find_public_models m = Ok public_models ->
  main a w
  = (publish a manifest_path ;;; print success_line)
      (set_stdout
         (stdout w
          ++ [("Found manifest: " ++ str_of_path manifest_path)%string;
              public_models_line repr_str public_models]) w).
Proof.
  intros manifest_path Hfile Hloads Hscan.
  unfold publish_manifest.main.
  unfold bind at 1. unfold publish_manifest.get_manifest_path.
  fold manifest_path. unfold bind at 1, path_exists at 1. rewrite Hfile.
  cbn [negb]. unfold ret at 1.
  unfold bind at 1, print at 1.
  unfold bind at 1, json_load at 1. unfold bind at 1, read_text at 1.
  cbn [fs set_stdout]. rewrite Hfile, Hloads. unfold ret at 1.
  unfold bind at 1, lift at 1. rewrite Hscan.
  unfold bind at 1.
  assert (Hline : forall w0,
             match public_models with
             | [] => print warning_no_public_models
             | _ :: _ =>
                 print ("Found " ++ str_of_nat (List.length public_models)
                        ++ " public model(s): "
                        ++ format_list repr_str public_models)
             end w0
             = (Ok tt,
                set_stdout
                  (stdout w0 ++ [public_models_line repr_str public_models])
                  w0))
    by (intros w0; destruct public_models; reflexivity).
  rewrite Hline. cbn [stdout set_stdout fs s3 clock].
  rewrite <- app_assoc. reflexivity.
Qed.

(** ** The claims about the publisher *)

(** C9.  When the manifest is missing, [get_manifest_path], and with it
    [main], raises [FileNotFoundError] and the world is what it was:
    nothing is written to the registry, the object store or the
    terminal. *)
Theorem missing_manifest_fails_closed (a : args) (w : World) :
  let manifest_path := script_dir // "target" // "manifest.json" in
  let error :=
    FileNotFoundError
      ("Manifest not found at " ++ str_of_path manifest_path ++ ". "
       ++ "Run 'dbt compile' or 'dbt build' first.") in
  fs w manifest_path = None ->
  get_manifest_path w = (Raise error, w) /\ main a w = (Raise error, w).
Proof.
  intros manifest_path error H.
  assert (Hg : get_manifest_path w = (Raise error, w)).
  { unfold publish_manifest.get_manifest_path. fold manifest_path.
    unfold bind, path_exists. rewrite H. reflexivity. }
  split; [exact Hg|].
  unfold publish_manifest.main. unfold bind at 1. now rewrite Hg.
Qed.

(** C8.  The scan for public models only chooses a line to print: with
    no public model [main] prints the warning and goes on to publish, and
    whatever the scan finds, the outcome of [main] and what it leaves in
    the registry are those of the publish step run on its own. *)
Theorem public_models_scan_is_advisory (a : args) (w : World)
  (content : string) (m : json) (public_models : list string) :
  let manifest_path := script_dir // "target" // "manifest.json" in
  fs w manifest_path = Some (File content) ->
  json_loads content = inr m ->
  find_public_models m = Ok public_models ->
  (public_models = [] ->
   main a w
   = (publish a manifest_path ;;; print success_line)
       (set_stdout
          (stdout w
           ++ [("Found manifest: " ++ str_of_path manifest_path)%string;
               warning_no_public_models]) w))
  /\ fst (main a w) = fst (publish a manifest_path w)
  /\ same_registry (snd (main a w)) (snd (publish a manifest_path w)).
Proof.
  intros manifest_path Hfile Hloads Hscan.
  assert (Hrun := main_runs a w content m public_models Hfile Hloads Hscan).
  fold manifest_path in Hrun. split; [| rewrite Hrun].
  - intros ->. exact Hrun.
  - match goal with
    | |- context [set_stdout ?out w] => set (w0 := set_stdout out w)
    end.
    assert (H0 : same_registry w0 w) by repeat split.
    destruct (blind_publish a manifest_path w0 w H0) as [Hr Hw].
    unfold bind.
    destruct (publish a manifest_path w0) as [[u|e] w1],
             (publish a manifest_path w) as [[u'|e'] w1'];
      simpl in Hr, Hw |- *; try discriminate.
    + destruct u, u'. split; [reflexivity|].
      eapply same_registry_trans; [| exact Hw]. repeat split.
    + split; [exact Hr | exact Hw].
Qed.


End Publish.

(** ** The claims on sample runs *)

Lemma missing_manifest_fails_closed_witness :
  main samples.loads publisher_samples.repr_str publisher_samples.script_dir
    true publisher_samples.local_args publisher_samples.not_compiled
  = (Raise (FileNotFoundError
              "Manifest not found at /repo/dbt_up/target/manifest.json. Run 'dbt compile' or 'dbt build' first."),
     publisher_samples.not_compiled).
Proof.
  exact (proj2 (missing_manifest_fails_closed samples.loads
                  publisher_samples.repr_str publisher_samples.script_dir true
                  publisher_samples.local_args publisher_samples.not_compiled
                  eq_refl)).
Defined.

Lemma public_models_scan_is_advisory_witness :
  fst (main samples.loads publisher_samples.repr_str
         publisher_samples.script_dir true publisher_samples.local_args
         publisher_samples.compiled)
  = fst (publish publisher_samples.script_dir true publisher_samples.local_args
           publisher_samples.manifest_path publisher_samples.compiled)
  /\ In warning_no_public_models
       (stdout (snd (main samples.loads publisher_samples.repr_str
                       publisher_samples.script_dir true
                       publisher_samples.local_args
                       publisher_samples.compiled))).
Proof.
  destruct (public_models_scan_is_advisory samples.loads
              publisher_samples.repr_str publisher_samples.script_dir true
              publisher_samples.local_args publisher_samples.compiled
              samples.doc_empty (JObj []) [] eq_refl eq_refl eq_refl)
    as (Hwarn & Hres & _).
  split; [exact Hres|]. rewrite (Hwarn eq_refl). vm_compute. auto.
Defined.


End publish_manifest_proofs.

(* ===================================================================== *)
(** * Further properties of the lineage validator *)
(* ===================================================================== *)

Module validate_lineage_coverage.
Import Py notions PyFacts validate_lineage lineage coverage
  validate_lineage_proofs.

(** ** What the passes return on lists of strings *)

Lemma dict_set_fresh {A} (k : string) (v : A) (d : dict A) :
  ~ In k (keys d) -> dict_set k v d = d ++ [(k, v)].
Proof.
  induction d as [|[k' v'] d IH]; simpl; intros H; [reflexivity|].
  destruct (String.eqb k k') eqn:E.
  - apply String.eqb_eq in E. subst. exfalso. apply H. now left.
  - rewrite IH; [reflexivity|]. intros Hin. apply H. now right.
Qed.

Lemma keys_select (u : string) (entries : dict (list string)) (k : string) :
  In k (keys (select u entries)) -> In k (keys entries).
Proof.
  unfold select, keys. induction entries as [|[k0 l0] entries IH]; simpl;
    [auto|].
  rewrite map_app, in_app_iff. intros [H | H]; [| right; auto].
  destruct (filter (parent_cond u) l0); simpl in H; [contradiction|].
  destruct H as [<- | []]. now left.
Qed.

Lemma keys_app {A} (a b : dict A) : keys (a ++ b) = keys a ++ keys b.
Proof. apply map_app. Qed.

(** A loop whose body stores the matching strings of each item returns
    what [select] describes, after what it started with. *)
Lemma for_each_select {A} (u : string)
  (body : dict (list string) -> A -> result (dict (list string)))
  (related : A -> string * list string -> Prop)
  (items : list A) (entries : dict (list string)) :
  (forall acc item entry,
     related item entry ->
     body acc item
     = Ok (match filter (parent_cond u) (snd entry) with
           | [] => acc
           | refs => dict_set (fst entry) refs acc
           end)) ->
  Forall2 related items entries ->
  NoDup (keys entries) ->
  forall acc,
    (forall k, In k (keys acc) -> ~ In k (keys entries)) ->
    for_each body items acc = Ok (acc ++ select u entries).
Proof.
  intros Hbody Hrel. induction Hrel as [|item [k l] items entries Hr Hrel IH];
    intros Hnd acc Hacc; simpl.
  - now rewrite app_nil_r.
  - rewrite (Hbody acc item (k, l) Hr). simpl.
    inversion Hnd as [|? ? Hk Hnd']; subst.
    destruct (filter (parent_cond u) l) as [|ref refs] eqn:Ef.
    + simpl. apply IH; [exact Hnd'|].
      intros k' Hin Hin'. apply (Hacc k' Hin). now right.
    + rewrite dict_set_fresh
        by (intros Hin; apply (Hacc k Hin); now left).
      rewrite IH; [now rewrite <- app_assoc | exact Hnd' |].
      intros k' Hin Hin'. rewrite keys_app, in_app_iff in Hin.
      destruct Hin as [Hin | [<- | []]].
      * apply (Hacc k' Hin). now right.
      * contradiction.
Qed.

(** X1.  When [parent_map] has no repeated node and every node lists
    strings, the [parent_map] pass returns exactly the nodes with at least
    one matching string, in the order of [parent_map], each with its
    matching strings in their order; a node without a match is left out. *)
Theorem parent_map_pass_on_strings (m : json) (u : string)
  (items : dict json) (entries : dict (list string)) :
  py_get m "parent_map" (JObj []) = Ok (JObj items) ->
  lists_strings py_iter items entries ->
  NoDup (keys entries) ->
  find_cross_project_refs m u = Ok (select u entries).
Proof.
  intros Hget Hrel Hnd. unfold find_cross_project_refs. rewrite Hget. simpl.
  apply (for_each_select u _
           (fun (item : string * json) (entry : string * list string) =>
              fst item = fst entry
              /\ py_iter (snd item) = Ok (map JStr (snd entry)))
           items entries) with (acc := []);
    [| exact Hrel | exact Hnd | intros k []].
  intros acc [node_id parents] [k l] [Hk Hl]. simpl in Hk, Hl. subst k.
  rewrite Hl. simpl. rewrite upstream_parents_of_strings. simpl.
  destruct (filter (parent_cond u) l); reflexivity.
Qed.

(** X2.  The same for the [depends_on] pass, on the strings of each
    node's [depends_on.nodes]; a node without [depends_on], or whose
    [depends_on] has no [nodes], lists nothing. *)
Theorem depends_on_pass_on_strings (m : json) (u : string)
  (items : dict json) (entries : dict (list string)) :
  py_get m "nodes" (JObj []) = Ok (JObj items) ->
  lists_strings depends_on_nodes items entries ->
  NoDup (keys entries) ->
  find_cross_project_refs_in_nodes m u = Ok (select u entries)
  /\ (forall fields,
        dict_get "depends_on" fields = None ->
        depends_on_nodes (JObj fields) = Ok (map JStr []))
  /\ (forall fields d,
        dict_get "depends_on" fields = Some (JObj d) ->
        dict_get "nodes" d = None ->
        depends_on_nodes (JObj fields) = Ok (map JStr [])).
Proof.
  intros Hget Hrel Hnd. split; [| split].
  - unfold find_cross_project_refs_in_nodes. rewrite Hget. simpl.
    apply (for_each_select u _
             (fun (item : string * json) (entry : string * list string) =>
                fst item = fst entry
                /\ depends_on_nodes (snd item) = Ok (map JStr (snd entry)))
             items entries) with (acc := []);
      [| exact Hrel | exact Hnd | intros k []].
    intros acc [node_id node] [k l] [Hk Hl]. simpl in Hk, Hl. subst k.
    unfold depends_on_nodes in Hl.
    destruct (py_get node "depends_on" (JObj [])) as [d|e]; [|discriminate].
    simpl in Hl |- *.
    destruct (py_get d "nodes" (JArr [])) as [deps|e]; [|discriminate].
    simpl in Hl |- *. rewrite Hl. simpl.
    rewrite upstream_deps_of_parents, upstream_parents_of_strings. simpl.
    destruct (filter (parent_cond u) l); reflexivity.
  - intros fields H. unfold depends_on_nodes. simpl. now rewrite H.
  - intros fields d H H'. unfold depends_on_nodes. simpl. rewrite H. simpl.
    now rewrite H'.
Qed.

(** ** Values of the wrong shape *)

Lemma one_char_never_matches (u : string) (c : ascii) :
  parent_cond u (String c EmptyString) = false.
Proof.
  unfold parent_cond. apply orb_false_iff. split.
  - simpl. now rewrite andb_false_r.
  - apply andb_false_iff. right. simpl. now rewrite andb_false_r.
Qed.

Lemma chars_never_match (u s : string) : filter (parent_cond u) (chars s) = [].
Proof.
  induction s as [|c s IH]; simpl; [reflexivity|].
  now rewrite one_char_never_matches.
Qed.

Lemma upstream_parents_of_outcome (u : string) (elems : list json) :
  (exists refs, upstream_parents_of u elems = Ok refs)
  \/ (exists tn, upstream_parents_of u elems
                 = Raise (AttributeError tn "startswith")).
Proof.
  induction elems as [|v elems IH]; simpl; [left; eauto|].
  destruct v; try (right; eauto; fail).
  destruct IH as [[refs ->] | [tn ->]]; simpl; [left | right]; eauto.
Qed.

Lemma upstream_parents_of_raises (u : string) (elems : list json) (v : json) :
  In v elems -> is_str v = false ->
  exists tn, upstream_parents_of u elems
             = Raise (AttributeError tn "startswith").
Proof.
  intros Hin Hv. destruct (upstream_parents_of_outcome u elems)
    as [[refs H] | H]; [| exact H].
  apply upstream_parents_of_Ok in H as [l [-> _]].
  apply in_map_iff in Hin as [s [<- _]]. discriminate.
Qed.

(** X3.  A node of [parent_map] whose value is a string instead of a
    list is read character by character; a single character matches
    neither convention, so such nodes yield no reference and no
    exception. *)
Theorem string_valued_parents_yield_nothing (m : json) (u : string)
  (items : dict json) :
  py_get m "parent_map" (JObj []) = Ok (JObj items) ->
  (forall k v, In (k, v) items -> is_str v = true) ->
  find_cross_project_refs m u = Ok [].
Proof.
  intros Hget Hstr. unfold find_cross_project_refs. rewrite Hget. simpl.
  assert (H : forall acc, for_each
            (fun cross_refs (item : string * json) =>
               let (node_id, parents) := item in
               elems <-- py_iter parents ;;
               upstream_parents <-- upstream_parents_of u elems ;;
               match upstream_parents with
               | [] => Ok cross_refs
               | _ :: _ => Ok (dict_set node_id upstream_parents cross_refs)
               end) items acc = Ok acc); [| apply H].
  clear Hget. revert Hstr.
  induction items as [|[k v] items IH]; intros Hstr acc; simpl;
    [reflexivity|].
  assert (Hv := Hstr k v (or_introl eq_refl)).
  destruct v; try discriminate. simpl.
  rewrite upstream_parents_of_strings, chars_never_match. simpl.
  apply IH. intros k' v' Hin. apply (Hstr k' v'). now right.
Qed.

(** X4.  When every node of [parent_map] holds a list and one of the
    lists has an element that is not a string, the pass returns nothing:
    it raises [AttributeError] for [startswith], whatever the other nodes
    hold. *)
Theorem non_string_parent_fails_the_pass (m : json) (u : string)
  (items : dict json) (k : string) (elems : list json) (v : json) :
  py_get m "parent_map" (JObj []) = Ok (JObj items) ->
  (forall k' v', In (k', v') items -> exists l, v' = JArr l) ->
  In (k, JArr elems) items -> In v elems -> is_str v = false ->
  exists tn,
    find_cross_project_refs m u = Raise (AttributeError tn "startswith").
Proof.
  intros Hget Hlists Hin Hv Hns. unfold find_cross_project_refs.
  rewrite Hget. simpl. clear Hget. generalize (@nil (string * list string)).
  revert Hlists Hin.
  induction items as [|[k0 v0] items IH]; intros Hlists Hin acc;
    [destruct Hin|].
  simpl. destruct (Hlists k0 v0 (or_introl eq_refl)) as [l ->]. simpl.
  destruct Hin as [Heq | Hin].
  - injection Heq as -> ->.
    destruct (upstream_parents_of_raises u elems v Hv Hns) as [tn ->].
    simpl. eauto.
  - destruct (upstream_parents_of_outcome u l) as [[refs ->] | [tn ->]];
      simpl; [| eauto].
    assert (Hl : forall k' v', In (k', v') items -> exists l, v' = JArr l)
      by (intros k' v' H'; apply (Hlists k' v'); now right).
    destruct refs; apply (IH Hl Hin).
Qed.

(** ** The verdict and the content of the manifest *)

Lemma dict_set_not_nil {A} (k : string) (v : A) (d : dict A) :
  dict_set k v d <> [].
Proof.
  destruct d as [|[k' v'] d]; simpl; [discriminate|].
  destruct (String.eqb k k'); discriminate.
Qed.

Lemma for_each_not_nil {A} (body : dict (list string) -> A
                                   -> result (dict (list string)))
  (hit : A -> Prop) (items : list A) :
  (forall acc item acc', body acc item = Ok acc' ->
                         (acc <> [] -> acc' <> [])
                         /\ (hit item -> acc' <> [])) ->
  forall acc r,
    for_each body items acc = Ok r ->
    acc <> [] \/ (exists item, In item items /\ hit item) ->
    r <> [].
Proof.
  intros Hbody. induction items as [|item items IH]; intros acc r H Hor;
    simpl in H.
  - injection H as <-. destruct Hor as [H | (item & [] & _)]. exact H.
  - destruct (body acc item) as [acc'|e] eqn:E; [|discriminate]. simpl in H.
    destruct (Hbody acc item acc' E) as [Hkeep Hhit].
    apply (IH acc' r H).
    destruct Hor as [Hacc | (item' & [<- | Hin] & Hh)]; eauto.
Qed.

Lemma refs_of_match (u : string) (elems : list json) (refs : list string)
  (ref : string) :
  upstream_parents_of u elems = Ok refs ->
  In (JStr ref) elems -> cross_project u ref -> refs <> [].
Proof.
  intros H Hin Hc. apply upstream_parents_of_Ok in H as [l [-> ->]].
  apply in_map_iff in Hin as [s [[= ->] Hin]].
  apply parent_cond_spec in Hc.
  assert (Hf : In ref (filter (parent_cond u) l)) by (apply filter_In; auto).
  intros E. rewrite E in Hf. destruct Hf.
Qed.

Lemma parent_refs_iff_mentions (m : json) (u : string)
  (r : dict (list string)) (items : dict json) :
  find_cross_project_refs m u = Ok r ->
  py_get m "parent_map" (JObj []) = Ok (JObj items) ->
  r <> [] <-> mentions u items py_iter.
Proof.
  intros Hr Hget. split.
  - intros Hne. apply find_cross_project_refs_ok in Hr as (pm & Hg & _ & Hj).
    rewrite Hget in Hg. injection Hg as <-.
    destruct r as [|[k refs] r]; [contradiction|].
    destruct (Hj k refs (or_introl eq_refl)) as (Hrefs & v & elems & Hin & Hl & Hall).
    destruct refs as [|ref refs]; [contradiction|].
    inversion Hall as [|? ? [Hc He] _]; subst.
    exists k, v, elems, ref. auto.
  - intros (k & v & elems & ref & Hin & Hl & He & Hc).
    unfold find_cross_project_refs in Hr. rewrite Hget in Hr. simpl in Hr.
    refine (for_each_not_nil _
              (fun item : string * json =>
                 exists elems ref, py_iter (snd item) = Ok elems
                                   /\ In (JStr ref) elems
                                   /\ cross_project u ref)
              items _ [] r Hr _);
      [| right; exists (k, v); split; [exact Hin | exists elems, ref; auto]].
    intros acc [node_id parents] acc' Hb.
    destruct (py_iter parents) as [es|e] eqn:Ei; [|discriminate]. simpl in Hb.
    destruct (upstream_parents_of u es) as [refs|e] eqn:Eu; [|discriminate].
    simpl in Hb. split.
    + intros Hacc. destruct refs; injection Hb as <-;
        [exact Hacc | apply dict_set_not_nil].
    + intros (es' & ref' & Hi' & He' & Hc'). simpl in Hi'.
      rewrite Ei in Hi'. injection Hi' as <-.
      assert (Hne := refs_of_match u es refs ref' Eu He' Hc').
      destruct refs; [contradiction|]. injection Hb as <-.
      apply dict_set_not_nil.
Qed.

Lemma node_refs_iff_mentions (m : json) (u : string)
  (r : dict (list string)) (items : dict json) :
  find_cross_project_refs_in_nodes m u = Ok r ->
  py_get m "nodes" (JObj []) = Ok (JObj items) ->
  r <> [] <-> mentions u items depends_on_nodes.
Proof.
  intros Hr Hget. split.
  - intros Hne.
    apply find_cross_project_refs_in_nodes_ok in Hr as (ns & Hg & _ & Hj).
    rewrite Hget in Hg. injection Hg as <-.
    destruct r as [|[k refs] r]; [contradiction|].
    destruct (Hj k refs (or_introl eq_refl)) as (Hrefs & v & elems & Hin & Hl & Hall).
    destruct refs as [|ref refs]; [contradiction|].
    inversion Hall as [|? ? [Hc He] _]; subst.
    exists k, v, elems, ref. auto.
  - intros (k & v & elems & ref & Hin & Hl & He & Hc).
    unfold find_cross_project_refs_in_nodes in Hr. rewrite Hget in Hr.
    simpl in Hr.
    refine (for_each_not_nil _
              (fun item : string * json =>
                 exists elems ref, depends_on_nodes (snd item) = Ok elems
                                   /\ In (JStr ref) elems
                                   /\ cross_project u ref)
              items _ [] r Hr _);
      [| right; exists (k, v); split; [exact Hin | exists elems, ref; auto]].
    intros acc [node_id node] acc' Hb. unfold depends_on_nodes. simpl.
    destruct (py_get node "depends_on" (JObj [])) as [d|e]; [|discriminate].
    simpl in Hb |- *.
    destruct (py_get d "nodes" (JArr [])) as [deps|e]; [|discriminate].
    simpl in Hb |- *.
    destruct (py_iter deps) as [es|e] eqn:Ei; [|discriminate]. simpl in Hb.
    rewrite upstream_deps_of_parents in Hb.
    destruct (upstream_parents_of u es) as [refs|e] eqn:Eu; [|discriminate].
    simpl in Hb. split.
    + intros Hacc. destruct refs; injection Hb as <-;
        [exact Hacc | apply dict_set_not_nil].
    + intros (es' & ref' & Hi' & He' & Hc'). injection Hi' as <-.
      assert (Hne := refs_of_match u es refs ref' Eu He' Hc').
      destruct refs; [contradiction|]. injection Hb as <-.
      apply dict_set_not_nil.
Qed.

Section Runs.

Variable json_loads : string -> string + json.
Variable repr : json -> string.
Variable script_dir : path.

Local Abbreviation load_manifest := (load_manifest json_loads).
Local Abbreviation validate_lineage := (validate_lineage json_loads repr).
Local Abbreviation check_all := (check_all json_loads repr).
Local Abbreviation main := (main json_loads repr script_dir).

(** X5.  Once the manifest is loaded and no step raises, the verdict is
    decided by what the manifest lists: validated exactly when some node
    of [parent_map] lists a reference into the upstream project; partial
    exactly when no node of [parent_map] does and some node's
    [depends_on.nodes] does; failed exactly when neither does. *)
Theorem verdict_follows_the_manifest (manifest_path : path) (u : string)
  (w : World) (m name : json) (parent_refs node_refs : dict (list string)) :
  fst (load_manifest manifest_path w) = Ok m ->
  (metadata <-- py_get m "metadata" (JObj []) ;;
   py_get metadata "project_name" (JStr "unknown")) = Ok name ->
  find_cross_project_refs m u = Ok parent_refs ->
  find_cross_project_refs_in_nodes m u = Ok node_refs ->
  exists parent_map nodes,
    py_get m "parent_map" (JObj []) = Ok (JObj parent_map)
    /\ py_get m "nodes" (JObj []) = Ok (JObj nodes)
    /\ let verdict := fst (validate_lineage manifest_path u w) in
       (verdict = Ok (true, msg_validated)
        <-> mentions u parent_map py_iter)
       /\ (verdict = Ok (true, msg_partial)
           <-> ~ mentions u parent_map py_iter
               /\ mentions u nodes depends_on_nodes)
       /\ (verdict = Ok (false, msg_no_refs u)
           <-> ~ mentions u parent_map py_iter
               /\ ~ mentions u nodes depends_on_nodes).
Proof.
  intros Hload Hname Hp Hn.
  destruct (find_cross_project_refs_ok m u parent_refs Hp) as (pm & Hgp & _).
  destruct (find_cross_project_refs_in_nodes_ok m u node_refs Hn)
    as (ns & Hgn & _).
  exists pm, ns. split; [exact Hgp|]. split; [exact Hgn|].
  assert (HP := parent_refs_iff_mentions m u parent_refs pm Hp Hgp).
  assert (HN := node_refs_iff_mentions m u node_refs ns Hn Hgn).
  destruct (validate_lineage_runs json_loads repr manifest_path u w m name
              parent_refs node_refs Hload Hname Hp Hn) as (w' & Hrun & _).
  cbv zeta. rewrite Hrun. cbn [fst]. unfold classification.
  destruct parent_refs as [|pr parent_refs].
  - assert (HnP : ~ mentions u pm py_iter)
      by (intros H; apply HP in H; now apply H).
    destruct node_refs as [|nr node_refs].
    + assert (HnN : ~ mentions u ns depends_on_nodes)
        by (intros H; apply HN in H; now apply H).
      simpl. split; [| split]; split; try discriminate; try tauto.
    + assert (HyN : mentions u ns depends_on_nodes)
        by (apply HN; discriminate).
      assert (Hm : dict_merge [] (nr :: node_refs) <> [])
        by (intros E; apply dict_merge_nil in E as [_ E]; discriminate).
      destruct (dict_merge [] (nr :: node_refs)); [contradiction|].
      split; [| split]; split; try discriminate; try tauto.
  - assert (HyP : mentions u pm py_iter) by (apply HP; discriminate).
    assert (Hm : dict_merge (pr :: parent_refs) node_refs <> [])
      by (intros E; apply dict_merge_nil in E as [E _]; discriminate).
    destruct (dict_merge (pr :: parent_refs) node_refs); [contradiction|].
    split; [| split]; split; try discriminate; try tauto.
Qed.

(** X6.  Once [parse_args] has accepted the command line, [main] never
    raises and never writes: it returns exit status 0 or 1 and leaves the
    file system, the object store and the clock as they were.  A command
    line that [parse_args] refuses ends there, with status 2. *)
Theorem main_only_reads (a : args) (w : World) :
  accepted a = true ->
  exists status w',
    main a w = (Ok status, w')
    /\ (status = 0 \/ status = 1)
    /\ same_registry w' w.
Proof.
  intros _. unfold validate_lineage.main.
  destruct (manifests_to_check script_dir a) as [manifests|].
  - unfold bind at 1.
    destruct (check_all_runs json_loads repr (upstream a) manifests [] true w)
      as (outcomes & w1 & -> & _ & _ & H1). simpl.
    do 3 (unfold bind at 1; unfold print at 1; cbv iota).
    unfold bind at 1.
    match goal with
    | |- context [for_print outcomes ?b ?w0] =>
        destruct (for_print_runs outcomes b) with (w := w0) as [w2 [-> H2]]
    end.
    + intros r w0. apply print_runs.
    + destruct (forallb (lineage.passes json_loads repr (upstream a) w)
                  manifests);
        unfold bind, print, ret; cbv iota; eexists _, _;
        (split; [reflexivity |]); (split; [auto |]);
        (eapply same_registry_trans; [| eapply same_registry_trans;
                                         [exact H2 |]]);
        [repeat split | eapply same_registry_trans; [| exact H1]; repeat split
        | repeat split | eapply same_registry_trans; [| exact H1]; repeat split].
  - unfold usage, bind, print, ret. cbv iota. eexists _, _.
    split; [reflexivity|]. split; [auto | repeat split].
Qed.

(** X7.  With [--manifest] naming a file that does not exist, [main]
    exits with status 1 after printing the error and a summary with one
    FAIL line; the message is the one [load_manifest] raises. *)
Theorem missing_manifest_is_reported (a : args) (p : path) (w : World) :
  manifest a = Some p ->
  fs w p = None ->
  let msg := ("Manifest not found: " ++ str_of_path p)%string in
  main a w
  = (Ok 1,
     set_stdout
       (stdout w
        ++ [(nl ++ bar)%string;
            ("✗ " ++ msg)%string;
            (nl ++ bar)%string;
            "VALIDATION SUMMARY";
            bar;
            summary_line (p, false, msg);
            (nl ++ "✗ Some validations failed - check output above")%string])
       w).
Proof.
  intros Ha Hp msg.
  unfold validate_lineage.main, manifests_to_check. rewrite Ha.
  unfold validate_lineage.check_all, validate_lineage.check_one.
  unfold bind at 1. unfold bind at 1. unfold bind at 1. unfold print at 1.
  unfold try_except. unfold bind at 1.
  unfold validate_lineage.validate_lineage. unfold bind at 1.
  rewrite load_manifest_cases. cbn [fs set_stdout]. rewrite Hp.
  cbn [app for_print bind print ret fst snd stdout set_stdout str_of_exn
       fs s3 clock].
  fold msg. rewrite <- !app_assoc. reflexivity.
Qed.

(** X8.  For a manifest selected with [--project] the summary names the
    project: the line is the status, the project name and the message.
    A manifest that is not in a directory called [target] is summarised
    as [unknown]. *)
Theorem summary_names_the_project (project_name : string) (success : bool)
  (message : string) :
  (is_name project_name = true ->
   summary_line (manifest_of_project script_dir project_name, success, message)
   = ((if success then "✓ PASS" else "✗ FAIL") ++ ": " ++ project_name
      ++ " - " ++ message)%string)
  /\ (forall p : path,
        name (parent p) <> "target" ->
        summary_line (p, success, message)
        = ((if success then "✓ PASS" else "✗ FAIL") ++ ": unknown - "
           ++ message)%string).
Proof.
  split;
    [| intros p Hp; unfold summary_line; apply String.eqb_neq in Hp;
       now rewrite Hp].
  intros Hn. unfold manifest_of_project, summary_line.
  rewrite (joinpath_name script_dir project_name Hn).
  rewrite !joinpath_name by reflexivity.
  unfold parent, name. cbn [root parts].
  rewrite <- !app_assoc. cbn [app].
  replace (parts script_dir ++ [project_name; "target"; "manifest.json"])
    with ((parts script_dir ++ [project_name; "target"]) ++ ["manifest.json"])
    by (now rewrite <- app_assoc).
  rewrite removelast_last.
  replace (parts script_dir ++ [project_name; "target"])
    with ((parts script_dir ++ [project_name]) ++ ["target"])
    by (now rewrite <- app_assoc).
  rewrite last_last, removelast_last, last_last.
  rewrite String.eqb_refl. reflexivity.
Qed.

End Runs.

(** ** The further properties on sample inputs *)

Lemma parent_map_pass_on_strings_witness :
  find_cross_project_refs coverage_samples.manifest_three "dbt_up"
  = Ok [("model.down.a", ["model.dbt_up.x"; "source.down.dbt_up.z"]);
        ("model.down.c", ["source.down.dbt_up.w"])].
Proof.
  refine (parent_map_pass_on_strings coverage_samples.manifest_three "dbt_up"
            coverage_samples.three_parents coverage_samples.three_entries
            eq_refl _ _).
  - repeat constructor.
  - repeat constructor; simpl; intuition discriminate.
Defined.

Lemma depends_on_pass_on_strings_witness :
  find_cross_project_refs_in_nodes coverage_samples.manifest_three "dbt_up"
  = Ok [("model.down.a", ["model.dbt_up.x"; "source.down.dbt_up.z"]);
        ("model.down.c", ["source.down.dbt_up.w"])]
  /\ depends_on_nodes (JObj [("resource_type", JStr "model")]) = Ok []
  /\ depends_on_nodes (JObj [("depends_on", JObj [])]) = Ok [].
Proof.
  assert (Hrel : lists_strings depends_on_nodes coverage_samples.three_nodes
                   coverage_samples.two_entries) by repeat constructor.
  assert (Hnd : NoDup (keys coverage_samples.two_entries))
    by (repeat constructor; simpl; intuition discriminate).
  destruct (depends_on_pass_on_strings coverage_samples.manifest_three "dbt_up"
              coverage_samples.three_nodes coverage_samples.two_entries
              eq_refl Hrel Hnd) as (H1 & H2 & H3).
  split; [exact H1|]. split.
  - exact (H2 [("resource_type", JStr "model")] eq_refl).
  - exact (H3 [("depends_on", JObj [])] [] eq_refl eq_refl).
Defined.

Lemma string_valued_parents_yield_nothing_witness :
  find_cross_project_refs coverage_samples.manifest_string_parents "dbt_up"
  = Ok [].
Proof.
  refine (string_valued_parents_yield_nothing
            coverage_samples.manifest_string_parents "dbt_up"
            [("model.down.a", JStr "model.dbt_up.x")] eq_refl _).
  intros k v [[= <- <-] | []]. reflexivity.
Defined.

Lemma non_string_parent_fails_the_pass_witness :
  exists tn,
    find_cross_project_refs coverage_samples.manifest_number_parent "dbt_up"
    = Raise (AttributeError tn "startswith").
Proof.
  refine (non_string_parent_fails_the_pass
            coverage_samples.manifest_number_parent "dbt_up"
            coverage_samples.number_parents "model.down.b" [JInt 3] (JInt 3)
            eq_refl _ _ _ eq_refl).
  - intros k v [[= <- <-] | [[= <- <-] | []]]; eauto.
  - right. left. reflexivity.
  - left. reflexivity.
Defined.

Lemma verdict_follows_the_manifest_witness :
  exists parent_map,
    py_get samples.manifest_overlap "parent_map" (JObj [])
    = Ok (JObj parent_map)
    /\ mentions "dbt_up" parent_map py_iter.
Proof.
  destruct (verdict_follows_the_manifest samples.loads samples.repr
              samples.downstream_manifest "dbt_up" samples.world_overlap
              samples.manifest_overlap (JStr "unknown") samples.refs_x
              samples.refs_y eq_refl eq_refl eq_refl eq_refl)
    as (pm & ns & Hp & _ & Hv & _).
  exists pm. split; [exact Hp|]. apply Hv. reflexivity.
Defined.

Lemma main_only_reads_witness :
  exists status w',
    main samples.loads samples.repr samples.script_dir
      (coverage_samples.validate_one samples.downstream_manifest)
      samples.world_overlap
    = (Ok status, w')
    /\ (status = 0 \/ status = 1)
    /\ same_registry w' samples.world_overlap.
Proof.
  exact (main_only_reads samples.loads samples.repr samples.script_dir
           (coverage_samples.validate_one samples.downstream_manifest)
           samples.world_overlap eq_refl).
Defined.

Lemma missing_manifest_is_reported_witness :
  fst (main samples.loads samples.repr samples.script_dir
         (coverage_samples.validate_one samples.downstream_manifest)
         (samples.world []))
  = Ok 1.
Proof.
  exact (f_equal fst
           (missing_manifest_is_reported samples.loads samples.repr
              samples.script_dir
              (coverage_samples.validate_one samples.downstream_manifest)
              samples.downstream_manifest (samples.world [])
              eq_refl eq_refl)).
Defined.

Lemma summary_names_the_project_witness :
  summary_line
    (manifest_of_project samples.script_dir "dbt_down_loom", true,
     msg_validated)
  = "✓ PASS: dbt_down_loom - Cross-project lineage validated successfully"
  /\ summary_line (Path "manifest.json", false, msg_partial)
     = "✗ FAIL: unknown - Partial lineage found (depends_on only)".
Proof.
  split.
  - exact (proj1 (summary_names_the_project samples.script_dir
                    "dbt_down_loom" true msg_validated) eq_refl).
  - refine (proj2 (summary_names_the_project samples.script_dir
                     "dbt_down_loom" false msg_partial)
              (Path "manifest.json") _).
    discriminate.
Defined.

End validate_lineage_coverage.

(* ===================================================================== *)
(** * Further properties of the registry publisher *)
(* ===================================================================== *)

Module publish_manifest_coverage.
Import Py notions PyFacts publish_manifest registry coverage
  publish_manifest_proofs.

Lemma write_file_parent p content w w' u :
  write_file p content w = (Ok u, w') -> fs w (parent p) = Some Dir.
Proof.
  unfold write_file.
  destruct (fs w p) as [[c|]|], (fs w (parent p)) as [[c'|]|];
    try discriminate; reflexivity.
Qed.

Lemma copy2_parent src dst w w' u :
  copy2 src dst w = (Ok u, w') ->
  fs w (parent (copy_target src dst w)) = Some Dir.
Proof.
  unfold copy2.
  destruct (match fs w src with
            | Some _ => path_eqb src (copy_target src dst w)
            | None => false
            end); [discriminate|].
  intros H. apply bind_Ok in H as (content & w1 & Hr & Hw).
  apply read_text_Ok in Hr as [_ ->]. now apply write_file_parent in Hw.
Qed.

Lemma copy_target_file src dst w :
  fs w dst <> Some Dir -> copy_target src dst w = dst.
Proof.
  intros H. unfold copy_target. destruct (fs w dst) as [[c|]|]; congruence.
Qed.

Section Layout.

Variables (registry_base : path) (project_name env : string).

Let lp : path := latest_path registry_base project_name env.
Let hp (d : datetime) : path :=
  history_path registry_base project_name env (strftime d).

Lemma latest_is_not_history (d : datetime) : lp <> hp d.
Proof.
  unfold lp, hp. rewrite latest_path_parts, history_path_parts.
  intros [= E]. apply app_inv_head in E. discriminate E.
Qed.

Lemma history_paths_differ (d1 d2 : datetime) :
  strftime d1 <> strftime d2 -> hp d1 <> hp d2.
Proof.
  unfold hp. rewrite !history_path_parts. intros Hts [= E].
  apply app_inv_head in E. injection E as E. contradiction.
Qed.

Lemma parent_latest_path : parent lp = latest_dir registry_base project_name env.
Proof.
  unfold lp, latest_dir. rewrite latest_path_parts, latest_dir_parts.
  set (dir := registry_base // project_name // env).
  unfold parent. cbn [root parts].
  replace (parts dir ++ ["latest"; "manifest.json"])
    with ((parts dir ++ ["latest"]) ++ ["manifest.json"])
    by (now rewrite <- app_assoc).
  now rewrite removelast_last.
Qed.

Lemma parent_history_path (d : datetime) :
  parent (hp d) = history_dir registry_base project_name env (strftime d).
Proof.
  unfold hp, history_dir. rewrite history_path_parts, history_dir_parts.
  set (dir := registry_base // project_name // env).
  unfold parent. cbn [root parts].
  replace (parts dir ++ ["history"; strftime d; "manifest.json"])
    with ((parts dir ++ ["history"; strftime d]) ++ ["manifest.json"])
    by (now rewrite <- app_assoc).
  now rewrite removelast_last.
Qed.

(** A manifest path is longer than every directory [publish_local]
    makes, except that the latest one could be taken for a history
    directory, which the names rule out. *)
Lemma history_path_leads_nowhere (d d' : datetime) :
  ~ leads_to (hp d) (latest_dir registry_base project_name env)
  /\ ~ leads_to (hp d)
         (history_dir registry_base project_name env (strftime d')).
Proof.
  unfold hp, latest_dir, history_dir.
  rewrite history_path_parts, latest_dir_parts, history_dir_parts.
  split; intros (_ & k & Hk & Hp); cbn [parts] in Hp;
    apply (f_equal (@List.length string)) in Hp;
    rewrite length_firstn, !length_app in Hp; simpl in Hp; lia.
Qed.

Lemma latest_path_leads_nowhere (d' : datetime) :
  ~ leads_to lp (latest_dir registry_base project_name env)
  /\ ~ leads_to lp (history_dir registry_base project_name env (strftime d')).
Proof.
  unfold lp, latest_dir, history_dir.
  rewrite latest_path_parts, latest_dir_parts, history_dir_parts.
  split; intros (_ & k & Hk & Hp); cbn [parts] in Hp, Hk.
  - apply (f_equal (@List.length string)) in Hp.
    rewrite length_firstn, !length_app in Hp. simpl in Hp. lia.
  - assert (Hlen := f_equal (@List.length string) Hp).
    rewrite length_firstn, !length_app in Hlen. simpl in Hlen.
    rewrite firstn_all2 in Hp
      by (rewrite length_app; simpl; rewrite length_app in Hk; simpl in Hk; lia).
    apply app_inv_head in Hp. discriminate Hp.
Qed.

End Layout.

(** ** What a local publish does to the file system *)

Lemma publish_local_effect (manifest_path : path) (project_name env : string)
  (registry_base : path) (w w' : World) (l h : string) :
  let lp := latest_path registry_base project_name env in
  let hp := history_path registry_base project_name env (strftime (clock w)) in
  let ld := latest_dir registry_base project_name env in
  let hd := history_dir registry_base project_name env (strftime (clock w)) in
  publish_local manifest_path project_name env registry_base w
  = (Ok (l, h), w') ->
  fs w lp <> Some Dir -> fs w hp <> Some Dir ->
  exists content,
    fs w manifest_path = Some (File content)
    /\ fs w' lp = Some (File content) /\ fs w' hp = Some (File content)
    /\ fs w' ld = Some Dir /\ fs w' hd = Some Dir
    /\ manifest_path <> lp /\ manifest_path <> hp
    /\ s3 w' = s3 w /\ clock w' = clock w
    /\ forall q,
         q <> lp -> q <> hp ->
         fs w' q = fs w q
         \/ (fs w q = None /\ fs w' q = Some Dir
             /\ (leads_to q ld \/ leads_to q hd)).
Proof.
  intros lp hp ld hd H Hlp Hhp. unfold publish_local in H.
  apply bind_Ok in H as (now & w0 & Hnow & H).
  unfold utcnow in Hnow. injection Hnow as <- <-.
  apply bind_Ok in H as (u1 & wa & Hmk1 & H).
  apply bind_Ok in H as (u2 & wb & Hmk2 & H).
  apply bind_Ok in H as (u3 & wc & Hcp1 & H).
  apply bind_Ok in H as (u4 & wd & Hcp2 & H).
  apply bind_Ok in H as (u5 & we & Hp1 & H). apply print_Ok in Hp1.
  apply bind_Ok in H as (u6 & wf & Hp2 & H). apply print_Ok in Hp2.
  apply bind_Ok in H as (u7 & wg & Hp3 & H). apply print_Ok in Hp3.
  unfold ret in H. injection H as <- <- <-.
  fold (latest_path registry_base project_name env) in *.
  fold (history_path registry_base project_name env (strftime (clock w))) in *.
  fold (latest_dir registry_base project_name env) in *.
  fold (history_dir registry_base project_name env (strftime (clock w))) in *.
  fold lp hp ld hd in Hmk1, Hmk2, Hcp1, Hcp2.
  apply mkdir_parents_effect in Hmk1 as (Hs1 & _ & Hc1 & Hf1).
  apply mkdir_parents_effect in Hmk2 as (Hs2 & _ & Hc2 & Hf2).
  fold (leads_to) in *.
  assert (Hmk : forall q,
             fs wb q = fs w q
             \/ (fs w q = None /\ fs wb q = Some Dir
                 /\ (leads_to q ld \/ leads_to q hd))).
  { intros q.
    destruct (Hf1 q) as [E1 | (N1 & D1 & R1 & K1)];
      destruct (Hf2 q) as [E2 | (N2 & D2 & R2 & K2)].
    - left. congruence.
    - right. split; [congruence|]. split; [exact D2|]. right. split; assumption.
    - right. split; [exact N1|]. split; [congruence|]. left. split; assumption.
    - congruence. }
  assert (Hlpb : fs wb lp = fs w lp).
  { destruct (Hmk lp) as [E | (_ & _ & [L | L])]; [exact E | |].
    - now apply (latest_path_leads_nowhere registry_base project_name env
                   (clock w)) in L.
    - now apply (latest_path_leads_nowhere registry_base project_name env
                   (clock w)) in L. }
  assert (Hhpb : fs wb hp = fs w hp).
  { destruct (Hmk hp) as [E | (_ & _ & [L | L])]; [exact E | |].
    - now apply (history_path_leads_nowhere registry_base project_name env
                   (clock w) (clock w)) in L.
    - now apply (history_path_leads_nowhere registry_base project_name env
                   (clock w) (clock w)) in L. }
  assert (Hne : lp <> hp)
    by apply (latest_is_not_history registry_base project_name env (clock w)).
  assert (Hpar1 := copy2_parent _ _ _ _ _ Hcp1).
  rewrite (copy_target_file manifest_path lp wb) in Hpar1 by congruence.
  apply copy2_Ok in Hcp1 as (c & Hsrc1 & Ht1 & _ & ->).
  rewrite (copy_target_file manifest_path lp wb) in * by congruence.
  assert (Hhpc : fs (set_fs (fs_write lp (File c) (fs wb)) wb) hp <> Some Dir).
  { cbn [fs set_fs]. rewrite fs_write_other by (intros E; now apply Hne).
    congruence. }
  assert (Hpar2 := copy2_parent _ _ _ _ _ Hcp2).
  rewrite (copy_target_file manifest_path hp _ Hhpc) in Hpar2.
  apply copy2_Ok in Hcp2 as (c' & Hsrc2 & Ht2 & _ & ->).
  rewrite (copy_target_file manifest_path hp _ Hhpc) in *.
  subst we wf wg.
  cbn [fs s3 stdout clock set_fs set_stdout] in *.
  rewrite fs_write_other in Hsrc2 by (intros E; apply Ht1; symmetry; exact E).
  assert (c' = c) by congruence. subst c'.
  unfold lp in Hpar1. rewrite parent_latest_path in Hpar1. fold ld in Hpar1.
  unfold hp in Hpar2. rewrite parent_history_path in Hpar2. fold hd hp in Hpar2.
  fold lp in Hpar2.
  exists c.
  split.
  { destruct (Hmk manifest_path) as [E | (_ & D & _)]; congruence. }
  split.
  { rewrite fs_write_other by exact Hne. apply fs_write_same. }
  split; [apply fs_write_same|].
  assert (Hhd : hd <> hp).
  { intros E. rewrite E in Hpar2.
    rewrite fs_write_other in Hpar2 by (intros E'; now apply Hne).
    congruence. }
  assert (Hldp : ld <> lp) by (intros E; rewrite E in Hpar1; congruence).
  assert (Hldh : ld <> hp).
  { intros E. rewrite E in Hpar1. congruence. }
  split.
  { rewrite fs_write_other by exact Hldh.
    rewrite fs_write_other by exact Hldp. exact Hpar1. }
  split.
  { rewrite fs_write_other by exact Hhd. exact Hpar2. }
  split; [intros E; apply Ht1; symmetry; exact E|].
  split; [intros E; apply Ht2; symmetry; exact E|].
  split; [congruence|]. split; [congruence|].
  intros q Hq1 Hq2.
  rewrite fs_write_other by exact Hq2.
  rewrite fs_write_other by exact Hq1. apply Hmk.
Qed.

(** X9.  A local publish that returns, into a registry where neither
    manifest path is a directory, leaves the content of the manifest at
    the latest and at the history location, both in directories it has
    made sure exist; the manifest itself is at neither location. *)
Theorem publish_local_writes_both_partitions (manifest_path : path)
  (project_name env : string) (registry_base : path) (w w' : World)
  (l h : string) :
  let lp := latest_path registry_base project_name env in
  let hp := history_path registry_base project_name env (strftime (clock w)) in
  publish_local manifest_path project_name env registry_base w
  = (Ok (l, h), w') ->
  fs w lp <> Some Dir -> fs w hp <> Some Dir ->
  l = str_of_path lp /\ h = str_of_path hp
  /\ exists content,
       fs w manifest_path = Some (File content)
       /\ fs w' manifest_path = Some (File content)
       /\ fs w' lp = Some (File content)
       /\ fs w' hp = Some (File content)
       /\ fs w' (parent lp) = Some Dir /\ fs w' (parent hp) = Some Dir
       /\ manifest_path <> lp /\ manifest_path <> hp.
Proof.
  intros lp hp H Hlp Hhp.
  destruct (publish_local_Ok _ _ _ _ _ _ _ _ H) as (Hl & Hh & _).
  destruct (publish_local_effect _ _ _ _ _ _ _ _ H Hlp Hhp)
    as (c & Hm & Hl' & Hh' & Hld & Hhd & Hnl & Hnh & _ & _ & Hframe).
  split; [exact Hl|]. split; [exact Hh|]. exists c.
  split; [exact Hm|]. split.
  { destruct (Hframe manifest_path Hnl Hnh) as [E | (N & _)]; congruence. }
  split; [exact Hl'|]. split; [exact Hh'|].
  unfold lp, hp. rewrite parent_latest_path, parent_history_path. auto.
Qed.

(** X10.  A local publish changes nothing else: away from the two
    manifest paths every file and directory that was there is still
    there with the same content, and what was missing is still missing
    unless it is one of the directories on the way to a partition. *)
Theorem publish_local_keeps_the_rest (manifest_path : path)
  (project_name env : string) (registry_base : path) (w w' : World)
  (l h : string) (q : path) :
  let lp := latest_path registry_base project_name env in
  let hp := history_path registry_base project_name env (strftime (clock w)) in
  publish_local manifest_path project_name env registry_base w
  = (Ok (l, h), w') ->
  fs w lp <> Some Dir -> fs w hp <> Some Dir ->
  q <> lp -> q <> hp ->
  s3 w' = s3 w
  /\ (forall e, fs w q = Some e -> fs w' q = Some e)
  /\ (fs w q = None ->
      fs w' q = None
      \/ (fs w' q = Some Dir
          /\ (leads_to q (parent lp) \/ leads_to q (parent hp)))).
Proof.
  intros lp hp H Hlp Hhp Hq1 Hq2.
  destruct (publish_local_effect _ _ _ _ _ _ _ _ H Hlp Hhp)
    as (c & _ & _ & _ & _ & _ & _ & _ & Hs & _ & Hframe).
  split; [exact Hs|].
  unfold lp, hp. rewrite parent_latest_path, parent_history_path.
  destruct (Hframe q Hq1 Hq2) as [E | (N & D & L)]; split.
  - intros e He. congruence.
  - intros Hn. left. congruence.
  - intros e He. congruence.
  - intros _. right. auto.
Qed.

(** X11.  History accumulates: when the manifest is compiled again
    after a local publish and published a second time, at a clock reading
    with another timestamp, the history location of the first publish
    still holds what the first one published, while the history location
    of the second and the latest location hold the new manifest. *)
Theorem history_is_kept (manifest_path : path) (project_name env : string)
  (registry_base : path) (later : datetime) (recompiled : string)
  (w0 w1 w2 : World) (l1 h1 l2 h2 : string) :
  let lp := latest_path registry_base project_name env in
  let hp1 :=
    history_path registry_base project_name env (strftime (clock w0)) in
  let hp2 := history_path registry_base project_name env (strftime later) in
  publish_local manifest_path project_name env registry_base w0
  = (Ok (l1, h1), w1) ->
  publish_local manifest_path project_name env registry_base
    (set_clock later
       (set_fs (fs_write manifest_path (File recompiled) (fs w1)) w1))
  = (Ok (l2, h2), w2) ->
  strftime (clock w0) <> strftime later ->
  fs w0 lp <> Some Dir -> fs w0 hp1 <> Some Dir -> fs w0 hp2 <> Some Dir ->
  exists first,
    fs w0 manifest_path = Some (File first)
    /\ fs w2 hp1 = Some (File first)
    /\ fs w2 hp2 = Some (File recompiled)
    /\ fs w2 lp = Some (File recompiled).
Proof.
  intros lp hp1 hp2 H1 H2 Hts Hlp Hhp1 Hhp2.
  destruct (publish_local_effect _ _ _ _ _ _ _ _ H1 Hlp Hhp1)
    as (c1 & Hm0 & Hl1 & Hh1 & _ & _ & Hml & Hmh & _ & Hc1 & Hframe1).
  fold lp hp1 in Hl1, Hh1, Hframe1, Hml, Hmh.
  assert (Hd12 : hp2 <> hp1).
  { apply (history_paths_differ registry_base project_name env later (clock w0)).
    congruence. }
  assert (Hl2n : hp2 <> lp).
  { intros E. symmetry in E. revert E.
    apply (latest_is_not_history registry_base project_name env later). }
  assert (Hl1n : hp1 <> lp).
  { intros E. symmetry in E. revert E.
    apply (latest_is_not_history registry_base project_name env (clock w0)). }
  assert (Hhp2w1 : fs w1 hp2 <> Some Dir).
  { destruct (Hframe1 hp2 Hl2n Hd12) as [E | (_ & _ & [L | L])];
      [congruence | |].
    - now apply (history_path_leads_nowhere registry_base project_name env
                   later (clock w0)) in L.
    - now apply (history_path_leads_nowhere registry_base project_name env
                   later (clock w0)) in L. }
  set (w1' := set_clock later
                (set_fs (fs_write manifest_path (File recompiled) (fs w1)) w1))
    in *.
  assert (Hfs : forall q, q <> manifest_path -> fs w1' q = fs w1 q).
  { intros q Hq. unfold w1'. cbn [fs set_clock set_fs].
    now apply fs_write_other. }
  assert (Hnew : fs w1' manifest_path = Some (File recompiled)).
  { unfold w1'. cbn [fs set_clock set_fs]. apply fs_write_same. }
  assert (Hlp' : fs w1' lp <> Some Dir).
  { rewrite Hfs by (intros E; apply Hml; symmetry; exact E). congruence. }
  assert (Hhp2' : fs w1'
                    (history_path registry_base project_name env
                       (strftime (clock w1')))
                  <> Some Dir).
  { change (clock w1') with later. fold hp2.
    destruct (path_eqb hp2 manifest_path) eqn:E.
    - apply path_eqb_eq in E. rewrite E, Hnew. discriminate.
    - apply path_eqb_neq in E. rewrite Hfs by exact E. exact Hhp2w1. }
  destruct (publish_local_effect _ _ _ _ _ _ _ _ H2 Hlp' Hhp2')
    as (c2 & Hm1 & Hl2 & Hh2 & _ & _ & _ & _ & _ & _ & Hframe2).
  change (clock w1') with later in Hh2, Hframe2.
  fold lp hp2 in Hl2, Hh2, Hframe2.
  assert (c2 = recompiled) by congruence. subst c2.
  exists c1. split; [exact Hm0|]. split; [| split; [exact Hh2 | exact Hl2]].
  destruct (Hframe2 hp1 Hl1n (fun E => Hd12 (eq_sym E))) as [E | (N & _)].
  - rewrite E, Hfs by (intros E'; apply Hmh; symmetry; exact E').
    exact Hh1.
  - rewrite Hfs in N by (intros E'; apply Hmh; symmetry; exact E').
    congruence.
Qed.

(** ** The object-store backend *)

Section ObjectStore.

Variable HAS_BOTO3 : bool.

Local Abbreviation publish_s3 := (publish_s3 HAS_BOTO3).

Lemma publish_s3_effect (manifest_path : path) (project_name env bucket : string)
  (w w' : World) (l h : string) :
  publish_s3 manifest_path project_name env bucket w = (Ok (l, h), w') ->
  HAS_BOTO3 = true
  /\ exists content,
       fs w manifest_path = Some (File content)
       /\ fs w' = fs w /\ clock w' = clock w
       /\ s3 w'
          = s3_write bucket
              (history_key project_name env (strftime (clock w)))
              (json_object content)
              (s3_write bucket (latest_key project_name env)
                 (json_object content) (s3 w)).
Proof.
  unfold publish_manifest.publish_s3. destruct HAS_BOTO3; [| discriminate].
  cbn [negb]. intros H. split; [reflexivity|].
  apply bind_Ok in H as (now & w0 & Hnow & H).
  unfold utcnow in Hnow. injection Hnow as <- <-.
  apply bind_Ok in H as (c & wa & Hr & H).
  apply read_text_Ok in Hr as [Hr ->].
  apply bind_Ok in H as (u1 & wb & Hput1 & H).
  apply bind_Ok in H as (u2 & wc & Hput2 & H).
  apply bind_Ok in H as (u5 & we & Hp1 & H). apply print_Ok in Hp1.
  apply bind_Ok in H as (u6 & wf & Hp2 & H). apply print_Ok in Hp2.
  apply bind_Ok in H as (u7 & wg & Hp3 & H). apply print_Ok in Hp3.
  unfold ret in H. injection H as <- <- <-.
  unfold put_object in Hput1, Hput2.
  inversion Hput1; subst wb. inversion Hput2; subst wc. subst we wf wg.
  cbn [fs s3 stdout clock set_fs set_s3 set_stdout].
  exists c. repeat split; exact Hr.
Qed.


(** X13.  The two backends store the same content.  For a manifest of
    plain text, which the text-mode read of the object-store backend
    returns byte for byte, both publishes from the same world leave the
    content of the manifest in the local latest and history files and in
    the latest and history objects. *)
Theorem backends_store_the_same_content (manifest_path : path)
  (project_name env bucket : string) (registry_base : path)
  (w w_local w_s3 : World) (l h l' h' : string) (content : string) :
  let lp := latest_path registry_base project_name env in
  let hp := history_path registry_base project_name env (strftime (clock w)) in
  fs w manifest_path = Some (File content) ->
  plain_text content = true ->
  publish_local manifest_path project_name env registry_base w
  = (Ok (l, h), w_local) ->
  publish_s3 manifest_path project_name env bucket w = (Ok (l', h'), w_s3) ->
  fs w lp <> Some Dir -> fs w hp <> Some Dir ->
  fs w_local lp = Some (File content)
  /\ fs w_local hp = Some (File content)
  /\ option_map Body (s3 w_s3 bucket (latest_key project_name env))
     = Some content
  /\ option_map Body
       (s3 w_s3 bucket (history_key project_name env (strftime (clock w))))
     = Some content.
Proof.
  intros lp hp Hfile _ Hl Hs Hlp Hhp.
  destruct (publish_local_effect _ _ _ _ _ _ _ _ Hl Hlp Hhp)
    as (c & Hm & Hl1 & Hh1 & _).
  apply publish_s3_effect in Hs as (_ & c' & Hm' & _ & _ & Hs).
  assert (c = content) by congruence.
  assert (c' = content) by congruence. subst c c'.
  rewrite Hs. unfold s3_write, json_object.
  rewrite !String.eqb_refl. cbn [andb].
  destruct (String.eqb (latest_key project_name env)
              (history_key project_name env (strftime (clock w))));
    auto.
Qed.

(** X14.  The history location is a function of the timestamp: two
    publishes that return give the same history location exactly when
    their clock readings have the same timestamp, for both backends, so
    two publishes within one second share their history partition. *)
Theorem history_location_follows_timestamp (manifest_path : path)
  (project_name env bucket : string) (registry_base : path)
  (w1 w1' w2 w2' : World) (l1 h1 l2 h2 : string) :
  (publish_local manifest_path project_name env registry_base w1
   = (Ok (l1, h1), w1') ->
   publish_local manifest_path project_name env registry_base w2
   = (Ok (l2, h2), w2') ->
   (h1 = h2 <-> strftime (clock w1) = strftime (clock w2)))
  /\ (publish_s3 manifest_path project_name env bucket w1
      = (Ok (l1, h1), w1') ->
      publish_s3 manifest_path project_name env bucket w2
      = (Ok (l2, h2), w2') ->
      (h1 = h2 <-> strftime (clock w1) = strftime (clock w2))).
Proof.
  split; intros H1 H2.
  - apply publish_local_Ok in H1 as (_ & -> & _).
    apply publish_local_Ok in H2 as (_ & -> & _).
    split; [apply history_path_inj | intros ->; reflexivity].
  - apply (publish_s3_Ok HAS_BOTO3) in H1 as (_ & -> & _).
    apply (publish_s3_Ok HAS_BOTO3) in H2 as (_ & -> & _).
    split; [| intros ->; reflexivity].
    intros E. do 3 apply append_inv_head in E.
    now apply history_key_inj in E.
Qed.

End ObjectStore.

(** ** Timestamps *)

#[local] Arguments digit : simpl never.
#[local] Arguments Nat.div : simpl never.
#[local] Arguments Nat.modulo : simpl never.
#[local] Arguments Nat.pow : simpl never.

Lemma length_repeat_char (c : ascii) (n : nat) :
  String.length (repeat_char c n) = n.
Proof. induction n; simpl; [reflexivity | now rewrite IHn]. Qed.

Lemma digit_value (n : nat) : nat_of_ascii (digit n) - 48 = n mod 10.
Proof.
  unfold digit. assert (H : n mod 10 < 10) by (apply Nat.mod_upper_bound; lia).
  rewrite nat_ascii_embedding by lia. lia.
Qed.

Lemma length_digits_fuel (fuel n : nat) (acc : string) (k : nat) :
  1 <= k -> n < 10 ^ k ->
  String.length (digits_fuel fuel n acc) <= String.length acc + k.
Proof.
  revert n acc k. induction fuel as [|fuel IH]; intros n acc k Hk Hn; simpl;
    [lia|].
  destruct (Nat.eqb_spec (n / 10) 0) as [E | E]; simpl; [lia|].
  destruct k as [|[|k]]; [lia | |].
  - exfalso. apply E. apply Nat.div_small. simpl in Hn.
    change (10 ^ 1) with 10 in Hn. exact Hn.
  - specialize (IH (n / 10) (String (digit n) acc) (S k)).
    simpl in IH. assert (Hdiv : n / 10 < 10 ^ S k).
    { apply Nat.Div0.div_lt_upper_bound.
      rewrite <- Nat.pow_succ_r'. exact Hn. }
    specialize (IH ltac:(lia) Hdiv). lia.
Qed.

Lemma decimal_value_digits_fuel (fuel n : nat) (acc : string) :
  n < fuel ->
  decimal_value (digits_fuel fuel n acc)
  = n * 10 ^ String.length acc + decimal_value acc.
Proof.
  revert n acc. induction fuel as [|fuel IH]; intros n acc Hf; [lia|].
  cbn [digits_fuel].
  assert (Hn : n = 10 * (n / 10) + n mod 10) by apply Nat.div_mod_eq.
  destruct (Nat.eqb_spec (n / 10) 0) as [E | E].
  - cbn [decimal_value]. rewrite digit_value. rewrite E in Hn.
    replace (n mod 10) with n by lia. reflexivity.
  - rewrite IH.
    + cbn [decimal_value String.length]. rewrite digit_value.
      rewrite Nat.pow_succ_r'. rewrite Hn at 3. ring.
    + assert (n / 10 < n) by (apply Nat.div_lt; lia). lia.
Qed.

Lemma decimal_value_str_of_nat (n : nat) : decimal_value (str_of_nat n) = n.
Proof.
  unfold str_of_nat. rewrite decimal_value_digits_fuel by lia.
  cbn [String.length decimal_value]. change (10 ^ 0) with 1. lia.
Qed.

Lemma decimal_value_zeros (k : nat) (s : string) :
  decimal_value (repeat_char "0" k ++ s) = decimal_value s.
Proof.
  induction k as [|k IH]; [reflexivity|].
  cbn [repeat_char append decimal_value]. rewrite IH. reflexivity.
Qed.

Lemma decimal_value_zero_pad (width n : nat) :
  decimal_value (zero_pad width n) = n.
Proof.
  unfold zero_pad. now rewrite decimal_value_zeros, decimal_value_str_of_nat.
Qed.

Lemma length_zero_pad (width n : nat) :
  1 <= width -> n < 10 ^ width -> String.length (zero_pad width n) = width.
Proof.
  intros Hw Hn. unfold zero_pad. rewrite length_append, length_repeat_char.
  assert (H := length_digits_fuel (S n) n EmptyString width Hw Hn).
  unfold str_of_nat. cbn [String.length] in H. lia.
Qed.

Lemma append_eq_split (a a' b b' : string) :
  String.length a = String.length a' ->
  (a ++ b = a' ++ b')%string -> a = a' /\ b = b'.
Proof.
  revert a'. induction a as [|c a IH]; intros [|c' a'] Hlen H;
    simpl in Hlen; try discriminate.
  - auto.
  - simpl in H. injection H as -> H.
    destruct (IH a' ltac:(lia) H) as [-> ->]. auto.
Qed.

Lemma datetime_ok_bounds (d : datetime) :
  datetime_ok d ->
  year d < 10 ^ 4 /\ month d < 10 ^ 2 /\ day d < 10 ^ 2
  /\ hour d < 10 ^ 2 /\ minute d < 10 ^ 2 /\ second d < 10 ^ 2.
Proof.
  intros (Hy & Hm & Hd & Hh & Hmi & Hs).
  change (10 ^ 2) with 100. repeat split; try lia.
  apply Nat2Z.inj_lt. rewrite Nat2Z.inj_pow. change (Z.of_nat 10 ^ Z.of_nat 4)%Z
    with 10000%Z. lia.
Qed.

(** X15.  On clock readings with a year of four digits the timestamp has
    16 characters and determines the reading to the second: two readings
    with the same timestamp are equal. *)
Theorem timestamp_determines_the_second (d1 d2 : datetime) :
  datetime_ok d1 -> datetime_ok d2 ->
  String.length (strftime d1) = 16
  /\ (strftime d1 = strftime d2 -> d1 = d2).
Proof.
  intros H1 H2.
  destruct (datetime_ok_bounds d1 H1) as (Y1 & M1 & D1 & h1 & m1 & s1).
  destruct (datetime_ok_bounds d2 H2) as (Y2 & M2 & D2 & h2 & m2 & s2).
  assert (L : forall w n n', 1 <= w -> n < 10 ^ w -> n' < 10 ^ w ->
                             String.length (zero_pad w n)
                             = String.length (zero_pad w n'))
    by (intros w n n' Hw Hn Hn'; now rewrite !length_zero_pad).
  split.
  - unfold strftime. rewrite !length_append, !length_zero_pad by (auto; lia).
    reflexivity.
  - unfold strftime. intros E.
    apply append_eq_split in E as [Ey E]; [| apply L; auto; lia].
    apply append_eq_split in E as [Em E]; [| apply L; auto; lia].
    apply append_eq_split in E as [Ed E]; [| apply L; auto; lia].
    apply append_eq_split in E as [_ E]; [| reflexivity].
    apply append_eq_split in E as [Eh E]; [| apply L; auto; lia].
    apply append_eq_split in E as [Emi E]; [| apply L; auto; lia].
    apply append_eq_split in E as [Es _]; [| apply L; auto; lia].
    apply (f_equal decimal_value) in Ey, Em, Ed, Eh, Emi, Es.
    rewrite !decimal_value_zero_pad in Ey, Em, Ed, Eh, Emi, Es.
    destruct d1, d2. simpl in *. congruence.
Qed.

(** ** The scan for public models *)

Lemma public_models_of_outcome (items : dict json) :
  (exists l, public_models_of items = Ok l)
  \/ (exists tn, public_models_of items = Raise (AttributeError tn "get")).
Proof.
  induction items as [|[k node] items IH]; [left; simpl; eauto|].
  cbn [public_models_of].
  destruct node; try (right; simpl; eauto; fail).
  cbn [py_get rbind].
  destruct (py_eq_str _ "model").
  - cbn [py_get rbind].
    destruct IH as [[l ->] | [tn ->]]; cbn [rbind]; [left | right]; eauto.
  - cbn [rbind].
    destruct IH as [[l ->] | [tn ->]]; cbn [rbind]; [left | right]; eauto.
Qed.

Lemma public_models_of_dicts (items : dict json) :
  (forall k v, In (k, v) items -> is_dict v = true) ->
  public_models_of items
  = Ok (map fst (filter (fun kv => is_public_model (snd kv)) items)).
Proof.
  induction items as [|[k node] items IH]; intros Hd; [reflexivity|].
  assert (Hn := Hd k node (or_introl eq_refl)).
  destruct node; try discriminate.
  cbn [public_models_of py_get rbind filter snd is_public_model].
  rewrite IH by (intros k' v' H; apply (Hd k' v'); now right).
  unfold field_is.
  destruct (dict_get "resource_type" items0) as [rt|];
    [destruct (py_eq_str rt "model") |]; cbn [py_eq_str rbind andb py_get];
    try reflexivity.
  destruct (dict_get "access" items0) as [ac|];
    [destruct (py_eq_str ac "public") |]; reflexivity.
Qed.

(** X16.  On nodes that are all dictionaries the scan returns the
    identifiers of the nodes whose [resource_type] is [model] and whose
    [access] is [public], in the order of [nodes]; a node without one of
    the two fields is skipped.  A node that is not a dictionary makes the
    scan raise [AttributeError]. *)
Theorem public_models_are_the_public_model_nodes (m : json)
  (items : dict json) :
  py_get m "nodes" (JObj []) = Ok (JObj items) ->
  ((forall k v, In (k, v) items -> is_dict v = true) ->
   find_public_models m
   = Ok (map fst (filter (fun kv => is_public_model (snd kv)) items)))
  /\ (forall k v,
        In (k, v) items -> is_dict v = false ->
        exists tn, find_public_models m = Raise (AttributeError tn "get")).
Proof.
  intros Hget. unfold find_public_models. rewrite Hget. cbn [rbind py_items].
  split; [apply public_models_of_dicts|].
  intros k v Hin Hv.
  destruct (public_models_of_outcome items) as [[l H] | H]; [| exact H].
  exfalso. clear Hget. revert l H.
  induction items as [|[k0 node] items IH]; intros l H; [destruct Hin|].
  cbn [public_models_of] in H.
  destruct Hin as [[= -> ->] | Hin].
  - destruct v; discriminate.
  - destruct (py_get node "resource_type" JNull) as [rt|]; [|discriminate].
    cbn [rbind] in H.
    destruct (if py_eq_str rt "model"
              then access <-- py_get node "access" JNull ;;
                   Ok (py_eq_str access "public")
              else Ok false) as [keep|]; [|discriminate].
    cbn [rbind] in H.
    destruct (public_models_of items) as [rest|] eqn:E; [|discriminate].
    apply (IH Hin rest eq_refl).
Qed.

(** ** Failures before anything is written *)

Section Failures.

Variable json_loads : string -> string + json.
Variable repr_str : string -> string.
Variable script_dir : path.
Variable HAS_BOTO3 : bool.

Local Abbreviation main := (main json_loads repr_str script_dir HAS_BOTO3).

Let manifest_path : path := script_dir // "target" // "manifest.json".
Let found : string := ("Found manifest: " ++ str_of_path manifest_path)%string.

(** X17.  When the manifest path is a directory, when the manifest does
    not parse, and when the scan of its nodes raises, [main] raises that
    error after printing one line, before the publish step: the registry
    is as it was. *)
Theorem main_fails_before_publishing (a : args) (w : World) :
  (fs w manifest_path = Some Dir ->
   main a w
   = (Raise (IsADirectoryError
               ("[Errno 21] Is a directory: '" ++ str_of_path manifest_path
                ++ "'")),
      set_stdout (stdout w ++ [found]) w))
  /\ (forall content msg,
        fs w manifest_path = Some (File content) ->
        json_loads content = inl msg ->
        main a w
        = (Raise (JSONDecodeError msg), set_stdout (stdout w ++ [found]) w))
  /\ (forall content m e,
        fs w manifest_path = Some (File content) ->
        json_loads content = inr m ->
        find_public_models m = Raise e ->
        main a w = (Raise e, set_stdout (stdout w ++ [found]) w)).
Proof.
  split; [| split].
  - intros H. unfold publish_manifest.main.
    unfold bind at 1. unfold publish_manifest.get_manifest_path.
    fold manifest_path. unfold bind at 1, path_exists at 1. rewrite H.
    cbn [negb]. unfold ret at 1. unfold bind at 1, print at 1.
    unfold bind at 1, json_load at 1. unfold bind at 1, read_text at 1.
    cbn [fs set_stdout]. rewrite H. reflexivity.
  - intros content msg H Hl. unfold publish_manifest.main.
    unfold bind at 1. unfold publish_manifest.get_manifest_path.
    fold manifest_path. unfold bind at 1, path_exists at 1. rewrite H.
    cbn [negb]. unfold ret at 1. unfold bind at 1, print at 1.
    unfold bind at 1, json_load at 1. unfold bind at 1, read_text at 1.
    cbn [fs set_stdout]. rewrite H, Hl. reflexivity.
  - intros content m e H Hl Hs. unfold publish_manifest.main.
    unfold bind at 1. unfold publish_manifest.get_manifest_path.
    fold manifest_path. unfold bind at 1, path_exists at 1. rewrite H.
    cbn [negb]. unfold ret at 1. unfold bind at 1, print at 1.
    unfold bind at 1, json_load at 1. unfold bind at 1, read_text at 1.
    cbn [fs set_stdout]. rewrite H, Hl. unfold ret at 1.
    unfold bind at 1, lift at 1. rewrite Hs. reflexivity.
Qed.

(** X18.  Without [--local], a missing or empty bucket makes [main] raise
    [ValueError], and a bucket without [boto3] makes it raise
    [ImportError]; both happen after the two lines about the manifest are
    printed and before any read of the clock or write: the registry is as
    it was. *)
Theorem main_fails_without_a_destination (a : args) (w : World)
  (content : string) (m : json) (public_models : list string) :
  fs w manifest_path = Some (File content) ->
  json_loads content = inr m ->
  find_public_models m = Ok public_models ->
  local a = false ->
  let printed :=
    set_stdout
      (stdout w ++ [found; public_models_line repr_str public_models]) w in
  (bucket a = None \/ bucket a = Some EmptyString ->
   main a w
   = (Raise (ValueError
               "S3 bucket required. Set --bucket or DBT_MESH_BUCKET env var"),
      printed))
  /\ (forall c b,
        bucket a = Some (String c b) -> HAS_BOTO3 = false ->
        main a w
        = (Raise (ImportError
                    "boto3 required for S3 publishing. Install with: pip install boto3"),
           printed)).
Proof.
  intros Hfile Hloads Hscan Hlocal printed.
  assert (Hrun := main_runs json_loads repr_str script_dir HAS_BOTO3 a w
                    content m public_models Hfile Hloads Hscan).
  fold manifest_path found printed in Hrun. rewrite Hrun.
  unfold publish_manifest.publish. rewrite Hlocal. split.
  - intros [-> | ->]; reflexivity.
  - intros c b -> Hb. unfold bind at 1. unfold bind at 1.
    unfold publish_manifest.publish_s3. rewrite Hb. reflexivity.
Qed.

End Failures.

(** ** The further properties on sample runs *)

Lemma local_first_returns :
  fst publisher_samples.local_first
  = Ok ("/repo/dbt_up/../registry/dbt_up/prod/latest/manifest.json",
        "/repo/dbt_up/../registry/dbt_up/prod/history/20261104T090500Z/manifest.json").
Proof. vm_compute. reflexivity. Qed.

Lemma local_second_returns :
  fst publisher_samples.local_second
  = Ok ("/repo/dbt_up/../registry/dbt_up/prod/latest/manifest.json",
        "/repo/dbt_up/../registry/dbt_up/prod/history/20261104T090501Z/manifest.json").
Proof. vm_compute. reflexivity. Qed.

Lemma s3_first_returns :
  fst publisher_samples.s3_first
  = Ok ("s3://mesh/registry/dbt_up/prod/latest/manifest.json",
        "s3://mesh/registry/dbt_up/prod/history/20261104T090500Z/manifest.json").
Proof. vm_compute. reflexivity. Qed.

Lemma s3_second_returns :
  fst publisher_samples.s3_second
  = Ok ("s3://mesh/registry/dbt_up/prod/latest/manifest.json",
        "s3://mesh/registry/dbt_up/prod/history/20261104T090501Z/manifest.json").
Proof. vm_compute. reflexivity. Qed.

Lemma publish_local_writes_both_partitions_witness :
  exists content,
    fs publisher_samples.compiled publisher_samples.manifest_path
    = Some (File content)
    /\ fs (snd publisher_samples.local_first)
         (latest_path publisher_samples.registry_base "dbt_up" "prod")
       = Some (File content)
    /\ fs (snd publisher_samples.local_first)
         (history_path publisher_samples.registry_base "dbt_up" "prod"
            (strftime samples.now))
       = Some (File content).
Proof.
  assert (Hl : fs publisher_samples.compiled
                 (latest_path publisher_samples.registry_base "dbt_up" "prod")
               <> Some Dir) by (vm_compute; discriminate).
  assert (Hh : fs publisher_samples.compiled
                 (history_path publisher_samples.registry_base "dbt_up" "prod"
                    (strftime (clock publisher_samples.compiled)))
               <> Some Dir) by (vm_compute; discriminate).
  destruct (publish_local_writes_both_partitions
              publisher_samples.manifest_path "dbt_up" "prod"
              publisher_samples.registry_base publisher_samples.compiled
              _ _ _ (run_eq _ _ local_first_returns) Hl Hh)
    as (_ & _ & c & Hm & _ & Hlp & Hhp & _).
  exists c. split; [exact Hm|]. split; [exact Hlp | exact Hhp].
Defined.

Lemma publish_local_keeps_the_rest_witness :
  fs (snd publisher_samples.local_first) publisher_samples.manifest_path
  = Some (File samples.doc_empty)
  /\ s3 (snd publisher_samples.local_first) = s3 publisher_samples.compiled.
Proof.
  assert (Hl : fs publisher_samples.compiled
                 (latest_path publisher_samples.registry_base "dbt_up" "prod")
               <> Some Dir) by (vm_compute; discriminate).
  assert (Hh : fs publisher_samples.compiled
                 (history_path publisher_samples.registry_base "dbt_up" "prod"
                    (strftime (clock publisher_samples.compiled)))
               <> Some Dir) by (vm_compute; discriminate).
  assert (Hq1 : publisher_samples.manifest_path
                <> latest_path publisher_samples.registry_base "dbt_up" "prod")
    by (vm_compute; discriminate).
  assert (Hq2 : publisher_samples.manifest_path
                <> history_path publisher_samples.registry_base "dbt_up" "prod"
                     (strftime (clock publisher_samples.compiled)))
    by (vm_compute; discriminate).
  destruct (publish_local_keeps_the_rest
              publisher_samples.manifest_path "dbt_up" "prod"
              publisher_samples.registry_base publisher_samples.compiled
              _ _ _ publisher_samples.manifest_path
              (run_eq _ _ local_first_returns) Hl Hh Hq1 Hq2)
    as (Hs & Hkeep & _).
  split; [apply Hkeep; reflexivity | exact Hs].
Defined.

Lemma local_recompiled_returns :
  fst coverage_samples.local_recompiled
  = Ok ("/repo/dbt_up/../registry/dbt_up/prod/latest/manifest.json",
        "/repo/dbt_up/../registry/dbt_up/prod/history/20261104T090501Z/manifest.json").
Proof. vm_compute. reflexivity. Qed.

Lemma history_is_kept_witness :
  fs (snd coverage_samples.local_recompiled)
    (history_path publisher_samples.registry_base "dbt_up" "prod"
       (strftime samples.now))
  = Some (File samples.doc_empty)
  /\ fs (snd coverage_samples.local_recompiled)
       (history_path publisher_samples.registry_base "dbt_up" "prod"
          (strftime samples.later))
     = Some (File samples.doc_overlap).
Proof.
  assert (Hts : strftime (clock publisher_samples.compiled)
                <> strftime samples.later)
    by (vm_compute; discriminate).
  assert (Hl : fs publisher_samples.compiled
                 (latest_path publisher_samples.registry_base "dbt_up" "prod")
               <> Some Dir) by (vm_compute; discriminate).
  assert (Hh1 : fs publisher_samples.compiled
                  (history_path publisher_samples.registry_base "dbt_up" "prod"
                     (strftime (clock publisher_samples.compiled)))
                <> Some Dir) by (vm_compute; discriminate).
  assert (Hh2 : fs publisher_samples.compiled
                  (history_path publisher_samples.registry_base "dbt_up" "prod"
                     (strftime samples.later))
                <> Some Dir) by (vm_compute; discriminate).
  assert (Hm : fs publisher_samples.compiled publisher_samples.manifest_path
               = Some (File samples.doc_empty)) by reflexivity.
  destruct (history_is_kept publisher_samples.manifest_path "dbt_up" "prod"
              publisher_samples.registry_base samples.later
              samples.doc_overlap publisher_samples.compiled _ _ _ _ _ _
              (run_eq _ _ local_first_returns)
              (run_eq _ _ local_recompiled_returns) Hts Hl Hh1 Hh2)
    as (first & Hfirst & Hkept & Hnew & _).
  assert (first = samples.doc_empty) by congruence. subst first.
  split; [exact Hkept | exact Hnew].
Defined.


Lemma backends_store_the_same_content_witness :
  fs (snd publisher_samples.local_first)
    (latest_path publisher_samples.registry_base "dbt_up" "prod")
  = Some (File samples.doc_empty)
  /\ option_map Body
       (s3 (snd publisher_samples.s3_first) "mesh"
          (latest_key "dbt_up" "prod"))
     = Some samples.doc_empty.
Proof.
  assert (Hl : fs publisher_samples.compiled
                 (latest_path publisher_samples.registry_base "dbt_up" "prod")
               <> Some Dir) by (vm_compute; discriminate).
  assert (Hh : fs publisher_samples.compiled
                 (history_path publisher_samples.registry_base "dbt_up" "prod"
                    (strftime (clock publisher_samples.compiled)))
               <> Some Dir) by (vm_compute; discriminate).
  destruct (backends_store_the_same_content true
              publisher_samples.manifest_path "dbt_up" "prod" "mesh"
              publisher_samples.registry_base publisher_samples.compiled
              _ _ _ _ _ _ samples.doc_empty eq_refl eq_refl
              (run_eq _ _ local_first_returns) (run_eq _ _ s3_first_returns)
              Hl Hh)
    as (Hlp & _ & Hlk & _).
  split; [exact Hlp | exact Hlk].
Defined.

Lemma history_location_follows_timestamp_witness :
  ("/repo/dbt_up/../registry/dbt_up/prod/history/20261104T090500Z/manifest.json"
   = "/repo/dbt_up/../registry/dbt_up/prod/history/20261104T090501Z/manifest.json"
   <-> strftime samples.now = strftime samples.later)
  /\ ("s3://mesh/registry/dbt_up/prod/history/20261104T090500Z/manifest.json"
      = "s3://mesh/registry/dbt_up/prod/history/20261104T090501Z/manifest.json"
      <-> strftime samples.now = strftime samples.later).
Proof.
  split.
  - exact (proj1 (history_location_follows_timestamp true
                    publisher_samples.manifest_path "dbt_up" "prod" "mesh"
                    publisher_samples.registry_base
                    publisher_samples.compiled _
                    (set_clock samples.later (snd publisher_samples.local_first))
                    _ _ _ _ _)
             (run_eq _ _ local_first_returns)
             (run_eq _ _ local_second_returns)).
  - exact (proj2 (history_location_follows_timestamp true
                    publisher_samples.manifest_path "dbt_up" "prod" "mesh"
                    publisher_samples.registry_base
                    publisher_samples.compiled _
                    (set_clock samples.later (snd publisher_samples.s3_first))
                    _ _ _ _ _)
             (run_eq _ _ s3_first_returns)
             (run_eq _ _ s3_second_returns)).
Defined.

Lemma timestamp_determines_the_second_witness :
  String.length (strftime samples.now) = 16
  /\ (strftime samples.now = strftime samples.later
      -> samples.now = samples.later).
Proof.
  apply (timestamp_determines_the_second samples.now samples.later);
    unfold datetime_ok; cbn [year month day hour minute second samples.now
                              samples.later]; lia.
Defined.

Lemma public_models_are_the_public_model_nodes_witness :
  find_public_models coverage_samples.manifest_three = Ok ["model.down.a"]
  /\ exists tn,
       find_public_models coverage_samples.manifest_bad_node
       = Raise (AttributeError tn "get").
Proof.
  split.
  - refine (proj1 (public_models_are_the_public_model_nodes
                     coverage_samples.manifest_three
                     coverage_samples.three_nodes eq_refl) _).
    intros k v [[= <- <-] | [[= <- <-] | [[= <- <-] | []]]]; reflexivity.
  - refine (proj2 (public_models_are_the_public_model_nodes
                     coverage_samples.manifest_bad_node
                     [("model.down.a", JNull)] eq_refl)
              "model.down.a" JNull _ eq_refl).
    left. reflexivity.
Defined.

Lemma main_fails_before_publishing_witness :
  fst (main samples.loads publisher_samples.repr_str
         publisher_samples.script_dir true publisher_samples.local_args
         coverage_samples.manifest_is_directory)
  = Raise (IsADirectoryError
             ("[Errno 21] Is a directory: '"
              ++ str_of_path publisher_samples.manifest_path ++ "'"))
  /\ (exists msg,
        fst (main samples.loads publisher_samples.repr_str
               publisher_samples.script_dir true publisher_samples.local_args
               coverage_samples.truncated)
        = Raise (JSONDecodeError msg))
  /\ (exists e,
        fst (main coverage_samples.loads_bad_node publisher_samples.repr_str
               publisher_samples.script_dir true publisher_samples.local_args
               coverage_samples.bad_node)
        = Raise e).
Proof.
  split; [| split].
  - exact (f_equal fst
             (proj1 (main_fails_before_publishing samples.loads
                       publisher_samples.repr_str publisher_samples.script_dir
                       true publisher_samples.local_args
                       coverage_samples.manifest_is_directory)
                eq_refl)).
  - eexists.
    exact (f_equal fst
             (proj1 (proj2 (main_fails_before_publishing samples.loads
                              publisher_samples.repr_str
                              publisher_samples.script_dir true
                              publisher_samples.local_args
                              coverage_samples.truncated))
                samples.doc_broken _ eq_refl eq_refl)).
  - eexists.
    exact (f_equal fst
             (proj2 (proj2 (main_fails_before_publishing
                              coverage_samples.loads_bad_node
                              publisher_samples.repr_str
                              publisher_samples.script_dir true
                              publisher_samples.local_args
                              coverage_samples.bad_node))
                "bad node" coverage_samples.manifest_bad_node _
                eq_refl eq_refl eq_refl)).
Defined.

Lemma main_fails_without_a_destination_witness :
  fst (main samples.loads publisher_samples.repr_str
         publisher_samples.script_dir true coverage_samples.no_bucket_args
         publisher_samples.compiled)
  = Raise (ValueError
             "S3 bucket required. Set --bucket or DBT_MESH_BUCKET env var")
  /\ fst (main samples.loads publisher_samples.repr_str
            publisher_samples.script_dir false publisher_samples.s3_args
            publisher_samples.compiled)
     = Raise (ImportError
                "boto3 required for S3 publishing. Install with: pip install boto3").
Proof.
  split.
  - exact (f_equal fst
             (proj1 (main_fails_without_a_destination samples.loads
                       publisher_samples.repr_str publisher_samples.script_dir
                       true coverage_samples.no_bucket_args
                       publisher_samples.compiled samples.doc_empty (JObj [])
                       [] eq_refl eq_refl eq_refl eq_refl)
                (or_introl eq_refl))).
  - exact (f_equal fst
             (proj2 (main_fails_without_a_destination samples.loads
                       publisher_samples.repr_str publisher_samples.script_dir
                       false publisher_samples.s3_args
                       publisher_samples.compiled samples.doc_empty (JObj [])
                       [] eq_refl eq_refl eq_refl eq_refl)
                "m"%char "esh" eq_refl eq_refl)).
Defined.

End publish_manifest_coverage.
